(** * STORM research pipeline: a shallow embedding and its checked properties

    The development follows [backend/agent/storm_research.py]
    (class [ParallelStormResearchSystem]), [app/services/storm_service.py]
    (class [StormService]) and the gate helper of
    [app/services/agent_service.py].

    Conventions of the embedding.
    - A Python [str] is represented by its UTF-8 encoding, a Rocq [string]
      (one [ascii] per byte).  Substring tests, [startswith], [split] on an
      ASCII separator and the removal of non-ASCII characters commute with
      the encoding, and [name.encode('utf-8')] is the identity.
    - A Python [int] is a [Z]; [len] is [Z.of_nat (length _)].
    - A [dict] whose iteration order the code relies on is a [PyDict.t], an
      association list in insertion order; the registry of pending
      interactions and [step_times] are [gmap]s.
    - Calls to the language-model provider, the search engine and the human
      reviewer are read from a [World] record of oracles; the code has no
      influence on what they answer.
    - An exception is a value [Raise e] of the [Result] type, [e] being its
      message.
    - Console output, prompts, timestamps and durations are not modelled,
      nor is the cancellation of a task or of a run. *)

From Stdlib Require Import ZArith Ascii String List Lia Bool.
From stdpp Require Import base option list strings gmap fin_maps sorting.

Local Open Scope string_scope.
Local Open Scope list_scope.
Local Open Scope Z_scope.

(* ===================================================================== *)
(** * Part I.  Definitions                                                *)
(* ===================================================================== *)

(** ** Python string primitives *)

Module PyStr.

Definition code (c : ascii) : Z := Z.of_nat (nat_of_ascii c).

Definition of_list (l : list ascii) : string := string_of_list_ascii l.
Definition to_list (s : string) : list ascii := list_ascii_of_string s.

(** [s.startswith(p)] *)
Fixpoint startswith (p s : string) : bool :=
  match p, s with
  | EmptyString, _ => true
  | String a p', String b s' => if Ascii.eqb a b then startswith p' s' else false
  | String _ _, EmptyString => false
  end.

(** [sub in s] *)
Fixpoint contains (sub s : string) : bool :=
  startswith sub s ||
  match s with
  | EmptyString => false
  | String _ s' => contains sub s'
  end.

(** Drop the first [n] bytes. *)
Fixpoint drop (n : nat) (s : string) : string :=
  match n, s with
  | O, _ => s
  | S n', String _ s' => drop n' s'
  | S _, EmptyString => EmptyString
  end.

(** [s[:n]] for a non-negative [n]. *)
Fixpoint take (n : nat) (s : string) : string :=
  match n, s with
  | S n', String c s' => String c (take n' s')
  | _, _ => EmptyString
  end.

(** [s[:n]] for a non-negative [n], counted in characters: a byte of the
    form 10xxxxxx continues the character before it. *)
Definition is_continuation (c : ascii) : bool :=
  (128 <=? code c) && (code c <? 192).

Fixpoint take_chars (n : nat) (s : string) : string :=
  match s with
  | EmptyString => EmptyString
  | String c s' =>
      if is_continuation c then String c (take_chars n s')
      else match n with
           | O => EmptyString
           | S n' => String c (take_chars n' s')
           end
  end.

(** [s.split(sep)] for a non-empty separator: the pieces between the
    non-overlapping occurrences of [sep], scanned from the left.  [cur]
    holds the bytes of the piece being read, most recent first. *)
Fixpoint split_aux (fuel : nat) (sep : string) (cur : list ascii) (s : string)
  : list string :=
  match fuel with
  | O => [of_list (rev cur)]
  | S fuel' =>
      match s with
      | EmptyString => [of_list (rev cur)]
      | String c s' =>
          if startswith sep s
          then of_list (rev cur) :: split_aux fuel' sep [] (drop (String.length sep) s)
          else split_aux fuel' sep (c :: cur) s'
      end
  end.

Definition split (sep s : string) : list string :=
  split_aux (S (String.length s)) sep [] s.

(** [sep.join(parts)] *)
Fixpoint join (sep : string) (parts : list string) : string :=
  match parts with
  | [] => EmptyString
  | [p] => p
  | p :: rest => p +:+ sep +:+ join sep rest
  end.

(** The characters [str.isspace] accepts, as UTF-8 byte sequences:
    U+0009..U+000D, U+001C..U+001F, U+0020, U+0085, U+00A0, U+1680,
    U+2000..U+200A, U+2028, U+2029, U+202F, U+205F, U+3000. *)
Definition whitespace : list (list Z) :=
  [ [9]; [10]; [11]; [12]; [13]; [28]; [29]; [30]; [31]; [32];
    [194; 133]; [194; 160]; [225; 154; 128];
    [226; 128; 128]; [226; 128; 129]; [226; 128; 130]; [226; 128; 131];
    [226; 128; 132]; [226; 128; 133]; [226; 128; 134]; [226; 128; 135];
    [226; 128; 136]; [226; 128; 137]; [226; 128; 138];
    [226; 128; 168]; [226; 128; 169]; [226; 128; 175]; [226; 129; 159];
    [227; 128; 128] ].

Fixpoint has_prefix (p l : list Z) : bool :=
  match p, l with
  | [], _ => true
  | a :: p', b :: l' => (a =? b) && has_prefix p' l'
  | _ :: _, [] => false
  end.

(** Length of the whitespace character [l] starts with, if any. *)
Definition space_at (table : list (list Z)) (l : list Z) : option nat :=
  match List.filter (fun w => has_prefix w l) table with
  | w :: _ => Some (length w)
  | [] => None
  end.

Fixpoint lstrip_aux (fuel : nat) (table : list (list Z)) (l : list Z) : list Z :=
  match fuel with
  | O => l
  | S fuel' =>
      match space_at table l with
      | Some (S k) => lstrip_aux fuel' table (skipn (S k) l)
      | _ => l
      end
  end.

Definition lstrip_codes (table : list (list Z)) (l : list Z) : list Z :=
  lstrip_aux (length l) table l.

Definition of_codes (l : list Z) : string :=
  of_list (map (fun z => ascii_of_nat (Z.to_nat z)) l).
Definition to_codes (s : string) : list Z := map code (to_list s).

(** [s.strip()] *)
Definition strip (s : string) : string :=
  let l := lstrip_codes whitespace (to_codes s) in
  let r := lstrip_codes (map (@rev Z) whitespace) (rev l) in
  of_codes (rev r).

(** Keep the bytes that satisfy [keep]. *)
Fixpoint filter_chars (keep : ascii -> bool) (s : string) : string :=
  match s with
  | EmptyString => EmptyString
  | String c s' =>
      if keep c then String c (filter_chars keep s') else filter_chars keep s'
  end.

Fixpoint all_chars (keep : ascii -> bool) (s : string) : bool :=
  match s with
  | EmptyString => true
  | String c s' => keep c && all_chars keep s'
  end.

Definition is_empty (s : string) : bool :=
  match s with EmptyString => true | _ => false end.

End PyStr.

(** ** [hashlib.md5(...).hexdigest()] (RFC 1321) *)

Module Md5.

Definition wrap (x : Z) : Z := x mod 2 ^ 32.
Definition add32 (a b : Z) : Z := wrap (a + b).
Definition not32 (a : Z) : Z := Z.lxor a (Z.ones 32).
Definition rotl32 (x c : Z) : Z :=
  Z.lor (wrap (Z.shiftl x c)) (Z.shiftr x (32 - c)).

Definition shifts : list Z :=
  [7; 12; 17; 22; 7; 12; 17; 22; 7; 12; 17; 22; 7; 12; 17; 22;
   5; 9; 14; 20; 5; 9; 14; 20; 5; 9; 14; 20; 5; 9; 14; 20;
   4; 11; 16; 23; 4; 11; 16; 23; 4; 11; 16; 23; 4; 11; 16; 23;
   6; 10; 15; 21; 6; 10; 15; 21; 6; 10; 15; 21; 6; 10; 15; 21].

(** [floor (2^32 * abs (sin (i + 1)))] for [i = 0 .. 63]. *)
Definition sines : list Z :=
  [3614090360; 3905402710; 606105819; 3250441966; 4118548399; 1200080426;
   2821735955; 4249261313; 1770035416; 2336552879; 4294925233; 2304563134;
   1804603682; 4254626195; 2792965006; 1236535329; 4129170786; 3225465664;
   643717713; 3921069994; 3593408605; 38016083; 3634488961; 3889429448;
   568446438; 3275163606; 4107603335; 1163531501; 2850285829; 4243563512;
   1735328473; 2368359562; 4294588738; 2272392833; 1839030562; 4259657740;
   2763975236; 1272893353; 4139469664; 3200236656; 681279174; 3936430074;
   3572445317; 76029189; 3654602809; 3873151461; 530742520; 3299628645;
   4096336452; 1126891415; 2878612391; 4237533241; 1700485571; 2399980690;
   4293915773; 2240044497; 1873313359; 4264355552; 2734768916; 1309151649;
   4149444226; 3174756917; 718787259; 3951481745].

Definition nthZ (l : list Z) (i : Z) : Z := nth (Z.to_nat i) l 0.

(** The [n] low bytes of [x], least significant first. *)
Fixpoint le_bytes (n : nat) (x : Z) : list Z :=
  match n with
  | O => []
  | S n' => x mod 256 :: le_bytes n' (x / 256)
  end.

Fixpoint le_word (bytes : list Z) : Z :=
  match bytes with
  | [] => 0
  | b :: rest => b + 256 * le_word rest
  end.

Definition pad (msg : list Z) : list Z :=
  let len := Z.of_nat (length msg) in
  msg ++ [128] ++ repeat 0 (Z.to_nat ((55 - len) mod 64))
      ++ le_bytes 8 (8 * len).

Fixpoint words (n : nat) (bytes : list Z) : list Z :=
  match n with
  | O => []
  | S n' => le_word (firstn 4 bytes) :: words n' (skipn 4 bytes)
  end.

Fixpoint chunks (n : nat) (bytes : list Z) : list (list Z) :=
  match n with
  | O => []
  | S n' => firstn 64 bytes :: chunks n' (skipn 64 bytes)
  end.

Definition regs : Type := Z * Z * Z * Z.

Definition round (m : list Z) (r : regs) (i : Z) : regs :=
  let '(a, b, c, d) := r in
  let '(f, g) :=
    if i <? 16 then (Z.lor (Z.land b c) (Z.land (not32 b) d), i)
    else if i <? 32 then (Z.lor (Z.land d b) (Z.land (not32 d) c), (5 * i + 1) mod 16)
    else if i <? 48 then (Z.lxor b (Z.lxor c d), (3 * i + 5) mod 16)
    else (Z.lxor c (Z.lor b (not32 d)), (7 * i) mod 16) in
  let f' := add32 (add32 (add32 f a) (nthZ sines i)) (nthZ m g) in
  (d, add32 b (rotl32 f' (nthZ shifts i)), b, c).

Definition process (r : regs) (chunk : list Z) : regs :=
  let m := words 16 chunk in
  let '(a, b, c, d) := fold_left (round m) (map Z.of_nat (seq 0 64)) r in
  let '(a0, b0, c0, d0) := r in
  (add32 a0 a, add32 b0 b, add32 c0 c, add32 d0 d).

Definition digest (msg : list Z) : list Z :=
  let padded := pad msg in
  let '(a, b, c, d) :=
    fold_left process (chunks (length padded / 64) padded)
              (1732584193, 4023233417, 2562383102, 271733878) in
  le_bytes 4 a ++ le_bytes 4 b ++ le_bytes 4 c ++ le_bytes 4 d.

Definition hex_digit (n : Z) : ascii :=
  if n <? 10 then ascii_of_nat (Z.to_nat (48 + n))
  else ascii_of_nat (Z.to_nat (87 + n mod 16)).

Fixpoint hex (bytes : list Z) : string :=
  match bytes with
  | [] => EmptyString
  | b :: rest =>
      String (hex_digit ((b / 16) mod 16)) (String (hex_digit (b mod 16)) (hex rest))
  end.

Definition hexdigest (s : string) : string := hex (digest (PyStr.to_codes s)).

End Md5.

(** ** The editor-name sanitizer ([sanitize_name] in [create_interview_agent]) *)

(** The class [[a-zA-Z0-9_-]] of the regular expression. *)
Definition name_char (c : ascii) : bool :=
  let n := PyStr.code c in
  ((97 <=? n) && (n <=? 122)) || ((65 <=? n) && (n <=? 90))
  || ((48 <=? n) && (n <=? 57)) || (n =? 95) || (n =? 45).

(** The characters of an ASCII identifier, [[a-zA-Z0-9_]]. *)
Definition identifier_char (c : ascii) : bool :=
  let n := PyStr.code c in
  ((97 <=? n) && (n <=? 122)) || ((65 <=? n) && (n <=? 90))
  || ((48 <=? n) && (n <=? 57)) || (n =? 95).

Definition sanitize_name (name : string) : string :=
  let sanitized := PyStr.filter_chars name_char name in
  if PyStr.is_empty sanitized
  then "editor_" +:+ PyStr.take 8 (Md5.hexdigest name)
  else sanitized.

(** ** Data model ([Section], [Outline], [Editor], [SearchResult],
       [StormResearchState]) *)

(** [Section]; its optional [subsections] are never read by the pipeline. *)
Record Section_ := {
  section_title : string;
  section_description : string
}.

Record Outline := {
  page_title : string;
  sections : list Section_
}.

Record Editor := {
  affiliation : string;
  name : string;
  role : string;
  description : string
}.

Record SearchResult := {
  result_content : string;
  result_url : string;
  result_title : string
}.

(** A Python [dict] keeps its keys in insertion order; assigning to a key
    that is present replaces the value in place. *)
Module PyDict.

Definition t (V : Type) : Type := list (string * V).

Fixpoint set {V} (k : string) (v : V) (d : t V) : t V :=
  match d with
  | [] => [(k, v)]
  | (k', v') :: rest =>
      if String.eqb k' k then (k', v) :: rest else (k', v') :: set k v rest
  end.

Fixpoint get {V} (k : string) (d : t V) : option V :=
  match d with
  | [] => None
  | (k', v') :: rest => if String.eqb k' k then Some v' else get k rest
  end.

Definition keys {V} (d : t V) : list string := map fst d.
Definition values {V} (d : t V) : list V := map snd d.
Definition items {V} (d : t V) : list (string * V) := d.
Definition len {V} (d : t V) : Z := Z.of_nat (length d).

End PyDict.

Record StormResearchState := {
  topic : string;
  outline : option Outline;
  editors : option (list Editor);
  interview_results : option (PyDict.t (list string));
  state_sections : option (PyDict.t string);
  final_article : string
}.

Definition new_state (topic : string) : StormResearchState :=
  {| topic := topic; outline := None; editors := None;
     interview_results := None; state_sections := None; final_article := "" |}.

(** ** Results, exceptions and the environment *)

Inductive Result (A : Type) : Type :=
| Ret (a : A)
| Raise (e : string).
Arguments Ret {A} a.
Arguments Raise {A} e.

(** What a single-agent team run followed by the JSON parsing of its last
    message amounts to: the provider call raises, or the text does not parse
    into the expected schema, or it does. *)
Inductive Reply (A : Type) : Type :=
| ProviderFails (e : string)
| Unparseable
| Structured (a : A).
Arguments ProviderFails {A} e.
Arguments Unparseable {A}.
Arguments Structured {A} a.

Record Message := {
  source : string;
  content : string
}.

(** What [await team.run(task=initial_task)] of an interview does. *)
Inductive TeamRun :=
| TeamRaises (e : string)
| TeamMessages (messages : list Message).

(** The dict a human-interaction request resolves to. *)
Record Response := {
  action : string;
  feedback : option string
}.

Record World := {
  (** the [k]-th run of the outline generator (stages 1 and 4) *)
  outline_agent : nat -> Reply Outline;
  (** the [k]-th run of the perspective generator (stage 2) *)
  perspective_agent : nat -> Reply (list Editor);
  (** the interview of the [i]-th editor of the batch *)
  interview_team : nat -> TeamRun;
  (** the moment the [i]-th interview task finishes *)
  interview_finish : nat -> Z;
  (** a fault of the [i]-th interview task that surfaces when it is awaited *)
  interview_fault : nat -> option string;
  (** the search engine; [Raise] when the client fails *)
  search_engine : string -> Z -> Result (list SearchResult);
  (** the section writer on the [i]-th section of the batch *)
  section_writer : nat -> Result string;
  section_finish : nat -> Z;
  final_writer : Result string;
  (** the answer of the registered handler to the [k]-th request; what the
      handler is shown is determined by the run up to that request *)
  callback_answer : nat -> string -> Result Response
}.

(** The instance ([self]) together with the standard input of the process.
    [callback_registered] tells whether [human_interaction_callback] is set.
    [asked] lists the types of the requests made to the reviewer, and the
    counters tell how often each generator, batch and writer has run; the
    code keeps no such records, they index the oracles and are what the
    statements about regeneration are written with. *)
Record Sys := {
  state : option StormResearchState;
  current_step : Z;
  step_times : gmap Z bool;
  callback_registered : bool;
  stdin : list string;
  outline_runs : nat;
  perspective_runs : nat;
  interview_batches : nat;
  section_batches : nat;
  final_runs : nat;
  asked : list string
}.

Definition new_system (stdin : list string) : Sys :=
  {| state := None; current_step := 0; step_times := ∅;
     callback_registered := false; stdin := stdin;
     outline_runs := 0; perspective_runs := 0; interview_batches := 0;
     section_batches := 0; final_runs := 0; asked := [] |}.

Definition total_steps : Z := 6.

(** ** The monad of the instance methods: state and exceptions *)

Definition M (A : Type) : Type := Sys -> Result A * Sys.

Definition mret {A} (a : A) : M A := fun s => (Ret a, s).
Definition mraise {A} (e : string) : M A := fun s => (Raise e, s).
Definition mbind {A B} (m : M A) (k : A -> M B) : M B :=
  fun s => match m s with
           | (Ret a, s') => k a s'
           | (Raise e, s') => (Raise e, s')
           end.
(** [try: body  except Exception as e: handler] *)
Definition mtry {A} (body : M A) (handler : string -> M A) : M A :=
  fun s => match body s with
           | (Ret a, s') => (Ret a, s')
           | (Raise e, s') => handler e s'
           end.
Definition mget : M Sys := fun s => (Ret s, s).
Definition mmodify (f : Sys -> Sys) : M unit := fun s => (Ret tt, f s).

Declare Scope method_scope.
Delimit Scope method_scope with M.
Notation "'let!' x ':=' m 'in' k" := (mbind m (fun x => k))
  (at level 10, x name, m at level 100, k at level 200) : method_scope.
Notation "'do!' m 'in' k" := (mbind m (fun _ => k))
  (at level 10, m at level 100, k at level 200) : method_scope.

Definition nl : string := String (ascii_of_nat 10) EmptyString.

(** ** Step bookkeeping ([start_step], [complete_step]); no progress
       callback is ever registered, and console output is not modelled *)

Definition start_step (step_num : Z) : M unit :=
  mmodify (fun s =>
    {| state := state s; current_step := step_num;
       step_times := <[step_num := false]> (step_times s);
       callback_registered := callback_registered s; stdin := stdin s;
       outline_runs := outline_runs s; perspective_runs := perspective_runs s;
       interview_batches := interview_batches s;
       section_batches := section_batches s; final_runs := final_runs s;
       asked := asked s |}).

Definition complete_step (step_num : Z) : M unit :=
  mmodify (fun s =>
    {| state := state s; current_step := current_step s;
       step_times :=
         match step_times s !! step_num with
         | Some _ => <[step_num := true]> (step_times s)
         | None => step_times s
         end;
       callback_registered := callback_registered s; stdin := stdin s;
       outline_runs := outline_runs s; perspective_runs := perspective_runs s;
       interview_batches := interview_batches s;
       section_batches := section_batches s; final_runs := final_runs s;
       asked := asked s |}).

(** ** The Human Interaction Gate ([request_human_interaction]) *)

(** [input(prompt)]: the next line of standard input; [EOFError] when there
    is none. *)
Definition input : M string :=
  fun s =>
    match stdin s with
    | [] => (Raise "EOFError", s)
    | line :: rest =>
        (Ret line,
         {| state := state s; current_step := current_step s;
            step_times := step_times s;
            callback_registered := callback_registered s; stdin := rest;
            outline_runs := outline_runs s;
            perspective_runs := perspective_runs s;
            interview_batches := interview_batches s;
            section_batches := section_batches s; final_runs := final_runs s;
            asked := asked s |})
    end.

(** [user_input.lower() == 'y'] *)
Definition is_yes (user_input : string) : bool :=
  String.eqb user_input "y" || String.eqb user_input "Y".

Definition note_request (interaction_type : string) : M nat :=
  fun s =>
    (Ret (length (asked s)),
     {| state := state s; current_step := current_step s;
        step_times := step_times s;
        callback_registered := callback_registered s; stdin := stdin s;
        outline_runs := outline_runs s; perspective_runs := perspective_runs s;
        interview_batches := interview_batches s;
        section_batches := section_batches s; final_runs := final_runs s;
        asked := asked s ++ [interaction_type] |}).

Definition lift_result {A} (r : Result A) : M A := fun s => (r, s).

Definition request_human_interaction (w : World)
    (interaction_type content : string) (options : list string) : M Response :=
  (let! k := note_request interaction_type in
   let! s := mget in
   if callback_registered s
   then lift_result (callback_answer w k interaction_type)
   else
     let! user_input := input in
     let! feedback :=
       (if is_yes user_input then mret None
        else let! line := input in mret (Some line)) in
     mret {| action := if is_yes user_input then "approve" else "reject";
             feedback := feedback |})%M.

(** [response.get("feedback")] as a condition *)
Definition has_feedback (r : Response) : bool :=
  match feedback r with
  | Some text => negb (PyStr.is_empty text)
  | None => false
  end.

(** ** Stage 1: [generate_initial_outline] *)

Definition default_outline (topic : string) : Outline :=
  {| page_title := topic;
     sections :=
       [ {| section_title := "개요"; section_description := "주제에 대한 개요" |};
         {| section_title := "배경"; section_description := "주제의 배경 정보" |};
         {| section_title := "주요 내용";
            section_description := "주제의 핵심 내용" |} ] |}.

Definition run_outline_agent (w : World) : M (Reply Outline) :=
  fun s =>
    (Ret (outline_agent w (outline_runs s)),
     {| state := state s; current_step := current_step s;
        step_times := step_times s;
        callback_registered := callback_registered s; stdin := stdin s;
        outline_runs := S (outline_runs s);
        perspective_runs := perspective_runs s;
        interview_batches := interview_batches s;
        section_batches := section_batches s; final_runs := final_runs s;
        asked := asked s |}).

Definition generate_initial_outline (w : World) (topic : string) : M Outline :=
  (do! start_step 1 in
   let! reply := run_outline_agent w in
   match reply with
   | ProviderFails e => mraise e
   | Structured outline => do! complete_step 1 in mret outline
   | Unparseable => do! complete_step 1 in mret (default_outline topic)
   end)%M.

(** ** Stage 2: [generate_perspectives] *)

Definition base_names : list string :=
  ["Academic_Researcher"; "Industry_Expert"; "Technical_Specialist";
   "Policy_Analyst"; "User_Advocate"].
Definition base_roles : list string :=
  ["연구자"; "산업 전문가"; "기술 전문가"; "정책 분석가"; "사용자 옹호자"].
Definition base_affiliations : list string :=
  ["학술기관"; "산업계"; "기술기관"; "정책기관"; "사용자 커뮤니티"].

Definition fallback_editor (idx : nat) : Editor :=
  {| affiliation := nth (idx mod length base_affiliations) base_affiliations "";
     name := nth (idx mod length base_names) base_names "";
     role := nth (idx mod length base_roles) base_roles "";
     description :=
       nth (idx mod length base_roles) base_roles "" +:+ " 관점에서 주제를 분석" |}.

(** [l[:stop]], also for a negative [stop] *)
Definition slice_to {A} (stop : Z) (l : list A) : list A :=
  if stop <? 0
  then firstn (Z.to_nat (Z.of_nat (length l) + stop)) l
  else firstn (Z.to_nat stop) l.

(** [while len(editors) < target_count: editors.append(...)] *)
Fixpoint pad_editors (fuel : nat) (target_count : Z) (editors : list Editor)
  : list Editor :=
  match fuel with
  | O => editors
  | S fuel' =>
      if Z.of_nat (length editors) <? target_count
      then pad_editors fuel' target_count
             (editors ++ [fallback_editor (length editors)])
      else editors
  end.

Definition target_count_of (editor_count : option Z) : Z :=
  match editor_count with Some n => n | None => 3 end.

(** The editors [generate_perspectives] returns once the provider has
    answered: [parsed] is [None] when the [try] block raises. *)
Definition editors_of_reply (parsed : option (list Editor)) (target_count : Z)
  : list Editor :=
  match parsed with
  | Some editors =>
      if target_count <? Z.of_nat (length editors)
      then slice_to target_count editors
      else if Z.of_nat (length editors) <? target_count
      then pad_editors (Z.to_nat target_count) target_count editors
      else editors
  | None => map fallback_editor (seq 0 (Z.to_nat target_count))
  end.

Definition run_perspective_agent (w : World) : M (Reply (list Editor)) :=
  fun s =>
    (Ret (perspective_agent w (perspective_runs s)),
     {| state := state s; current_step := current_step s;
        step_times := step_times s;
        callback_registered := callback_registered s; stdin := stdin s;
        outline_runs := outline_runs s;
        perspective_runs := S (perspective_runs s);
        interview_batches := interview_batches s;
        section_batches := section_batches s; final_runs := final_runs s;
        asked := asked s |}).

Definition generate_perspectives (w : World) (topic : string)
    (editor_count : option Z) : M (list Editor) :=
  (do! start_step 2 in
   let target_count := target_count_of editor_count in
   let! reply := run_perspective_agent w in
   match reply with
   | ProviderFails e => mraise e
   | Structured editors =>
       do! complete_step 2 in mret (editors_of_reply (Some editors) target_count)
   | Unparseable =>
       do! complete_step 2 in mret (editors_of_reply None target_count)
   end)%M.

(** ** The Interview Runner ([conduct_single_interview]) *)

(** [MaxMessageTermination(max_messages=19)], the termination condition the
    interview team is built with. *)
Definition max_messages : Z := 19.

Definition summary_opening : string := "지금까지 논의한 내용을 정리하면".

(** [search_web]: any failure of the engine yields no result. *)
Definition search_web (w : World) (query : string) (max_results : Z)
  : list SearchResult :=
  match search_engine w query max_results with
  | Ret results => results
  | Raise _ => []
  end.

Record Interview := {
  conversation : list string;
  summary_found : bool;
  turn_count : Z
}.

Definition search_entry (w : World) (text : string) : string :=
  let search_query := PyStr.strip (nth 1 (PyStr.split "SEARCH:" text) "") in
  let search_results := search_web w search_query 5 in
  let search_content :=
    PyStr.join nl
      (map (fun r => "[" +:+ result_url r +:+ "] " +:+ result_content r)
           (firstn 3 search_results)) in
  "검색 결과: " +:+ search_content.

Definition dialogue_entry (message : Message) : string :=
  source message +:+ ": " +:+ content message.

(** One iteration of [for message in result.messages]. *)
Definition interview_turn (w : World) (st : Interview) (message : Message)
  : Interview :=
  if PyStr.contains "SEARCH:" (content message)
  then {| conversation := conversation st ++ [search_entry w (content message)];
          summary_found := summary_found st;
          turn_count := turn_count st + 1 |}
  else {| conversation := conversation st ++ [dialogue_entry message];
          summary_found :=
            if PyStr.contains summary_opening (content message) then true
            else summary_found st;
          turn_count := turn_count st + 1 |}.

Definition interview_start : Interview :=
  {| conversation := []; summary_found := false; turn_count := 0 |}.

Definition collect_interview (w : World) (messages : list Message) : Interview :=
  fold_left (interview_turn w) messages interview_start.

Definition interview_failure (editor : Editor) : list string :=
  ["편집자 " +:+ name editor +:+ ": 인터뷰 중 오류가 발생했습니다."].

(** [team_run] is what the group chat of this interview does.  The
    parameter [max_turns] is accepted and not used. *)
Definition conduct_single_interview (w : World) (team_run : TeamRun)
    (editor : Editor) (topic : string) (max_turns : Z) : list string :=
  match team_run with
  | TeamMessages messages => conversation (collect_interview w messages)
  | TeamRaises _ => interview_failure editor
  end.

(** ** The Fan-Out Coordinator (the [for key, task in tasks] loops) *)

(** A submitted task: the moment it finishes and what awaiting it gives. *)
Record Task (A : Type) := {
  task_key : string;
  finishes : Z;
  awaited : Result A
}.
Arguments task_key {A} _.
Arguments finishes {A} _.
Arguments awaited {A} _.

(** One call of [log_parallel_progress], with the moment it is made. *)
Record Progress := {
  task_name : string;
  completed : Z;
  total : Z;
  reported_at : Z
}.

Record Gathered (A : Type) := {
  gathered : PyDict.t A;
  completed_count : Z;
  clock : Z;
  reports : list Progress
}.
Arguments gathered {A} _.
Arguments completed_count {A} _.
Arguments clock {A} _.
Arguments reports {A} _.

Definition nothing_gathered (A : Type) (now : Z) : Gathered A :=
  {| gathered := []; completed_count := 0; clock := now; reports := [] |}.

Definition record_result {A} (label : string) (total : Z) (now : Z)
    (key : string) (result : A) (acc : Gathered A) : Gathered A :=
  {| gathered := PyDict.set key result (gathered acc);
     completed_count := completed_count acc + 1;
     clock := now;
     reports := reports acc ++
       [ {| task_name := label; completed := completed_count acc + 1;
            total := total; reported_at := now |} ] |}.

(** The tasks are awaited one after the other, in the order of the list;
    [await task] returns once the task has finished.  [on_error key e] is
    the value the [except] branch stores. *)
Fixpoint gather {A} (label : string) (total : Z)
    (on_error : string -> string -> Result A)
    (tasks : list (Task A)) (acc : Gathered A) : Result (Gathered A) :=
  match tasks with
  | [] => Ret acc
  | task :: rest =>
      let now := Z.max (clock acc) (finishes task) in
      match awaited task with
      | Ret result =>
          gather label total on_error rest
                 (record_result label total now (task_key task) result acc)
      | Raise e =>
          match on_error (task_key task) e with
          | Ret fallback =>
              gather label total on_error rest
                     (record_result label total now (task_key task) fallback acc)
          | Raise e' => Raise e'
          end
      end
  end.

(** ** Stage 3: [conduct_all_interviews_parallel] *)

Definition interview_tasks (w : World) (editors : list Editor) (topic : string)
  : list (Task (list string)) :=
  imap (fun i editor =>
          {| task_key := name editor;
             finishes := interview_finish w i;
             awaited :=
               match interview_fault w i with
               | Some e => Raise e
               | None =>
                   Ret (conduct_single_interview w (interview_team w i) editor
                                                 topic 20)
               end |})
       editors.

Definition interview_await_marker (e : string) : list string :=
  ["인터뷰 실패: " +:+ e].

Definition interview_await_failure (editor_name e : string)
  : Result (list string) :=
  Ret (interview_await_marker e).

Definition interview_batch (w : World) (editors : list Editor) (topic : string)
  : Result (Gathered (list string)) :=
  gather "인터뷰 진행" (Z.of_nat (length editors)) interview_await_failure
         (interview_tasks w editors topic) (nothing_gathered _ 0).

Definition is_nil {A} (l : list A) : bool :=
  match l with [] => true | _ => false end.

Definition note_interview_batch : M unit :=
  mmodify (fun s =>
    {| state := state s; current_step := current_step s;
       step_times := step_times s;
       callback_registered := callback_registered s; stdin := stdin s;
       outline_runs := outline_runs s; perspective_runs := perspective_runs s;
       interview_batches := S (interview_batches s);
       section_batches := section_batches s; final_runs := final_runs s;
       asked := asked s |}).

Definition conduct_all_interviews_parallel (w : World) (editors : list Editor)
    (topic : string) : M (PyDict.t (list string)) :=
  (do! start_step 3 in
   do! note_interview_batch in
   match interview_batch w editors topic with
   | Raise e => mraise e
   | Ret batch =>
       let interview_results := gathered batch in
       (* [v[0]] in the count of successful interviews *)
       if existsb is_nil (PyDict.values interview_results)
       then mraise "IndexError"
       else do! complete_step 3 in mret interview_results
   end)%M.

(** ** Stage 5: [write_single_section], [write_sections_parallel] *)

Definition write_single_section (reply : Result string) (section : Section_)
    (outline : Outline) (interview_results : PyDict.t (list string))
    (topic : string) : string :=
  match reply with
  | Ret text => text
  | Raise e =>
      "# " +:+ section_title section +:+ nl +:+ nl
      +:+ "섹션 작성 중 오류가 발생했습니다: " +:+ e
  end.

Definition placeholder (title body : string) : string :=
  "# " +:+ title +:+ nl +:+ nl +:+ body +:+ nl +:+ nl
  +:+ "이 섹션에 대한 자세한 내용이 여기에 들어갑니다.".

(** The tasks submitted, one per section.  The body of
    [write_single_section] is one [try] whose handler catches every
    [Exception] and returns a text, so a task that is awaited returns and
    raises no [Exception].  The cancellation of a task, which neither
    handler of [write_sections_parallel] would catch, is not modelled. *)
Definition section_tasks (w : World) (outline : Outline)
    (interview_results : PyDict.t (list string)) (topic : string)
  : list (Task string) :=
  imap (fun i section =>
          {| task_key := section_title section;
             finishes := section_finish w i;
             awaited :=
               Ret (write_single_section (section_writer w i) section outline
                                         interview_results topic) |})
       (sections outline).

(** The [except] branch of the fan-in loop reads [section], the variable of
    the submission loop, which by then is bound to the last section.  No
    task of [section_tasks] takes the loop into this branch. *)
Definition section_await_failure (outline : Outline) (section_title e : string)
  : Result string :=
  match last (sections outline) with
  | Some section => Ret (placeholder section_title (section_description section))
  | None => Raise "NameError"
  end.

Definition section_batch (w : World) (outline : Outline)
    (interview_results : PyDict.t (list string)) (topic : string)
  : Result (Gathered string) :=
  gather "섹션 작성" (Z.of_nat (length (sections outline)))
         (section_await_failure outline)
         (section_tasks w outline interview_results topic) (nothing_gathered _ 0).

Definition default_sections (outline : Outline) : PyDict.t string :=
  fold_left
    (fun sections_content section =>
       PyDict.set (section_title section)
                  (placeholder (section_title section) (section_description section))
                  sections_content)
    (sections outline) [].

Definition note_section_batch : M unit :=
  mmodify (fun s =>
    {| state := state s; current_step := current_step s;
       step_times := step_times s;
       callback_registered := callback_registered s; stdin := stdin s;
       outline_runs := outline_runs s; perspective_runs := perspective_runs s;
       interview_batches := interview_batches s;
       section_batches := S (section_batches s); final_runs := final_runs s;
       asked := asked s |}).

Definition write_sections_parallel (w : World) (outline : Outline)
    (interview_results : PyDict.t (list string)) (topic : string)
  : M (PyDict.t string) :=
  (do! start_step 5 in
   do! note_section_batch in
   mtry
     (match section_batch w outline interview_results topic with
      | Raise e => mraise e
      | Ret batch => do! complete_step 5 in mret (gathered batch)
      end)
     (fun _ => do! complete_step 5 in mret (default_sections outline)))%M.

(** ** Stage 4: [refine_outline] *)

Definition refine_outline (w : World) (initial_outline : Outline)
    (interview_results : PyDict.t (list string)) (topic : string) : M Outline :=
  (do! start_step 4 in
   let! reply := run_outline_agent w in
   match reply with
   | ProviderFails e => mraise e
   | Structured refined_outline => do! complete_step 4 in mret refined_outline
   | Unparseable => do! complete_step 4 in mret initial_outline
   end)%M.

(** ** Stage 6: [write_final_article] *)

Definition assembled_article (outline : Outline) (sections : PyDict.t string)
    (topic : string) : string :=
  String.concat ""
    ([ "# " +:+ topic +:+ nl +:+ nl;
       page_title outline +:+ "에 대한 상세한 연구 결과입니다." +:+ nl +:+ nl ]
     ++ map (fun '(title, text) =>
               "## " +:+ title +:+ nl +:+ nl +:+ text +:+ nl +:+ nl)
            (PyDict.items sections)
     ++ [ "## 참고 문헌" +:+ nl +:+ nl
          +:+ "이 문서는 전문가 인터뷰와 연구를 바탕으로 작성되었습니다." +:+ nl ]).

Definition note_final_run : M unit :=
  mmodify (fun s =>
    {| state := state s; current_step := current_step s;
       step_times := step_times s;
       callback_registered := callback_registered s; stdin := stdin s;
       outline_runs := outline_runs s; perspective_runs := perspective_runs s;
       interview_batches := interview_batches s;
       section_batches := section_batches s; final_runs := S (final_runs s);
       asked := asked s |}).

Definition write_final_article (w : World) (outline : Outline)
    (sections : PyDict.t string) (topic : string) : M string :=
  (do! start_step 6 in
   do! note_final_run in
   match final_writer w with
   | Ret final_article => do! complete_step 6 in mret final_article
   | Raise _ =>
       do! complete_step 6 in mret (assembled_article outline sections topic)
   end)%M.

(** ** Progress events and the monad of the asynchronous generator *)

(** The dicts the generator yields.  Of a [log] event the level, the stage
    tag and the integer entries of its metadata are kept; message texts,
    timestamps, durations and character counts are left out. *)
Inductive Event :=
| Log (level stage : string) (metadata : list (string * option Z))
| StormProgress (step total_steps : Z)
| StormComplete (content : string)
| StormError (session_id error : string).

Definition is_terminal (e : Event) : bool :=
  match e with
  | StormComplete _ | StormError _ _ => true
  | Log _ _ _ | StormProgress _ _ => false
  end.

(** A generator body: the events yielded so far, and how the body ended. *)
Definition Gen (A : Type) : Type := Sys -> list Event * Result A * Sys.

Definition gret {A} (a : A) : Gen A := fun s => ([], Ret a, s).
Definition gbind {A B} (g : Gen A) (k : A -> Gen B) : Gen B :=
  fun s =>
    match g s with
    | (events, Ret a, s') =>
        let '(events', r, s'') := k a s' in (events ++ events', r, s'')
    | (events, Raise e, s') => (events, Raise e, s')
    end.
Definition yield (e : Event) : Gen unit := fun s => ([e], Ret tt, s).
(** [await method(...)] *)
Definition await {A} (m : M A) : Gen A :=
  fun s => let '(r, s') := m s in ([], r, s').

Declare Scope generator_scope.
Delimit Scope generator_scope with G.
Notation "'let!' x ':=' g 'in' k" := (gbind g (fun x => k))
  (at level 10, x name, g at level 100, k at level 200) : generator_scope.
Notation "'do!' g 'in' k" := (gbind g (fun _ => k))
  (at level 10, g at level 100, k at level 200) : generator_scope.

(** ** Access to [self.state] *)

Definition with_state (f : option StormResearchState) (s : Sys) : Sys :=
  {| state := f; current_step := current_step s; step_times := step_times s;
     callback_registered := callback_registered s; stdin := stdin s;
     outline_runs := outline_runs s; perspective_runs := perspective_runs s;
     interview_batches := interview_batches s;
     section_batches := section_batches s; final_runs := final_runs s;
     asked := asked s |}.

Definition get_state : M StormResearchState :=
  fun s => match state s with
           | Some st => (Ret st, s)
           | None => (Raise "AttributeError", s)
           end.

Definition update_state (f : StormResearchState -> StormResearchState) : M unit :=
  fun s => match state s with
           | Some st => (Ret tt, with_state (Some (f st)) s)
           | None => (Raise "AttributeError", s)
           end.

Definition set_outline (o : Outline) (st : StormResearchState) :=
  {| topic := topic st; outline := Some o; editors := editors st;
     interview_results := interview_results st;
     state_sections := state_sections st; final_article := final_article st |}.
Definition set_editors (l : list Editor) (st : StormResearchState) :=
  {| topic := topic st; outline := outline st; editors := Some l;
     interview_results := interview_results st;
     state_sections := state_sections st; final_article := final_article st |}.
Definition set_interview_results (d : PyDict.t (list string))
    (st : StormResearchState) :=
  {| topic := topic st; outline := outline st; editors := editors st;
     interview_results := Some d;
     state_sections := state_sections st; final_article := final_article st |}.
Definition set_sections (d : PyDict.t string) (st : StormResearchState) :=
  {| topic := topic st; outline := outline st; editors := editors st;
     interview_results := interview_results st;
     state_sections := Some d; final_article := final_article st |}.
Definition set_final_article (text : string) (st : StormResearchState) :=
  {| topic := topic st; outline := outline st; editors := editors st;
     interview_results := interview_results st;
     state_sections := state_sections st; final_article := text |}.

(** Reading an attribute that is still [None] fails as in Python. *)
Definition the {A} (attribute : option A) : M A :=
  match attribute with
  | Some a => mret a
  | None => mraise "AttributeError"
  end.

Definition state_outline : M Outline :=
  (let! st := get_state in the (outline st))%M.
Definition state_interview_results : M (PyDict.t (list string)) :=
  (let! st := get_state in the (interview_results st))%M.
Definition state_state_sections : M (PyDict.t string) :=
  (let! st := get_state in the (state_sections st))%M.

(** [len(l)] as a metadata entry *)
Definition size_of {A} (l : list A) : option Z := Some (Z.of_nat (length l)).

(** ** The Pipeline Orchestrator ([run_parallel_storm_research]) *)

Definition state_editors : M (list Editor) :=
  (let! st := get_state in the (editors st))%M.

Definition bullet : string := "• ".

(** The summaries shown to the reviewer. *)
Definition editors_summary (editors : list Editor) : string :=
  PyStr.join nl
    (map (fun editor =>
            bullet +:+ name editor +:+ " (" +:+ role editor +:+ "): "
            +:+ description editor)
         editors).

Definition outline_summary (outline : Outline) : string :=
  "제목: " +:+ page_title outline +:+ nl +:+ nl +:+ "섹션들:" +:+ nl
  +:+ PyStr.join nl
        (map (fun section =>
                bullet +:+ section_title section +:+ ": "
                +:+ section_description section)
             (sections outline)).

Definition sections_summary (sections : PyDict.t string) : string :=
  PyStr.join nl
    (map (fun '(title, text) =>
            bullet +:+ title +:+ ": " +:+ PyStr.take_chars 100 text +:+ "...")
         (PyDict.items sections)).

(** The three checkpoints.  A [reject] with feedback regenerates the
    editors (with the default count) or the outline; the section review
    does nothing on [reject]. *)
Definition editor_review (w : World) (topic : string) : M unit :=
  (let! editors := state_editors in
   let! response :=
     request_human_interaction w "editor_review"
       ("생성된 편집자들을 검토해주세요:" +:+ nl +:+ nl +:+ editors_summary editors)
       ["승인"; "재생성"; "수정"] in
   if String.eqb (action response) "reject"
   then if has_feedback response
        then let! regenerated := generate_perspectives w topic None in
             update_state (set_editors regenerated)
        else mret tt
   else mret tt)%M.

Definition outline_review (w : World) (topic : string) : M unit :=
  (let! outline := state_outline in
   let! response :=
     request_human_interaction w "outline_review"
       ("개선된 아웃라인을 검토해주세요:" +:+ nl +:+ nl +:+ outline_summary outline)
       ["승인"; "수정"; "재생성"] in
   if String.eqb (action response) "reject"
   then if has_feedback response
        then let! current := state_outline in
             let! interviews := state_interview_results in
             let! regenerated := refine_outline w current interviews topic in
             update_state (set_outline regenerated)
        else mret tt
   else mret tt)%M.

Definition section_review (w : World) : M unit :=
  (let! sections := state_state_sections in
   let! response :=
     request_human_interaction w "section_review"
       ("작성된 섹션들을 검토해주세요:" +:+ nl +:+ nl +:+ sections_summary sections)
       ["승인"; "수정"; "재작성"] in
   if String.eqb (action response) "reject" then mret tt else mret tt)%M.

(** The six numbered blocks of [run_parallel_storm_research]. *)
Definition stage_1 (w : World) (topic : string) : Gen Outline :=
  (do! await (start_step 1) in
   do! yield (Log "info" "outline_generation" [("step", Some 1)]) in
   let! initial_outline := await (generate_initial_outline w topic) in
   do! await (update_state (set_outline initial_outline)) in
   do! await (complete_step 1) in
   do! yield (Log "success" "outline_complete" [("step", Some 1)]) in
   do! yield (StormProgress 1 total_steps) in
   gret initial_outline)%G.

Definition stage_2 (w : World) (topic : string) (editor_count : option Z)
  : Gen (list Editor) :=
  (do! await (start_step 2) in
   do! yield (Log "info" "editor_generation"
                  [("step", Some 2); ("target_count", editor_count)]) in
   let! editors := await (generate_perspectives w topic editor_count) in
   do! await (update_state (set_editors editors)) in
   do! await (complete_step 2) in
   do! yield (Log "success" "editor_complete"
                  [("step", Some 2); ("editor_count", size_of editors)]) in
   do! yield (StormProgress 2 total_steps) in
   gret editors)%G.

Definition stage_3 (w : World) (topic : string) (editors : list Editor)
  : Gen (PyDict.t (list string)) :=
  (do! await (start_step 3) in
   do! yield (Log "info" "interview_start"
                  [("step", Some 3); ("editor_count", size_of editors)]) in
   let! interview_results :=
     await (conduct_all_interviews_parallel w editors topic) in
   do! await (update_state (set_interview_results interview_results)) in
   do! await (complete_step 3) in
   do! yield (Log "success" "interview_complete"
                  [("step", Some 3); ("interview_count", size_of interview_results)]) in
   do! yield (StormProgress 3 total_steps) in
   gret interview_results)%G.

Definition stage_4 (w : World) (topic : string) (initial_outline : Outline)
    (interview_results : PyDict.t (list string)) : Gen unit :=
  (do! await (start_step 4) in
   do! yield (Log "info" "outline_refinement" [("step", Some 4)]) in
   let! refined_outline :=
     await (refine_outline w initial_outline interview_results topic) in
   do! await (update_state (set_outline refined_outline)) in
   do! await (complete_step 4) in
   do! yield (Log "success" "outline_refined" [("step", Some 4)]) in
   yield (StormProgress 4 total_steps))%G.

Definition stage_5 (w : World) (topic : string) : Gen unit :=
  (do! await (start_step 5) in
   let! outline := await state_outline in
   do! yield (Log "info" "section_writing"
                  [("step", Some 5); ("section_count", size_of (sections outline))]) in
   let! interview_results := await state_interview_results in
   let! sections_content :=
     await (write_sections_parallel w outline interview_results topic) in
   do! await (update_state (set_sections sections_content)) in
   do! await (complete_step 5) in
   do! yield (Log "success" "section_complete"
                  [("step", Some 5); ("sections_written", size_of sections_content)]) in
   yield (StormProgress 5 total_steps))%G.

Definition stage_6 (w : World) (topic : string) : Gen string :=
  (do! await (start_step 6) in
   do! yield (Log "info" "final_writing" [("step", Some 6)]) in
   let! outline := await state_outline in
   let! sections := await state_state_sections in
   let! final_article := await (write_final_article w outline sections topic) in
   do! await (update_state (set_final_article final_article)) in
   do! await (complete_step 6) in
   do! yield (Log "success" "final_complete" [("step", Some 6)]) in
   do! yield (StormProgress 6 total_steps) in
   gret final_article)%G.

(** Stage 3 interviews the editors stage 2 returned, and stage 4 refines
    the outline stage 1 returned (the local variables [editors] and
    [initial_outline]); stages 5 and 6 read [self.state]. *)
Definition run_parallel_storm_research (w : World) (topic : string)
    (enable_human_loop : bool) (editor_count : option Z) : Gen unit :=
  (do! await (mmodify (with_state (Some (new_state topic)))) in
   do! yield (Log "info" "storm_start" [("editor_count", editor_count)]) in
   let! initial_outline := stage_1 w topic in
   let! editors := stage_2 w topic editor_count in
   do! (if enable_human_loop then await (editor_review w topic) else gret tt) in
   let! interview_results := stage_3 w topic editors in
   do! stage_4 w topic initial_outline interview_results in
   do! (if enable_human_loop then await (outline_review w topic) else gret tt) in
   do! stage_5 w topic in
   do! (if enable_human_loop then await (section_review w) else gret tt) in
   let! final_article := stage_6 w topic in
   do! yield (Log "success" "storm_complete" []) in
   yield (StormComplete final_article))%G.

(** ** The service layer ([StormService], the [/stream] route) *)

Record StormConfig := {
  enabled : bool;
  human_in_the_loop : bool;
  editor_count : Z
}.

(** [editor_count = config.editor_count if config else 3;
     editor_count = min(editor_count, 8)] *)
Definition service_editor_count (config : option StormConfig) : Z :=
  let editor_count :=
    match config with Some c => editor_count c | None => 3 end in
  Z.min editor_count 8.

(** [process_storm_interactive], the service being initialised: every
    event of a fresh instance, which has no handler registered, is passed
    on; an exception of the run becomes a [storm_error] event.  The
    availability check precedes the [try]. *)
Definition process_storm_interactive (storm_available : bool) (w : World)
    (stdin : list string) (topic user_id session_id : string)
    (config : option StormConfig) : list Event * Result unit :=
  if negb storm_available then ([], Raise "STORM system not available")
  else
    let editor_count := service_editor_count config in
    let custom_storm_system := new_system stdin in
    match run_parallel_storm_research w topic true (Some editor_count)
                                      custom_storm_system with
    | (events, Ret _, _) => (events, Ret tt)
    | (events, Raise e, _) => (events ++ [StormError session_id e], Ret tt)
    end.

(** The content of the first [storm_complete] event. *)
Fixpoint completed_article (events : list Event) : option string :=
  match events with
  | [] => None
  | StormComplete text :: _ => Some text
  | _ :: rest => completed_article rest
  end.

Record ResearchResult := {
  response_text : string;
  parallel_workers : Z;
  editors_count : Z
}.

(** [process_storm_research]: the run without checkpoints; its exceptions
    are raised again. *)
Definition process_storm_research (storm_available : bool) (w : World)
    (stdin : list string) (topic user_id session_id : string)
    (config : option StormConfig) : Result ResearchResult :=
  if negb storm_available then Raise "STORM system not available"
  else
    let editor_count := service_editor_count config in
    let custom_storm_system := new_system stdin in
    match run_parallel_storm_research w topic false (Some editor_count)
                                      custom_storm_system with
    | (events, Ret _, s) =>
        Ret {| response_text := default "" (completed_article events);
               parallel_workers := editor_count;
               editors_count :=
                 match completed_article events, state s with
                 | Some _, Some st =>
                     match editors st with
                     | Some l => Z.of_nat (length l)
                     | None => 0
                     end
                 | _, _ => 0
                 end |}
    | (_, Raise e, _) => Raise e
    end.

(** What the [/stream] route sends while the pipeline runs: an event as a
    data frame, or an [error] frame. *)
Inductive Frame :=
| Data (e : Event)
| ErrorFrame (message : string).

(** The loop over the pipeline in the storm branch of [generate_response]:
    the shared instance is run with the [editor_count] of the request as it
    is (default 1).  The frames about the saved article follow the loop and
    are not modelled. *)
Definition chat_stream_storm (w : World) (storm_system : Sys)
    (message : string) (config_topic : option string)
    (config_editor_count : option Z) (human_in_the_loop : bool)
  : list Frame * Sys :=
  let topic := default message config_topic in
  let editor_count := default 1 config_editor_count in
  match run_parallel_storm_research w topic human_in_the_loop
                                    (Some editor_count) storm_system with
  | (events, Ret _, s) => (map Data events, s)
  | (events, Raise e, s) =>
      (map Data events ++ [ErrorFrame ("STORM 연구 중 오류 발생: " +:+ e)], s)
  end.

(** ** The registered handler of the application ([AgentService]) *)

Record Interaction := {
  interaction_id : string;
  interaction_type : string;
  interaction_content : string;
  options : list string;
  sent : bool;
  response : option Response
}.

(** The wall clock, in seconds, and the registry of pending interactions
    ([storm_service.human_interactions], keyed by session). *)
Record Ambient := {
  now : Z;
  human_interactions : gmap string Interaction
}.

Definition timeout_approval : Response :=
  {| action := "approve"; feedback := Some "타임아웃으로 인한 자동 승인" |}.
Definition error_approval : Response :=
  {| action := "approve"; feedback := Some "오류로 인한 자동 승인" |}.

Record Waited := {
  answer : Response;
  sleeps : nat;
  ambient : Ambient
}.

(** The polling loop of [_wait_for_storm_interaction_response].
    [during_sleep k] is what the rest of the process and the clock do
    while the [k]-th [asyncio.sleep(1)] is pending; [fuel] bounds the
    number of iterations looked at. *)
Fixpoint wait_loop (during_sleep : nat -> Ambient -> Ambient) (fuel : nat)
    (session_id : string) (start_time timeout : Z) (k : nat) (a : Ambient)
  : option Waited :=
  match fuel with
  | O => None
  | S fuel' =>
      if now a - start_time <? timeout
      then
        match human_interactions a !! session_id with
        | Some {| response := Some r |} =>
            Some {| answer := r; sleeps := k; ambient := a |}
        | _ =>
            wait_loop during_sleep fuel' session_id start_time timeout (S k)
                      (during_sleep k a)
        end
      else Some {| answer := timeout_approval; sleeps := k; ambient := a |}
  end.

Definition default_timeout : Z := 300.

Definition wait_for_storm_interaction_response
    (during_sleep : nat -> Ambient -> Ambient) (fuel : nat)
    (session_id interaction_id : string) (timeout : Z) (a : Ambient)
  : option Waited :=
  wait_loop during_sleep fuel session_id (now a) timeout 0 a.

(** [_handle_conversational_storm_interaction]: register the interaction
    under the session, then wait; any exception resolves to an approval.
    [fresh_id] is the UUID drawn, [context_write] the outcome of posting
    the request to the conversation. *)
Definition handle_conversational_storm_interaction
    (during_sleep : nat -> Ambient -> Ambient) (fuel : nat)
    (fresh_id : string) (context_write : Result unit)
    (session_id interaction_type content : string) (options : list string)
    (a : Ambient) : option Waited :=
  let registered :=
    {| now := now a;
       human_interactions :=
         <[session_id :=
             {| interaction_id := fresh_id; interaction_type := interaction_type;
                interaction_content := content; options := options;
                sent := false; response := None |}]> (human_interactions a) |} in
  match context_write with
  | Raise _ =>
      Some {| answer := error_approval; sleeps := 0; ambient := registered |}
  | Ret _ =>
      wait_for_storm_interaction_response during_sleep fuel session_id fresh_id
                                          default_timeout registered
  end.

(* ===================================================================== *)
(** * Part I, continued.  Definitions the statements are written with     *)
(* ===================================================================== *)

(** ** Closed forms of the loops *)

(** Successive assignments [d[k] = v], in the order of the list. *)
Definition assign_all {V : Type} (entries : list (string * V)) (d : PyDict.t V)
  : PyDict.t V :=
  fold_left (fun acc entry => PyDict.set (fst entry) (snd entry) acc) entries d.

(** What the fan-in loop stores for a task: its result, or the fallback. *)
Definition settle {A : Type} (on_error : string -> string -> Result A)
    (task : Task A) : Result A :=
  match awaited task with
  | Ret result => Ret result
  | Raise e => on_error (task_key task) e
  end.

(** The fallback personas of the positions [from], ..., [from + count - 1]. *)
Definition fallback_editors (from count : nat) : list Editor :=
  map fallback_editor (seq from count).

(** The transcript entry a message turns into. *)
Definition transcript_entry (w : World) (message : Message) : string :=
  if PyStr.contains "SEARCH:" (content message)
  then search_entry w (content message)
  else dialogue_entry message.

(** The messages that set [summary_found]. *)
Definition announces_summary (message : Message) : bool :=
  negb (PyStr.contains "SEARCH:" (content message))
  && PyStr.contains summary_opening (content message).

(** What the interview batch stores under each name, in submission
    order. *)
Definition interview_entries (w : World) (editors : list Editor) (topic : string)
  : list (string * list string) :=
  imap (fun i editor =>
          (name editor,
           match interview_fault w i with
           | Some e => interview_await_marker e
           | None =>
               conduct_single_interview w (interview_team w i) editor topic 20
           end))
       editors.

(** What the section batch stores under each title, in submission order:
    what the task of the section returned, the text of the writer or the
    error text of [write_single_section]. *)
Definition section_entries (w : World) (outline : Outline)
    (interview_results : PyDict.t (list string)) (topic : string)
  : list (string * string) :=
  imap (fun i section =>
          (section_title section,
           write_single_section (section_writer w i) section outline
                                interview_results topic))
       (sections outline).

(** The text [write_single_section] returns for a writer that failed. *)
Definition section_error_text (title e : string) : string :=
  "# " +:+ title +:+ nl +:+ nl +:+ "섹션 작성 중 오류가 발생했습니다: " +:+ e.

(** The moments at which successive [await]s return: the running maximum
    of the finishing times, in the order of submission. *)
Fixpoint await_times (now : Z) (finishing : list Z) : list Z :=
  match finishing with
  | [] => []
  | f :: rest => Z.max now f :: await_times (Z.max now f) rest
  end.

(** [from], [from + 1], ..., [n] numbers in all. *)
Fixpoint count_up (from : Z) (n : nat) : list Z :=
  match n with
  | O => []
  | S n' => from :: count_up (from + 1) n'
  end.

(** ** The claims as they are worded, where the code does otherwise *)

(** C7: [max(1, min(n, 8))], the clamp into the range 1 to 8. *)
Definition clamp_1_8 (n : Z) : Z := Z.max 1 (Z.min n 8).

(** C4: the transcript stops with the first message that contains the
    summary opening, and covers 19 messages at most. *)
Fixpoint until_summary (messages : list Message) : list Message :=
  match messages with
  | [] => []
  | m :: rest =>
      if PyStr.contains summary_opening (content m) then [m]
      else m :: until_summary rest
  end.

Definition transcript_until_summary (w : World) (messages : list Message)
  : list string :=
  map (transcript_entry w) (until_summary (firstn 19 messages)).

(** C6: the moments at which the units complete, earliest first. *)
Definition completion_order (finishing : list Z) : list Z :=
  merge_sort Z.le finishing.

(** ** The service boundary *)

Definition requested_editor_count (config : option StormConfig) : Z :=
  match config with Some c => editor_count c | None => 3 end.

(** ** The gate, request by request *)

(** The registry as the [k]-th poll of the waiting loop finds it. *)
Fixpoint ambient_after (during_sleep : nat -> Ambient -> Ambient) (k : nat)
    (a : Ambient) : Ambient :=
  match k with
  | O => a
  | S k' => during_sleep k' (ambient_after during_sleep k' a)
  end.

(** The response registered for the session, if there is one. *)
Definition pending_answer (session_id : string) (a : Ambient) : option Response :=
  match human_interactions a !! session_id with
  | Some interaction => response interaction
  | None => None
  end.

(** What the gate resolves to without a handler, and the input left. *)
Definition cli_answer (stdin : list string) : Result Response * list string :=
  match stdin with
  | [] => (Raise "EOFError", [])
  | user_input :: rest =>
      if is_yes user_input
      then (Ret {| action := "approve"; feedback := None |}, rest)
      else match rest with
           | [] => (Raise "EOFError", [])
           | line :: rest' =>
               (Ret {| action := "reject"; feedback := Some line |}, rest')
           end
  end.

(** What the [k]-th request resolves to, and the input left. *)
Definition gate_answer (w : World) (registered : bool) (k : nat)
    (interaction_type : string) (stdin : list string)
  : Result Response * list string :=
  if registered then (callback_answer w k interaction_type, stdin)
  else cli_answer stdin.

(** What a request made in state [s] resolves to. *)
Definition answer_of (w : World) (interaction_type : string) (s : Sys)
  : Result Response :=
  fst (gate_answer w (callback_registered s) (length (asked s))
                   interaction_type (stdin s)).

(** 1 when the answer is a [reject] with feedback, 0 otherwise. *)
Definition regenerates (answer : Result Response) : nat :=
  match answer with
  | Ret response =>
      if String.eqb (action response) "reject" && has_feedback response
      then 1 else 0
  | Raise _ => 0
  end.

(** The requests of a run with the human loop enabled, in order. *)
Definition checkpoints : list string :=
  ["editor_review"; "outline_review"; "section_review"].

(** The input left after the requests [types], the first of which is the
    [k]-th request made to the gate. *)
Fixpoint input_after (w : World) (registered : bool) (k : nat)
    (stdin : list string) (types : list string) : list string :=
  match types with
  | [] => stdin
  | t :: rest =>
      input_after w registered (S k) (snd (gate_answer w registered k t stdin)) rest
  end.

(** The input left after the first [k] checkpoints of a run started in
    [s]. *)
Definition pending_input (w : World) (s : Sys) (k : nat) : list string :=
  input_after w (callback_registered s) (length (asked s)) (stdin s)
              (firstn k checkpoints).

(** The answer to the checkpoint number [k] (from 0) of a run started in
    [s]. *)
Definition answer_at (w : World) (s : Sys) (k : nat) : Result Response :=
  fst (gate_answer w (callback_registered s) (length (asked s) + k)
                   (nth k checkpoints "") (pending_input w s k)).

(** ** Specifications of methods and generator bodies *)

(** [wp g s Q]: running [g] from [s] yields events, ends in a result and
    leaves a state that satisfy [Q]. *)
Definition wp {A} (g : Gen A) (s : Sys)
    (Q : list Event -> Result A -> Sys -> Prop) : Prop :=
  Q (fst (fst (g s))) (snd (fst (g s))) (snd (g s)).

(** A method satisfies [P] between the states before and after. *)
Definition mspec {A} (m : M A) (P : Sys -> Result A -> Sys -> Prop) : Prop :=
  forall s, P s (fst (m s)) (snd (m s)).

(** The number of [storm_complete] and [storm_error] events. *)
Definition count_terminal (events : list Event) : nat :=
  length (List.filter is_terminal events).

(** How a run of the generator ends: completed, with [storm_complete] as
    its only terminal event and last event, or aborted by an exception
    without any terminal event. *)
Definition generator_outcome (events : list Event) (r : Result unit) : Prop :=
  match r with
  | Ret _ =>
      count_terminal events = 1%nat
      /\ exists article, last events = Some (StormComplete article)
  | Raise _ => count_terminal events = 0%nat
  end.

(** The counters grow by [o], [p] and [b]; the handler, the pending input
    and the requests made stay as they are. *)
Definition moved (o p b : nat) (s s' : Sys) : Prop :=
  callback_registered s' = callback_registered s
  /\ stdin s' = stdin s
  /\ asked s' = asked s
  /\ outline_runs s' = (outline_runs s + o)%nat
  /\ perspective_runs s' = (perspective_runs s + p)%nat
  /\ section_batches s' = (section_batches s + b)%nat.

(** One request of the given type was made, and [p] runs of the
    perspective generator and [o] runs of the outline generator followed. *)
Definition reviewed (w : World) (interaction_type : string) (o p : nat)
    (s s' : Sys) : Prop :=
  callback_registered s' = callback_registered s
  /\ stdin s'
     = snd (gate_answer w (callback_registered s) (length (asked s))
                        interaction_type (stdin s))
  /\ asked s' = asked s ++ [interaction_type]
  /\ outline_runs s' = (outline_runs s + o)%nat
  /\ perspective_runs s' = (perspective_runs s + p)%nat
  /\ section_batches s' = section_batches s.

(** Where a run started in [s] stands after [k] checkpoints. *)
Definition trail (w : World) (k o p b : nat) (s s' : Sys) : Prop :=
  callback_registered s' = callback_registered s
  /\ stdin s' = pending_input w s k
  /\ asked s' = asked s ++ firstn k checkpoints
  /\ outline_runs s' = (outline_runs s + o)%nat
  /\ perspective_runs s' = (perspective_runs s + p)%nat
  /\ section_batches s' = (section_batches s + b)%nat.

(** What holds of the state [s'] a run with checkpoints, started in [s],
    ends in. *)
Definition review_outcome (w : World) (s : Sys) (r : Result unit) (s' : Sys)
  : Prop :=
  exists k o p b,
    trail w k o p b s s'
    /\ (k <= 3 /\ o <= 3 /\ p <= 2 /\ b <= 1)%nat
    /\ (r = Ret tt ->
        k = 3%nat
        /\ o = (2 + regenerates (answer_at w s 1))%nat
        /\ p = (1 + regenerates (answer_at w s 0))%nat
        /\ b = 1%nat).

(** ** Sample environments and inputs *)

Definition lone_editor (label : string) : Editor :=
  {| affiliation := "lab"; name := label; role := "analyst";
     description := "reviews " +:+ label |}.

Definition three_editors : list Editor :=
  [lone_editor "A"; lone_editor "B"; lone_editor "C"].

(** A provider that answers nothing parseable, an engine that finds
    nothing, writers that fail, and no registered handler answer. *)
Definition silent_world : World :=
  {| outline_agent := fun _ => Unparseable;
     perspective_agent := fun _ => Unparseable;
     interview_team := fun _ => TeamMessages [ {| source := "user"; content := "task" |} ];
     interview_finish := fun _ => 0;
     interview_fault := fun _ => None;
     search_engine := fun _ _ => Ret [];
     section_writer := fun _ => Raise "provider down";
     section_finish := fun _ => 0;
     final_writer := Raise "provider down";
     callback_answer := fun _ _ => Raise "no handler" |}.

(** The perspective generator answers with three editors. *)
Definition verbose_world : World :=
  {| outline_agent := outline_agent silent_world;
     perspective_agent := fun _ => Structured three_editors;
     interview_team := interview_team silent_world;
     interview_finish := interview_finish silent_world;
     interview_fault := interview_fault silent_world;
     search_engine := search_engine silent_world;
     section_writer := section_writer silent_world;
     section_finish := section_finish silent_world;
     final_writer := final_writer silent_world;
     callback_answer := callback_answer silent_world |}.

(** A provider that cannot be reached. *)
Definition provider_down_world : World :=
  {| outline_agent := fun _ => ProviderFails "connection refused";
     perspective_agent := perspective_agent silent_world;
     interview_team := interview_team silent_world;
     interview_finish := interview_finish silent_world;
     interview_fault := interview_fault silent_world;
     search_engine := search_engine silent_world;
     section_writer := section_writer silent_world;
     section_finish := section_finish silent_world;
     final_writer := final_writer silent_world;
     callback_answer := callback_answer silent_world |}.

(** The first interview fails, the others return a one-message chat. *)
Definition flaky_world : World :=
  {| outline_agent := outline_agent silent_world;
     perspective_agent := perspective_agent silent_world;
     interview_team := fun i =>
       match i with
       | O => TeamRaises "provider timeout"
       | S _ => interview_team silent_world i
       end;
     interview_finish := interview_finish silent_world;
     interview_fault := interview_fault silent_world;
     search_engine := search_engine silent_world;
     section_writer := section_writer silent_world;
     section_finish := section_finish silent_world;
     final_writer := final_writer silent_world;
     callback_answer := callback_answer silent_world |}.

(** The first interview finishes at moment 5, every other one at 1. *)
Definition late_first_world : World :=
  {| outline_agent := outline_agent silent_world;
     perspective_agent := perspective_agent silent_world;
     interview_team := interview_team silent_world;
     interview_finish := fun i => match i with O => 5 | S _ => 1 end;
     interview_fault := interview_fault silent_world;
     search_engine := search_engine silent_world;
     section_writer := section_writer silent_world;
     section_finish := section_finish silent_world;
     final_writer := final_writer silent_world;
     callback_answer := callback_answer silent_world |}.

(** The writer of the first section fails. *)
Definition faulty_section_world : World :=
  {| outline_agent := outline_agent silent_world;
     perspective_agent := perspective_agent silent_world;
     interview_team := interview_team silent_world;
     interview_finish := interview_finish silent_world;
     interview_fault := interview_fault silent_world;
     search_engine := search_engine silent_world;
     section_writer :=
       fun i => match i with O => Raise "timeout" | S _ => Ret "written" end;
     section_finish := section_finish silent_world;
     final_writer := final_writer silent_world;
     callback_answer := callback_answer silent_world |}.

Definition config_with (n : Z) : StormConfig :=
  {| enabled := true; human_in_the_loop := true; editor_count := n |}.

(** An interview in which the Expert sums up in the third message. *)
Definition summarised_early : list Message :=
  [ {| source := "user"; content := "주제에 대한 질문을 시작합니다." |};
    {| source := "interviewer_A"; content := "정의가 무엇입니까?" |};
    {| source := "domain_expert";
       content := "지금까지 논의한 내용을 정리하면 다음과 같습니다." |};
    {| source := "interviewer_A";
       content := "매우 유용한 정보를 제공해 주셔서 감사합니다!" |};
    {| source := "domain_expert"; content := "추가로 말씀드리면..." |} ].

Definition two_section_outline : Outline :=
  {| page_title := "P";
     sections :=
       [ {| section_title := "History"; section_description := "how it began" |};
         {| section_title := "Outlook"; section_description := "what comes next" |} ] |}.

(** A clock that advances by one second per sleep; nobody answers. *)
Definition ticking (k : nat) (a : Ambient) : Ambient :=
  {| now := now a + 1; human_interactions := human_interactions a |}.

Definition at_noon : Ambient := {| now := 43200; human_interactions := ∅ |}.

(** Typed answers: the first two reviews approved and the third refused,
    and the first refused and the others approved. *)
Definition rejecting_sections : list string :=
  ["y"; "y"; "n"; "rewrite the introduction"].

Definition rejecting_editors : list string :=
  ["n"; "more diverse voices"; "y"; "y"].

(* ===================================================================== *)
(** * Part I, continued.  Replies, conversations and answers           *)
(* ===================================================================== *)


(** The definitions that follow embed the extraction of the JSON text of a
    reply ([storm_research.py]), the conversation contexts
    ([backend/agent/conversation_context.py]), the session manager they are
    saved with ([backend/agent/session_manager.py]) and the two ways an
    answer reaches a pending interaction ([handle_human_response] of
    [storm_service.py], the chat messages of [agent_service.py]).

    Further conventions.
    - A position in a [str] counts characters: a byte that is no
      continuation byte of the UTF-8 encoding starts one.
    - A dict with a fixed set of keys is a record; an entry that may be
      absent is an [option].
    - The session manager all contexts share is handed to the methods that
      write to it and returned by them; it holds the in-memory manager,
      which is what [SessionManager] falls back to without a database.
    - The time a message is stamped with is an argument of the method that
      creates it.
    - [str.lower] is an argument [lower] of the functions that call it. *)

(** ** Character positions ([len], [str.find], slices) *)

(** Python counts the characters of a [str]; in the UTF-8 encoding every
    byte that is no continuation byte starts one. *)
Module PyIndex.

(** [len(s)] *)
Fixpoint len (s : string) : nat :=
  match s with
  | EmptyString => 0%nat
  | String c s' => if PyStr.is_continuation c then len s' else S (len s')
  end.

(** [s[n:]] for a position [0 <= n]: the first [n] characters are left
    out, each with its continuation bytes. *)
Fixpoint drop_chars (n : nat) (s : string) : string :=
  match s with
  | EmptyString => EmptyString
  | String c s' =>
      if PyStr.is_continuation c then drop_chars n s'
      else match n with
           | O => s
           | S n' => drop_chars n' s'
           end
  end.

(** The position of the first occurrence of [sub] in [s]. *)
Fixpoint first_occurrence (sub s : string) : option nat :=
  if PyStr.startswith sub s then Some 0%nat
  else match s with
       | EmptyString => None
       | String c s' =>
           option_map (fun i => if PyStr.is_continuation c then i else S i)
                      (first_occurrence sub s')
       end.

(** A slice bound [i] of a sequence of [n] items: a negative bound counts
    from the end, and every bound is brought into [0, n]. *)
Definition bound (i : Z) (n : nat) : nat :=
  Z.to_nat (if i <? 0 then Z.max 0 (i + Z.of_nat n) else Z.min i (Z.of_nat n)).

(** [s.find(sub, start)]: -1 when there is no occurrence from [start] on. *)
Definition find (sub s : string) (start : Z) : Z :=
  if Z.of_nat (len s) <? start then -1
  else
    let a := bound start (len s) in
    match first_occurrence sub (drop_chars a s) with
    | Some i => Z.of_nat (a + i)
    | None => -1
    end.

(** [s[start:stop]] *)
Definition slice (start stop : Z) (s : string) : string :=
  let a := bound start (len s) in
  let b := bound stop (len s) in
  PyStr.take_chars (b - a) (drop_chars a s).

(** The string is empty or begins with the first byte of a character. *)
Definition starts_char (s : string) : bool :=
  match s with
  | EmptyString => true
  | String c _ => negb (PyStr.is_continuation c)
  end.

End PyIndex.

(** ** The JSON text of a reply ([generate_initial_outline],
       [generate_perspectives], [refine_outline]) *)

Definition json_fence : string := "```json".
Definition fence : string := "```".

(** What is handed to [json.loads]: the text between the first
    [```json] and the next [```], stripped, or the whole message when it
    holds no [```json]. *)
Definition json_text (last_message : string) : string :=
  if PyStr.contains json_fence last_message
  then
    let json_start := PyIndex.find json_fence last_message 0 + 7 in
    let json_end := PyIndex.find fence last_message json_start in
    PyStr.strip (PyIndex.slice json_start json_end last_message)
  else last_message.

Definition backtick : ascii := "`"%char.

Definition no_backtick (s : string) : bool :=
  PyStr.all_chars (fun c => negb (Ascii.eqb c backtick)) s.

(** ** The progress a run reports and the state it leaves *)

(** The [(step, total_steps)] pairs of the [storm_progress] events. *)
Definition progress_reports (events : list Event) : list (Z * Z) :=
  omap (fun e => match e with
                 | StormProgress step total => Some (step, total)
                 | _ => None
                 end) events.

Definition all_steps : list (Z * Z) :=
  map (fun step => (step, total_steps)) (count_up 1 6).

(** What holds of [self.state] when a run for [topic0] has completed: the
    editors are those that were interviewed, as many as were asked for, or
    three others after an editor review; the interview results are what the
    interview batch of the interviewed editors returned, no transcript of
    it empty; the sections are what the section batch returned for the
    outline and the interview results of the state; the article is the text
    of the final writer, or the one assembled from that outline and those
    sections. *)
Definition completed_state (w : World) (topic0 : string)
    (enable_human_loop : bool) (editor_count : option Z)
    (events : list Event) (st : StormResearchState) : Prop :=
  topic st = topic0
  /\ last events = Some (StormComplete (final_article st))
  /\ exists held interviewed interviews refined written,
       editors st = Some held
       /\ interview_batch w interviewed topic0 = Ret interviews
       /\ (if enable_human_loop
           then held = interviewed \/ length held = 3%nat
           else held = interviewed)
       /\ (target_count_of editor_count < 0
           \/ Z.of_nat (length interviewed) = target_count_of editor_count)
       /\ existsb is_nil (PyDict.values (gathered interviews)) = false
       /\ interview_results st = Some (gathered interviews)
       /\ outline st = Some refined
       /\ section_batch w refined (gathered interviews) topic0 = Ret written
       /\ state_sections st = Some (gathered written)
       /\ final_article st
          = match final_writer w with
            | Ret text => text
            | Raise _ => assembled_article refined (gathered written) topic0
            end.

(** ** Values, truth and list slices of Python *)

(** A value of type [Any], as far as the metadata of the application goes. *)
#[warnings="-register-all"]
Inductive PyVal : Type :=
| VNone
| VBool (b : bool)
| VInt (n : Z)
| VStr (s : string)
| VList (l : list PyVal)
| VDict (d : list (string * PyVal)).

Module PyList.

(** [l[start:]] *)
Definition slice_from {A} (start : Z) (l : list A) : list A :=
  skipn (PyIndex.bound start (length l)) l.

(** The last [n] items of [l], all of them when there are fewer. *)
Definition last_n {A} (n : nat) (l : list A) : list A :=
  skipn (length l - n) l.

(** [[f(x) for x in l]] for an [f] that may raise: the first exception ends
    the comprehension. *)
Fixpoint comprehension {A B} (f : A -> Result B) (l : list A) : Result (list B) :=
  match l with
  | [] => Ret []
  | x :: rest =>
      match f x with
      | Raise e => Raise e
      | Ret y =>
          match comprehension f rest with
          | Raise e => Raise e
          | Ret ys => Ret (y :: ys)
          end
      end
  end.

End PyList.

(** The truth value of an [Optional[str]]: [None] and the empty string are
    false. *)
Definition truthy (o : option string) : bool :=
  match o with
  | Some text => negb (PyStr.is_empty text)
  | None => false
  end.

(** ** [conversation_context.py]: messages *)

Module MessageRole.

Inductive t := USER | ASSISTANT | SYSTEM | AGENT.

Definition value (r : t) : string :=
  match r with
  | USER => "user"
  | ASSISTANT => "assistant"
  | SYSTEM => "system"
  | AGENT => "agent"
  end.

(** [MessageRole(v)]: the member with the value [v]; [ValueError] when
    there is none. *)
Definition of_value (v : string) : Result t :=
  if String.eqb v "user" then Ret USER
  else if String.eqb v "assistant" then Ret ASSISTANT
  else if String.eqb v "system" then Ret SYSTEM
  else if String.eqb v "agent" then Ret AGENT
  else Raise "ValueError".

Definition eqb (a b : t) : bool :=
  match a, b with
  | USER, USER | ASSISTANT, ASSISTANT | SYSTEM, SYSTEM | AGENT, AGENT => true
  | _, _ => false
  end.

End MessageRole.

Module ChatMessage.

Record t := {
  content : string;
  role : MessageRole.t;
  timestamp : string;
  source : option string;
  metadata : option (PyDict.t PyVal)
}.

(** The dict of a message: each of the five keys is absent ([None]) or
    holds a value of the type [to_dict] writes; [source] and [metadata] may
    hold [None]. *)
Record dict := {
  d_content : option string;
  d_role : option string;
  d_timestamp : option string;
  d_source : option (option string);
  d_metadata : option (option (PyDict.t PyVal))
}.

Definition to_dict (self : t) : dict :=
  {| d_content := Some (content self);
     d_role := Some (MessageRole.value (role self));
     d_timestamp := Some (timestamp self);
     d_source := Some (source self);
     (* [self.metadata or {}] *)
     d_metadata := Some (Some (default [] (metadata self))) |}.

(** [data[key]] *)
Definition item {A} (entry : option A) : Result A :=
  match entry with
  | Some v => Ret v
  | None => Raise "KeyError"
  end.

Definition from_dict (data : dict) : Result t :=
  match item (d_content data) with
  | Raise e => Raise e
  | Ret content =>
      match item (d_role data) with
      | Raise e => Raise e
      | Ret role_value =>
          match MessageRole.of_value role_value with
          | Raise e => Raise e
          | Ret role =>
              match item (d_timestamp data) with
              | Raise e => Raise e
              | Ret timestamp =>
                  Ret {| content := content; role := role;
                         timestamp := timestamp;
                         (* [data.get("source")] *)
                         source := default None (d_source data);
                         (* [data.get("metadata", {})] *)
                         metadata := default (Some []) (d_metadata data) |}
              end
          end
      end
  end.

Definition is_system (m : t) : bool := MessageRole.eqb (role m) MessageRole.SYSTEM.

End ChatMessage.

(** The dict [save_state] builds and [load_state] reads; a key that is
    absent is [None]. *)
Record SavedState := {
  saved_buffer_size : option Z;
  saved_system_message : option (option string);
  saved_session_id : option (option string);
  saved_messages : option (list ChatMessage.dict)
}.

(** The agent state of a session: the dict [_save_to_azure_sql] writes, or
    the empty dict of a new session.  Its entry [last_updated], a time that
    nothing reads, is left out. *)
Record AgentState := {
  conversation_context : option SavedState;
  context_type : option string
}.

Definition empty_agent_state : AgentState :=
  {| conversation_context := None; context_type := None |}.

(** The truth value of the dict. *)
Definition agent_state_truthy (a : AgentState) : bool :=
  match conversation_context a, context_type a with
  | None, None => false
  | _, _ => true
  end.

(** ** [session_manager.py]: the in-memory manager and the wrapper *)

Module InMemorySessionManager.

Record SessionInfo := {
  session_id : string;
  user_id : option string;
  thread_id : option string;
  created_at : string;
  is_active : bool
}.

Record StoredMessage := {
  stored_session_id : string;
  message_data : PyDict.t PyVal;
  stored_at : string;
  agent_type : option string;
  message_type : string
}.

Record t := {
  sessions : PyDict.t SessionInfo;
  conversations : gmap string (list StoredMessage);
  agent_states : gmap string AgentState
}.

Definition new : t :=
  {| sessions := []; conversations := ∅; agent_states := ∅ |}.

(** [fresh_id] is the UUID drawn, [now] the time read. *)
Definition create_session (fresh_id now : string)
    (user_id thread_id : option string) (self : t) : SessionInfo * t :=
  let session_info :=
    {| session_id := fresh_id; user_id := user_id; thread_id := thread_id;
       created_at := now; is_active := true |} in
  (session_info,
   {| sessions := PyDict.set fresh_id session_info (sessions self);
      conversations := <[fresh_id := []]> (conversations self);
      agent_states := <[fresh_id := empty_agent_state]> (agent_states self) |}).

Definition save_message (now : string) (session_id : string)
    (message_data : PyDict.t PyVal) (agent_type : option string)
    (message_type : string) (self : t) : bool * t :=
  let stored := default [] (conversations self !! session_id) in
  (true,
   {| sessions := sessions self;
      conversations :=
        <[session_id :=
            stored ++ [ {| stored_session_id := session_id;
                           message_data := message_data; stored_at := now;
                           agent_type := agent_type;
                           message_type := message_type |} ]]>
          (conversations self);
      agent_states := agent_states self |}).

(** [self.conversations.get(session_id, [])[-limit:]] *)
Definition load_conversation_history (session_id : string) (limit : Z)
    (self : t) : list StoredMessage :=
  PyList.slice_from (- limit) (default [] (conversations self !! session_id)).

Definition save_agent_state (session_id : string) (agent_state : AgentState)
    (self : t) : bool * t :=
  (true,
   {| sessions := sessions self; conversations := conversations self;
      agent_states := <[session_id := agent_state]> (agent_states self) |}).

Definition load_agent_state (session_id : string) (self : t) : AgentState :=
  default empty_agent_state (agent_states self !! session_id).

Definition deactivate_session (session_id : string) (self : t) : bool * t :=
  match PyDict.get session_id (sessions self) with
  | Some info =>
      (true,
       {| sessions :=
            PyDict.set session_id
              {| session_id := InMemorySessionManager.session_id info;
                 user_id := user_id info; thread_id := thread_id info;
                 created_at := created_at info; is_active := false |}
              (sessions self);
          conversations := conversations self;
          agent_states := agent_states self |})
  | None => (false, self)
  end.

(** [if user_id:] holds for a non-empty string. *)
Definition get_active_sessions (user_id : option string) (self : t)
  : list SessionInfo :=
  let active_sessions := List.filter is_active (PyDict.values (sessions self)) in
  if truthy user_id
  then List.filter
         (fun s => bool_decide (InMemorySessionManager.user_id s = user_id))
         active_sessions
  else active_sessions.

End InMemorySessionManager.

(** The wrapper [SessionManager], holding the in-memory manager. *)
Module SessionManager.

Record t := {
  manager : option InMemorySessionManager.t;
  manager_type : string
}.

Definition in_memory : t :=
  {| manager := Some InMemorySessionManager.new; manager_type := "in_memory" |}.

Definition with_manager (m : InMemorySessionManager.t) (self : t) : t :=
  {| manager := Some m; manager_type := manager_type self |}.

Definition save_agent_state (session_id : string) (agent_state : AgentState)
    (self : t) : bool * t :=
  match manager self with
  | Some m =>
      let '(ok, m') :=
        InMemorySessionManager.save_agent_state session_id agent_state m in
      (ok, with_manager m' self)
  | None => (false, self)
  end.

Definition load_agent_state (session_id : string) (self : t)
  : option AgentState :=
  match manager self with
  | Some m => Some (InMemorySessionManager.load_agent_state session_id m)
  | None => None
  end.

Definition end_session (session_id : string) (self : t) : bool * t :=
  match manager self with
  | Some m =>
      let '(ok, m') := InMemorySessionManager.deactivate_session session_id m in
      (ok, with_manager m' self)
  | None => (false, self)
  end.

Definition create_session (fresh_id now : string)
    (user_id thread_id : option string) (self : t) : string * t :=
  match manager self with
  | Some m =>
      let '(session_info, m') :=
        InMemorySessionManager.create_session fresh_id now user_id thread_id m in
      (InMemorySessionManager.session_id session_info, with_manager m' self)
  | None => (fresh_id, self)
  end.

Definition get_session_info (session_id : string) (self : t)
  : option InMemorySessionManager.SessionInfo :=
  match manager self with
  | Some m =>
      List.find
        (fun s => String.eqb (InMemorySessionManager.session_id s) session_id)
        (InMemorySessionManager.get_active_sessions None m)
  | None => None
  end.

Definition save_conversation_turn (now_user now_assistant : string)
    (session_id user_message assistant_response : string) (self : t) : bool * t :=
  match manager self with
  | None => (false, self)
  | Some m =>
      let '(user_success, m1) :=
        InMemorySessionManager.save_message now_user session_id
          [("content", VStr user_message); ("role", VStr "user")] None "user" m in
      let '(assistant_success, m2) :=
        InMemorySessionManager.save_message now_assistant session_id
          [("content", VStr assistant_response); ("role", VStr "assistant")]
          None "assistant" m1 in
      (user_success && assistant_success, with_manager m2 self)
  end.

Definition get_conversation_history (session_id : string) (limit : Z) (self : t)
  : list InMemorySessionManager.StoredMessage :=
  match manager self with
  | Some m => InMemorySessionManager.load_conversation_history session_id limit m
  | None => []
  end.

End SessionManager.

(** ** [conversation_context.py]: the buffered context *)

(** The session manager all contexts of a [ConversationManager] share is
    passed to the methods that write to it and returned by them. *)
Module BufferedConversationContext.

Record t := {
  buffer_size : Z;
  system_message : option string;
  session_id : option string;
  messages : list ChatMessage.t
}.

Definition with_messages (l : list ChatMessage.t) (self : t) : t :=
  {| buffer_size := buffer_size self; system_message := system_message self;
     session_id := session_id self; messages := l |}.

Definition system_messages (l : list ChatMessage.t) : list ChatMessage.t :=
  List.filter ChatMessage.is_system l.

Definition other_messages (l : list ChatMessage.t) : list ChatMessage.t :=
  List.filter (fun m => negb (ChatMessage.is_system m)) l.

Definition save_state (self : t) : SavedState :=
  {| saved_buffer_size := Some (buffer_size self);
     saved_system_message := Some (system_message self);
     saved_session_id := Some (session_id self);
     saved_messages := Some (map ChatMessage.to_dict (messages self)) |}.

(** [load_state]: the three attributes are assigned before the messages
    are converted, and stay assigned when a conversion raises. *)
Definition load_state (state : SavedState) (self : t) : Result unit * t :=
  let assigned :=
    {| buffer_size := default 10 (saved_buffer_size state);
       system_message := default None (saved_system_message state);
       session_id := default (session_id self) (saved_session_id state);
       messages := messages self |} in
  match PyList.comprehension ChatMessage.from_dict
          (default [] (saved_messages state)) with
  | Ret loaded => (Ret tt, with_messages loaded assigned)
  | Raise e => (Raise e, assigned)
  end.

(** [_save_to_azure_sql]; the in-memory manager never fails. *)
Definition save_to_azure_sql (self : t) (session_manager : option SessionManager.t)
  : option SessionManager.t :=
  match session_manager with
  | Some sm =>
      if truthy (session_id self)
      then
        Some (snd (SessionManager.save_agent_state
                     (default "" (session_id self))
                     {| conversation_context := Some (save_state self);
                        context_type := Some "buffered_conversation" |}
                     sm))
      else session_manager
  | None => None
  end.

(** [_load_from_azure_sql]: an exception of [load_state] is caught, and
    what it had assigned stays. *)
Definition load_from_azure_sql (self : t)
    (session_manager : option SessionManager.t) : bool * t :=
  match session_manager with
  | Some sm =>
      if truthy (session_id self)
      then
        match SessionManager.load_agent_state (default "" (session_id self)) sm with
        | Some agent_state =>
            match agent_state_truthy agent_state,
                  conversation_context agent_state with
            | true, Some context_data =>
                match load_state context_data self with
                | (Ret _, loaded) => (true, loaded)
                | (Raise _, partly) => (false, partly)
                end
            | _, _ => (false, self)
            end
        | None => (false, self)
        end
      else (false, self)
  | None => (false, self)
  end.

Definition add_system_message (now : string) (content : string) (self : t)
    (session_manager : option SessionManager.t) : t * option SessionManager.t :=
  let message :=
    {| ChatMessage.content := content; ChatMessage.role := MessageRole.SYSTEM;
       ChatMessage.timestamp := now; ChatMessage.source := Some "system";
       ChatMessage.metadata := None |} in
  let kept :=
    match system_messages (messages self) with
    | [] => messages self
    | _ :: _ => other_messages (messages self)
    end in
  let self' := with_messages (message :: kept) self in
  (self', save_to_azure_sql self' session_manager).

(** [__init__] *)
Definition new (now : string) (buffer_size : Z) (system_message : option string)
    (session_id : option string) (session_manager : option SessionManager.t)
  : t * option SessionManager.t :=
  let self :=
    {| buffer_size := buffer_size; system_message := system_message;
       session_id := session_id; messages := [] |} in
  if truthy system_message
  then add_system_message now (default "" system_message) self session_manager
  else (self, session_manager).

(** [_add_message] *)
Definition add_message (message : ChatMessage.t) (self : t)
    (session_manager : option SessionManager.t) : t * option SessionManager.t :=
  let appended := messages self ++ [message] in
  let system_messages := system_messages appended in
  let other_messages := other_messages appended in
  let other_messages :=
    if buffer_size self <? Z.of_nat (length other_messages)
    then PyList.slice_from (- buffer_size self) other_messages
    else other_messages in
  let self' := with_messages (system_messages ++ other_messages) self in
  (self', save_to_azure_sql self' session_manager).

Definition add_user_message (now : string) (content : string) (source : string)
    (metadata : option (PyDict.t PyVal)) :=
  add_message {| ChatMessage.content := content;
                 ChatMessage.role := MessageRole.USER;
                 ChatMessage.timestamp := now; ChatMessage.source := Some source;
                 ChatMessage.metadata := metadata |}.

Definition add_assistant_message (now : string) (content : string)
    (source : string) (metadata : option (PyDict.t PyVal)) :=
  add_message {| ChatMessage.content := content;
                 ChatMessage.role := MessageRole.ASSISTANT;
                 ChatMessage.timestamp := now; ChatMessage.source := Some source;
                 ChatMessage.metadata := metadata |}.

Definition add_agent_message (now : string) (content : string)
    (agent_name : string) (metadata : option (PyDict.t PyVal)) :=
  add_message {| ChatMessage.content := content;
                 ChatMessage.role := MessageRole.AGENT;
                 ChatMessage.timestamp := now;
                 ChatMessage.source := Some agent_name;
                 ChatMessage.metadata := metadata |}.

Definition get_messages (self : t) : list ChatMessage.t := messages self.

Definition get_recent_messages (count : Z) (self : t) : list ChatMessage.t :=
  let others := other_messages (messages self) in
  let systems := system_messages (messages self) in
  let recent_others :=
    if 0 <? count then PyList.slice_from (- count) others else others in
  systems ++ recent_others.

Definition get_context_for_llm (self : t) : list ChatMessage.dict :=
  map ChatMessage.to_dict (messages self).

Definition clear (self : t) (session_manager : option SessionManager.t)
  : t * option SessionManager.t :=
  let self' := with_messages (system_messages (messages self)) self in
  (self', save_to_azure_sql self' session_manager).

End BufferedConversationContext.

(** ** [conversation_context.py]: the manager of the sessions *)

Module ConversationManager.

Record t := {
  default_buffer_size : Z;
  default_system_message : option string;
  session_manager : option SessionManager.t;
  contexts : PyDict.t BufferedConversationContext.t
}.

Definition new (default_buffer_size : Z) (default_system_message : option string)
    (session_manager : option SessionManager.t) : t :=
  {| default_buffer_size := default_buffer_size;
     default_system_message := default_system_message;
     session_manager := session_manager; contexts := [] |}.

Definition with_contexts (d : PyDict.t BufferedConversationContext.t)
    (sm : option SessionManager.t) (self : t) : t :=
  {| default_buffer_size := default_buffer_size self;
     default_system_message := default_system_message self;
     session_manager := sm; contexts := d |}.

(** [del d[key]] for a key that is present *)
Definition remove {V} (k : string) (d : PyDict.t V) : PyDict.t V :=
  List.filter (fun entry => negb (String.eqb (fst entry) k)) d.

(** [a or b] on optional integers and strings *)
Definition or_int (a : option Z) (b : Z) : Z :=
  match a with
  | Some n => if n =? 0 then b else n
  | None => b
  end.

Definition or_str (a b : option string) : option string :=
  if truthy a then a else b.

Definition get_or_create_context (now : string) (session_id : string)
    (buffer_size : option Z) (system_message : option string) (self : t)
  : BufferedConversationContext.t * t :=
  match PyDict.get session_id (contexts self) with
  | Some context => (context, self)
  | None =>
      let '(context, sm) :=
        BufferedConversationContext.new now
          (or_int buffer_size (default_buffer_size self))
          (or_str system_message (default_system_message self))
          (Some session_id) (session_manager self) in
      let '(_, context) :=
        BufferedConversationContext.load_from_azure_sql context sm in
      (context, with_contexts (PyDict.set session_id context (contexts self)) sm self)
  end.

(** A method called on the context of a session: the caller holds the
    object the manager holds, so the manager sees what the method does. *)
Definition on_context (session_id : string)
    (method : BufferedConversationContext.t -> option SessionManager.t ->
              BufferedConversationContext.t * option SessionManager.t)
    (self : t) : t :=
  match PyDict.get session_id (contexts self) with
  | Some context =>
      let '(context', sm) := method context (session_manager self) in
      with_contexts (PyDict.set session_id context' (contexts self)) sm self
  | None => self
  end.

Definition add_conversation_turn (now_context now_user now_assistant : string)
    (session_id user_message assistant_response agent_name : string)
    (metadata : option (PyDict.t PyVal)) (self : t) : t :=
  let '(_, self) := get_or_create_context now_context session_id None None self in
  let self :=
    on_context session_id
      (BufferedConversationContext.add_user_message now_user user_message "user"
                                                    metadata) self in
  on_context session_id
    (BufferedConversationContext.add_assistant_message now_assistant
       assistant_response agent_name metadata) self.

Definition get_context_for_session (session_id : string) (self : t)
  : option BufferedConversationContext.t :=
  PyDict.get session_id (contexts self).

(** [limit] is [None] by default; [if limit] is false for [None] and 0. *)
Definition get_conversation_history (now : string) (session_id : string)
    (limit : option Z) (self : t) : list ChatMessage.dict * t :=
  let '(context, self', empty_new) :=
    match PyDict.get session_id (contexts self) with
    | Some context => (context, self, false)
    | None =>
        let '(context, self') :=
          get_or_create_context now session_id None None self in
        (context, self',
         is_nil (BufferedConversationContext.get_messages context))
    end in
  if empty_new then ([], self')
  else
    let messages :=
      match limit with
      | Some n =>
          if n =? 0 then BufferedConversationContext.get_messages context
          else BufferedConversationContext.get_recent_messages n context
      | None => BufferedConversationContext.get_messages context
      end in
    (map ChatMessage.to_dict messages, self').

Definition clear_session (session_id : string) (self : t) : bool * t :=
  match PyDict.get session_id (contexts self) with
  | Some _ =>
      let sm :=
        match session_manager self with
        | Some sm => Some (snd (SessionManager.end_session session_id sm))
        | None => None
        end in
      (true, with_contexts (remove session_id (contexts self)) sm self)
  | None => (false, self)
  end.

Definition save_session_state (session_id : string) (self : t)
  : option SavedState :=
  option_map BufferedConversationContext.save_state
             (PyDict.get session_id (contexts self)).

Definition load_session_state (now : string) (session_id : string)
    (state : SavedState) (self : t) : bool * t :=
  let '(context, sm) :=
    BufferedConversationContext.new now 10 None (Some session_id)
                                    (session_manager self) in
  match BufferedConversationContext.load_state state context with
  | (Ret _, context) =>
      (true, with_contexts (PyDict.set session_id context (contexts self)) sm self)
  | (Raise _, _) => (false, with_contexts (contexts self) sm self)
  end.

Definition get_active_sessions (self : t) : list string :=
  PyDict.keys (contexts self).

End ConversationManager.


(** ** Definitions the statements about conversations are written with *)

(** Messages added one after the other, oldest first. *)
Definition add_messages (added : list ChatMessage.t)
    (self : BufferedConversationContext.t)
    (session_manager : option SessionManager.t)
  : BufferedConversationContext.t * option SessionManager.t :=
  fold_left
    (fun reached m =>
       BufferedConversationContext.add_message m (fst reached) (snd reached))
    added (self, session_manager).

(** A message as it comes back from its dict: [None] as metadata has
    become the empty dict. *)
Definition reloaded (m : ChatMessage.t) : ChatMessage.t :=
  {| ChatMessage.content := ChatMessage.content m;
     ChatMessage.role := ChatMessage.role m;
     ChatMessage.timestamp := ChatMessage.timestamp m;
     ChatMessage.source := ChatMessage.source m;
     ChatMessage.metadata := Some (default [] (ChatMessage.metadata m)) |}.

Definition sample_message (role : MessageRole.t) (text : string) : ChatMessage.t :=
  {| ChatMessage.content := text; ChatMessage.role := role;
     ChatMessage.timestamp := "2025-01-01T00:00:00+00:00";
     ChatMessage.source := Some "user"; ChatMessage.metadata := None |}.

Definition sample_context (size : Z) (history : list ChatMessage.t)
  : BufferedConversationContext.t :=
  {| BufferedConversationContext.buffer_size := size;
     BufferedConversationContext.system_message := None;
     BufferedConversationContext.session_id := Some "session";
     BufferedConversationContext.messages := history |}.

(** A session manager that stores a conversation of two messages for the
    session [session]. *)
Definition sample_store : SessionManager.t :=
  snd (SessionManager.save_agent_state "session"
         {| conversation_context :=
              Some (BufferedConversationContext.save_state
                      (sample_context 20
                         [sample_message MessageRole.USER "a";
                          sample_message MessageRole.ASSISTANT "b"]));
            context_type := Some "buffered_conversation" |}
         SessionManager.in_memory).

(** ** Answers to a pending interaction *)

Definition with_response (r : Response) (i : Interaction) : Interaction :=
  {| interaction_id := interaction_id i; interaction_type := interaction_type i;
     interaction_content := interaction_content i; options := options i;
     sent := sent i; response := Some r |}.

Definition with_interactions (registry : gmap string Interaction) (a : Ambient)
  : Ambient :=
  {| now := now a; human_interactions := registry |}.

(** The fields of [StormHumanResponse] the pipeline reads once the response
    is stored; [modifications] and [timestamp] are stored with them and
    read by nothing. *)
Record StormHumanResponse := {
  response_action : string;
  response_feedback : option string
}.

Inductive Handled :=
| HandledError (message : string)
| HandledSuccess (message : string).

(** [StormService.handle_human_response] *)
Definition handle_human_response (session_id interaction_id : string)
    (response : StormHumanResponse) (a : Ambient) : Handled * Ambient :=
  match human_interactions a !! session_id with
  | None => (HandledError "해당 세션의 상호작용을 찾을 수 없습니다.", a)
  | Some ({| interaction_id := registered_id |} as interaction) =>
      if negb (String.eqb registered_id interaction_id)
      then (HandledError "잘못된 상호작용 ID입니다.", a)
      else
        (HandledSuccess "응답이 처리되었습니다.",
         with_interactions
           (<[session_id :=
                with_response {| action := response_action response;
                                 feedback := response_feedback response |}
                              interaction]> (human_interactions a)) a)
  end.

(** [any(word in text for word in words)] *)
Definition any_word_in (words : list string) (text : string) : bool :=
  existsb (fun word => PyStr.contains word text) words.

Definition approve_words : list string :=
  ["승인"; "ok"; "좋다"; "진행"; "예"; "yes"].
Definition reject_words : list string :=
  ["거부"; "no"; "안된다"; "아니다"; "취소"].
Definition modify_words : list string :=
  ["수정"; "변경"; "고치다"; "바꾸다"].

(** The response [_process_storm_interaction_response] reads out of a chat
    message.  [lower] is [str.lower]. *)
Definition interaction_response (lower : string -> string) (message : string)
  : Response :=
  let message_lower := PyStr.strip (lower message) in
  if any_word_in approve_words message_lower
  then {| action := "approve"; feedback := Some "승인" |}
  else if any_word_in reject_words message_lower
  then {| action := "reject"; feedback := Some "거부" |}
  else if any_word_in modify_words message_lower
  then {| action := "modify"; feedback := Some message |}
  else {| action := "approve"; feedback := Some message |}.

Definition response_message (action interaction_type feedback : string) : string :=
  if String.eqb action "approve"
  then "✅ **" +:+ interaction_type +:+ " 승인됨**" +:+ nl +:+ nl
       +:+ "계속 진행하겠습니다..."
  else if String.eqb action "reject"
  then "❌ **" +:+ interaction_type +:+ " 거부됨**" +:+ nl +:+ nl
       +:+ "다시 검토하겠습니다..."
  else "🔄 **" +:+ interaction_type +:+ " 수정 요청**" +:+ nl +:+ nl
       +:+ "피드백: " +:+ feedback +:+ nl +:+ nl
       +:+ "수정 후 다시 진행하겠습니다...".

(** The dict a message handler returns; its constant entries
    [agent_description], [confidence] and [execution_time] are left out. *)
Record AgentReply := {
  reply_response : string;
  reply_session_id : string;
  reply_agent_name : string;
  reply_agent_type : string;
  reply_tools_used : list string;
  reply_metadata : PyDict.t PyVal
}.

(** [AgentService._process_storm_interaction_response].  The caller hands
    over the interaction registered for the session and the context of the
    session, the objects the registry and the conversation manager hold:
    what is written to them is written there.  [now] is the time of the
    message added. *)
Definition process_storm_interaction_response (lower : string -> string)
    (now : string) (session_id : string) (interaction : Interaction)
    (message : string) (a : Ambient) (cm : ConversationManager.t)
  : AgentReply * Ambient * ConversationManager.t :=
  let r := interaction_response lower message in
  let a :=
    with_interactions
      (<[session_id := with_response r interaction]> (human_interactions a)) a in
  let response_message :=
    response_message (action r) (interaction_type interaction)
                     (default "" (feedback r)) in
  let metadata :=
    [("storm_interaction_response", VBool true); ("action", VStr (action r));
     ("interaction_type", VStr (interaction_type interaction))] in
  let cm :=
    ConversationManager.on_context session_id
      (BufferedConversationContext.add_assistant_message now response_message
         "STORM_Interaction_Agent" (Some metadata)) cm in
  ({| reply_response := response_message; reply_session_id := session_id;
      reply_agent_name := "STORM_Interaction_Agent"; reply_agent_type := "storm";
      reply_tools_used := ["storm_interaction"]; reply_metadata := metadata |},
   a, cm).

(** The services an [AgentService] holds: the conversation manager and the
    registry of the STORM service, each absent when its initialisation
    failed. *)
Record Services := {
  conversation_manager : option ConversationManager.t;
  storm_service : option Ambient
}.

(** [AgentService.process_message], from the fetch of the context of the
    session to the answer to a registered interaction; the initialisation
    and the switch of the model that come before are left out.  A result
    [None] stands for the rest of the method, which goes on from there. *)
Definition storm_interaction_block (lower : string -> string)
    (now_context now_user now_reply : string)
    (message user_id session_id : string) (context : option (PyDict.t PyVal))
    (agent_mode : string) (self : Services) : option AgentReply * Services :=
  match conversation_manager self with
  | None => (None, self)
  | Some cm =>
      let '(_, cm) :=
        ConversationManager.get_or_create_context now_context session_id None None
                                                  cm in
      match storm_service self with
      | Some a =>
          if String.eqb agent_mode "normal"
          then
            match human_interactions a !! session_id with
            | Some interaction =>
                let cm :=
                  ConversationManager.on_context session_id
                    (BufferedConversationContext.add_user_message now_user message
                       user_id context) cm in
                let '(reply, a, cm) :=
                  process_storm_interaction_response lower now_reply session_id
                    interaction message a cm in
                (Some reply,
                 {| conversation_manager := Some cm; storm_service := Some a |})
            | None =>
                (None, {| conversation_manager := Some cm;
                          storm_service := Some a |})
            end
          else (None, {| conversation_manager := Some cm; storm_service := Some a |})
      | None => (None, {| conversation_manager := Some cm; storm_service := None |})
      end
  end.

(** A user who answers through [handle_human_response] while the [j]-th
    sleep of the waiting loop is pending. *)
Definition answering (j : nat) (session_id interaction_id : string)
    (response : StormHumanResponse) (k : nat) (a : Ambient) : Ambient :=
  if Nat.eqb k j
  then snd (handle_human_response session_id interaction_id response (ticking k a))
  else ticking k a.

(** [str.lower] on ASCII text. *)
Definition ascii_lower (s : string) : string :=
  PyStr.of_list
    (map (fun c => if (65 <=? PyStr.code c) && (PyStr.code c <=? 90)
                   then ascii_of_nat (nat_of_ascii c + 32) else c)
         (PyStr.to_list s)).

(** An editor review that waits for its answer in the session [session]. *)
Definition sample_interaction : Interaction :=
  {| interaction_id := "id"; interaction_type := "editor_review";
     interaction_content := "content"; options := [];
     sent := false; response := None |}.

Definition waiting_registry : Ambient :=
  with_interactions {[ "session" := sample_interaction ]} at_noon.

Definition sample_services : Services :=
  {| conversation_manager := Some (ConversationManager.new 20 None None);
     storm_service := Some waiting_registry |}.

(* ===================================================================== *)
(** * Part II.  Properties                                                *)
(* ===================================================================== *)

(** ** Test vectors for the string primitives and the digest *)

Example md5_empty : Md5.hexdigest "" = "d41d8cd98f00b204e9800998ecf8427e".
Proof. vm_compute. reflexivity. Qed.

Example md5_abc : Md5.hexdigest "abc" = "900150983cd24fb0d6963f7d28e17f72".
Proof. vm_compute. reflexivity. Qed.

Example md5_two_blocks :
  Md5.hexdigest "aaaaaaaaaaaaaaaaaaaaaaaaaaaaaaaaaaaaaaaaaaaaaaaaaaaaaaaaaaaaaaaaaaaaaa"
  = "0f5c6c4e740bfcc08c3c26ccb2673d46".
Proof. vm_compute. reflexivity. Qed.

Example md5_korean : Md5.hexdigest "편집자" = "2b373617046da77167ce00b1d5810405".
Proof. vm_compute. reflexivity. Qed.

Example sanitize_mixed : sanitize_name "Dr. Kim-Lee_3 박" = "DrKim-Lee_3".
Proof. vm_compute. reflexivity. Qed.

Example sanitize_korean : sanitize_name "편집자" = "editor_2b373617".
Proof. vm_compute. reflexivity. Qed.

Example split_search :
  PyStr.split "SEARCH:" "a SEARCH: q1  SEARCH: q2" = ["a "; " q1  "; " q2"].
Proof. vm_compute. reflexivity. Qed.

Example strip_query : PyStr.strip "  q1 " = "q1".
Proof. vm_compute. reflexivity. Qed.

(** ** The sanitizer *)

Section Sanitizer.

Variable keep : ascii -> bool.

Lemma filter_chars_all (s : string) :
  PyStr.all_chars keep (PyStr.filter_chars keep s) = true.
Proof.
  induction s as [|c s IH]; cbn; [reflexivity|].
  destruct (keep c) eqn:Hc; cbn; [rewrite Hc|]; exact IH.
Qed.

Lemma filter_chars_fixed (s : string) :
  PyStr.all_chars keep s = true -> PyStr.filter_chars keep s = s.
Proof.
  induction s as [|c s IH]; cbn; [reflexivity|].
  intros [Hc Hs]%andb_true_iff. rewrite Hc, IH; auto.
Qed.

Lemma filter_chars_none (s : string) :
  PyStr.all_chars (fun c => negb (keep c)) s = true ->
  PyStr.filter_chars keep s = "".
Proof.
  induction s as [|c s IH]; cbn; [reflexivity|].
  intros [Hc Hs]%andb_true_iff.
  apply negb_true_iff in Hc. rewrite Hc. auto.
Qed.

Lemma all_chars_app (s t : string) :
  PyStr.all_chars keep (s +:+ t)
  = PyStr.all_chars keep s && PyStr.all_chars keep t.
Proof.
  induction s as [|c s IH]; [reflexivity|].
  change (String c s +:+ t) with (String c (s +:+ t)).
  cbn [PyStr.all_chars]. rewrite IH. apply andb_assoc.
Qed.

Lemma all_chars_take (n : nat) (s : string) :
  PyStr.all_chars keep s = true -> PyStr.all_chars keep (PyStr.take n s) = true.
Proof.
  revert s; induction n as [|n IH]; intros [|c s]; cbn; auto.
  intros [Hc Hs]%andb_true_iff. rewrite Hc. cbn. auto.
Qed.

End Sanitizer.

Lemma hex_digit_name_char_nat (k : nat) :
  (k < 16)%nat -> name_char (Md5.hex_digit (Z.of_nat k)) = true.
Proof.
  intros Hk.
  do 16 (destruct k as [|k]; [vm_compute; reflexivity|]).
  lia.
Qed.

Lemma hex_digit_name_char (n : Z) :
  0 <= n < 16 -> name_char (Md5.hex_digit n) = true.
Proof.
  intros Hn. rewrite <- (Z2Nat.id n) by lia.
  apply hex_digit_name_char_nat. lia.
Qed.

Lemma hex_name_chars (bytes : list Z) :
  PyStr.all_chars name_char (Md5.hex bytes) = true.
Proof.
  induction bytes as [|b bytes IH]; [reflexivity|].
  cbn [Md5.hex PyStr.all_chars].
  rewrite !hex_digit_name_char, IH by (apply Z.mod_pos_bound; lia).
  reflexivity.
Qed.

Lemma fallback_name_chars (x : string) :
  PyStr.all_chars name_char ("editor_" +:+ PyStr.take 8 (Md5.hexdigest x)) = true.
Proof.
  rewrite all_chars_app. apply andb_true_iff. split; [vm_compute; reflexivity|].
  apply all_chars_take, hex_name_chars.
Qed.

Lemma sanitize_name_chars (x : string) :
  PyStr.all_chars name_char (sanitize_name x) = true.
Proof.
  unfold sanitize_name.
  destruct (PyStr.is_empty (PyStr.filter_chars name_char x)).
  - apply fallback_name_chars.
  - apply filter_chars_all.
Qed.

Lemma sanitize_name_nonempty (x : string) : sanitize_name x <> "".
Proof.
  unfold sanitize_name.
  destruct (PyStr.filter_chars name_char x) as [|c s] eqn:E; cbn; discriminate.
Qed.

(** C9, as stated, fails on a name made of hyphens: the hyphen is no
    identifier character, yet the sanitizer keeps it and computes no hash. *)
Lemma C9_hyphen_is_kept :
  PyStr.all_chars (fun c => negb (identifier_char c)) "-" = true
  /\ sanitize_name "-" = "-"
  /\ sanitize_name "-" <> "editor_" +:+ PyStr.take 8 (Md5.hexdigest "-").
Proof. vm_compute. repeat split; discriminate. Qed.

(** C9 (amended): the sanitizer is idempotent, its result is never empty
    and consists of letters, digits, underscores and hyphens only; on an
    input without any letter, digit, underscore or hyphen it is [editor_]
    followed by the first eight hexadecimal digits of the MD5 digest of the
    UTF-8 encoding of the input, a function of the input alone. *)
Theorem C9_sanitize_name_idempotent (x : string) :
  sanitize_name (sanitize_name x) = sanitize_name x
  /\ sanitize_name x <> ""
  /\ PyStr.all_chars name_char (sanitize_name x) = true
  /\ (PyStr.all_chars (fun c => negb (name_char c)) x = true ->
      sanitize_name x = "editor_" +:+ PyStr.take 8 (Md5.hexdigest x)).
Proof.
  split; [|split; [apply sanitize_name_nonempty|split; [apply sanitize_name_chars|]]].
  - pose proof (sanitize_name_chars x) as Hall.
    pose proof (sanitize_name_nonempty x) as Hne.
    unfold sanitize_name at 1.
    rewrite (filter_chars_fixed _ _ Hall).
    destruct (sanitize_name x); [congruence | reflexivity].
  - intros Hnone. unfold sanitize_name.
    rewrite (filter_chars_none _ _ Hnone). reflexivity.
Qed.

Lemma C9_sanitize_name_witness :
  PyStr.all_chars (fun c => negb (name_char c)) "편집자" = true
  /\ sanitize_name "편집자" = "editor_2b373617".
Proof.
  split; [vm_compute; reflexivity|].
  destruct (C9_sanitize_name_idempotent "편집자") as (_ & _ & _ & H).
  rewrite H; vm_compute; reflexivity.
Defined.

(** ** Stage 2: the number of editors *)

Lemma pad_editors_spec (fuel : nat) (target_count : Z) (editors : list Editor) :
  (Z.to_nat target_count - length editors <= fuel)%nat ->
  pad_editors fuel target_count editors
  = editors ++ fallback_editors (length editors)
                                (Z.to_nat target_count - length editors).
Proof.
  revert editors. induction fuel as [|fuel IH]; intros editors Hfuel.
  - cbn. replace (Z.to_nat target_count - length editors)%nat with 0%nat by lia.
    cbn. now rewrite app_nil_r.
  - cbn [pad_editors]. destruct (Z.ltb_spec (Z.of_nat (length editors)) target_count) as [Hlt|Hge].
    + rewrite IH by (rewrite length_app; cbn; lia).
      rewrite length_app. cbn [length].
      replace (Z.to_nat target_count - length editors)%nat
        with (S (Z.to_nat target_count - (length editors + 1)))%nat by lia.
      unfold fallback_editors. cbn [seq map].
      rewrite <- app_assoc. cbn [app].
      now replace (length editors + 1)%nat with (S (length editors)) by lia.
    + replace (Z.to_nat target_count - length editors)%nat with 0%nat by lia.
      cbn. now rewrite app_nil_r.
Qed.

Lemma editors_of_reply_length (parsed : option (list Editor)) (n : Z) :
  0 <= n -> Z.of_nat (length (editors_of_reply parsed n)) = n.
Proof.
  intros Hn. unfold editors_of_reply. destruct parsed as [editors|].
  - destruct (Z.ltb_spec n (Z.of_nat (length editors))) as [Hlong|Hnot].
    + unfold slice_to. destruct (Z.ltb_spec n 0); [lia|].
      rewrite length_firstn. lia.
    + destruct (Z.ltb_spec (Z.of_nat (length editors)) n) as [Hshort|Heq].
      * rewrite pad_editors_spec by lia.
        rewrite length_app. unfold fallback_editors.
        rewrite length_map, length_seq. lia.
      * lia.
  - rewrite length_map, length_seq. lia.
Qed.

Lemma editors_of_reply_cases (parsed : list Editor) (n : Z) :
  0 <= n ->
  (n < Z.of_nat (length parsed) ->
   editors_of_reply (Some parsed) n = firstn (Z.to_nat n) parsed)
  /\ (Z.of_nat (length parsed) <= n ->
      editors_of_reply (Some parsed) n
      = parsed ++ fallback_editors (length parsed) (Z.to_nat n - length parsed)).
Proof.
  intros Hn. unfold editors_of_reply. split; intros H.
  - destruct (Z.ltb_spec n (Z.of_nat (length parsed))); [|lia].
    unfold slice_to. destruct (Z.ltb_spec n 0); [lia|reflexivity].
  - destruct (Z.ltb_spec n (Z.of_nat (length parsed))); [lia|].
    destruct (Z.ltb_spec (Z.of_nat (length parsed)) n).
    + apply pad_editors_spec. lia.
    + replace (Z.to_nat n - length parsed)%nat with 0%nat by lia.
      cbn. now rewrite app_nil_r.
Qed.

Lemma stage_2_outcome (w : World) (topic : string) (n : Z) (s : Sys)
    (st : StormResearchState) :
  0 <= n -> state s = Some st ->
  match stage_2 w topic (Some n) s with
  | (_, Ret held, s') =>
      Z.of_nat (length held) = n
      /\ option_map editors (state s') = Some (Some held)
  | (_, Raise e, _) => perspective_agent w (perspective_runs s) = ProviderFails e
  end.
Proof.
  intros Hn Hstate.
  unfold stage_2, gbind, await, yield, gret, generate_perspectives, mbind,
    start_step, complete_step, run_perspective_agent, update_state, mmodify,
    mret, mraise, target_count_of.
  cbn [state perspective_runs].
  destruct (perspective_agent w (perspective_runs s)) as [e| |parsed];
    cbn [state]; rewrite ?Hstate;
    cbn [state option_map with_state editors set_editors].
  - reflexivity.
  - split; [apply editors_of_reply_length; exact Hn | reflexivity].
  - split; [apply editors_of_reply_length; exact Hn | reflexivity].
Qed.

(** C3: for a requested count [n] in [1, 8], whenever the provider answers,
    [generate_perspectives] returns exactly [n] editors: the first [n] of a
    longer parsed list, a shorter parsed list followed by the fallback
    personas of the missing positions, and the first [n] fallback personas
    when the answer does not parse; only a failing provider call makes the
    method raise.  Stage 2 of the orchestrator stores the returned list in
    the research state, which then holds exactly [n] editors. *)
Theorem C3_editor_count_exact (w : World) (topic : string) (n : Z) (s : Sys)
    (st : StormResearchState) :
  1 <= n <= 8 ->
  state s = Some st ->
  match perspective_agent w (perspective_runs s) with
  | ProviderFails e => fst (generate_perspectives w topic (Some n) s) = Raise e
  | Unparseable =>
      fst (generate_perspectives w topic (Some n) s)
      = Ret (fallback_editors 0 (Z.to_nat n))
      /\ Z.of_nat (length (fallback_editors 0 (Z.to_nat n))) = n
  | Structured parsed =>
      exists held,
        fst (generate_perspectives w topic (Some n) s) = Ret held
        /\ Z.of_nat (length held) = n
        /\ (n < Z.of_nat (length parsed) -> held = firstn (Z.to_nat n) parsed)
        /\ (Z.of_nat (length parsed) <= n ->
            held = parsed ++ fallback_editors (length parsed)
                                              (Z.to_nat n - length parsed))
  end
  /\ match stage_2 w topic (Some n) s with
     | (_, Ret held, s') =>
         Z.of_nat (length held) = n
         /\ option_map editors (state s') = Some (Some held)
     | (_, Raise e, _) =>
         perspective_agent w (perspective_runs s) = ProviderFails e
     end.
Proof.
  intros Hn Hstate. split; [|apply (stage_2_outcome w topic n s st); [lia|exact Hstate]].
  unfold generate_perspectives, mbind, start_step, complete_step,
    run_perspective_agent, mmodify, mret, mraise, target_count_of.
  cbn [perspective_runs fst].
  destruct (perspective_agent w (perspective_runs s)) as [e| |parsed]; cbn [fst].
  - reflexivity.
  - split; [reflexivity|].
    apply (editors_of_reply_length None n). lia.
  - exists (editors_of_reply (Some parsed) n). split; [reflexivity|].
    split; [apply editors_of_reply_length; lia|].
    apply editors_of_reply_cases. lia.
Qed.

Lemma C3_editor_count_witness :
  exists held,
    fst (generate_perspectives verbose_world "topic" (Some 2)
           (with_state (Some (new_state "topic")) (new_system [])))
    = Ret held
    /\ Z.of_nat (length held) = 2.
Proof.
  destruct (C3_editor_count_exact verbose_world "topic" 2
              (with_state (Some (new_state "topic")) (new_system []))
              (new_state "topic"))
    as [(held & Hrun & Hlen & _) _]; [lia | reflexivity |].
  exists held. split; assumption.
Defined.

Example stage_2_stores_the_editors :
  option_map (fun st => option_map (map name) (editors st))
    (state (snd (stage_2 verbose_world "topic" (Some 2)
                   (with_state (Some (new_state "topic")) (new_system [])))))
  = Some (Some ["A"; "B"]).
Proof. vm_compute. reflexivity. Qed.

Example perspectives_truncated :
  fst (generate_perspectives verbose_world "topic" (Some 2) (new_system []))
  = Ret [lone_editor "A"; lone_editor "B"].
Proof. vm_compute. reflexivity. Qed.

Example perspectives_padded :
  map name (editors_of_reply (Some [lone_editor "A"]) 3)
  = ["A"; "Industry_Expert"; "Technical_Specialist"].
Proof. vm_compute. reflexivity. Qed.

Example perspectives_fallback_repeat :
  map name (editors_of_reply None 6)
  = ["Academic_Researcher"; "Industry_Expert"; "Technical_Specialist";
     "Policy_Analyst"; "User_Advocate"; "Academic_Researcher"].
Proof. vm_compute. reflexivity. Qed.

(** ** The editor count at the service boundary *)

Lemma gbind_await_modify {B} (f : Sys -> Sys) (k : unit -> Gen B) (s : Sys) :
  gbind (await (mmodify f)) k s = k tt (f s).
Proof.
  unfold gbind, await, mmodify. destruct (k tt (f s)) as [[events r] s'].
  reflexivity.
Qed.

Lemma gbind_yield {B} (e : Event) (k : unit -> Gen B) (s : Sys) :
  gbind (yield e) k s
  = let '(events, r, s') := k tt s in (e :: events, r, s').
Proof. reflexivity. Qed.

Lemma run_first_event (w : World) (topic : string) (enable_human_loop : bool)
    (editor_count : option Z) (s : Sys) :
  exists rest,
    fst (fst (run_parallel_storm_research w topic enable_human_loop editor_count s))
    = Log "info" "storm_start" [("editor_count", editor_count)] :: rest.
Proof.
  unfold run_parallel_storm_research.
  rewrite gbind_await_modify, gbind_yield.
  match goal with
  | |- context [gbind ?g ?k ?s0] => destruct (gbind g k s0) as [[events r] s']
  end.
  exists events. reflexivity.
Qed.

(** C7, as stated, fails for a request below 1: the count 0 reaches the
    pipeline as 0, where the clamp into [1, 8] would give 1. *)
Lemma C7_zero_is_not_raised :
  hd_error (fst (process_storm_interactive true silent_world [] "topic" "user"
                   "session" (Some (config_with 0))))
  = Some (Log "info" "storm_start" [("editor_count", Some 0)])
  /\ service_editor_count (Some (config_with 0)) <> clamp_1_8 0.
Proof. split; [vm_compute; reflexivity | vm_compute; discriminate]. Qed.

(** C7 (amended): in both entry points of [StormService] the editor count
    handed to the pipeline is [min(requested, 8)], with 3 requested when
    there is no configuration: a request above 8 becomes 8, any other
    request, also one below 1, is passed on unchanged. *)
Theorem C7_editor_count_capped (w : World) (stdin : list string)
    (topic user_id session_id : string) (config : option StormConfig) :
  let n := service_editor_count config in
  n = Z.min (requested_editor_count config) 8
  /\ n <= 8
  /\ (8 < requested_editor_count config -> n = 8)
  /\ (requested_editor_count config <= 8 -> n = requested_editor_count config)
  /\ (exists rest,
        fst (process_storm_interactive true w stdin topic user_id session_id config)
        = Log "info" "storm_start" [("editor_count", Some n)] :: rest)
  /\ (forall result,
        process_storm_research true w stdin topic user_id session_id config
        = Ret result -> parallel_workers result = n).
Proof.
  cbv zeta. unfold service_editor_count.
  fold (requested_editor_count config).
  repeat split; try lia.
  - unfold process_storm_interactive. cbn [negb].
    unfold service_editor_count. fold (requested_editor_count config).
    destruct (run_first_event w topic true
                (Some (Z.min (requested_editor_count config) 8))
                (new_system stdin)) as [rest Hrest].
    destruct (run_parallel_storm_research _ _ _ _ _) as [[events [u|e]] s'];
      cbn [fst] in *; subst events.
    + exists rest. reflexivity.
    + exists (rest ++ [StormError session_id e]). reflexivity.
  - intros result. unfold process_storm_research. cbn [negb].
    unfold service_editor_count. fold (requested_editor_count config).
    destruct (run_parallel_storm_research _ _ _ _ _) as [[events [u|e]] s'];
      [|discriminate].
    intros Hret. inversion Hret. reflexivity.
Qed.

Example service_caps_twelve : service_editor_count (Some (config_with 12)) = 8.
Proof. reflexivity. Qed.

Example service_keeps_negative : service_editor_count (Some (config_with (-2))) = -2.
Proof. reflexivity. Qed.

(** The [/stream] route hands the requested count over as it is. *)
Example stream_route_keeps_twelve :
  hd_error (fst (chat_stream_storm silent_world (new_system []) "topic" None
                   (Some 12) false))
  = Some (Data (Log "info" "storm_start" [("editor_count", Some 12)])).
Proof. vm_compute. reflexivity. Qed.

(** ** Dictionaries *)

Section PyDictFacts.

Context {V : Type}.
Implicit Types (d : PyDict.t V) (k : string) (v : V).

Lemma get_set_eq d k v : PyDict.get k (PyDict.set k v d) = Some v.
Proof.
  induction d as [|[k' v'] d IH]; cbn.
  - now rewrite String.eqb_refl.
  - destruct (String.eqb_spec k' k) as [->|Hne]; cbn.
    + now rewrite String.eqb_refl.
    + destruct (String.eqb_spec k' k); [contradiction|exact IH].
Qed.

Lemma get_set_ne d k k' v : k <> k' -> PyDict.get k' (PyDict.set k v d) = PyDict.get k' d.
Proof.
  intros Hne. induction d as [|[k0 v0] d IH]; cbn.
  - destruct (String.eqb_spec k k'); [contradiction|reflexivity].
  - destruct (String.eqb_spec k0 k) as [->|Hk0]; cbn.
    + destruct (String.eqb_spec k k'); [contradiction|reflexivity].
    + destruct (String.eqb_spec k0 k'); [reflexivity|exact IH].
Qed.

Lemma length_set_fresh d k v :
  PyDict.get k d = None -> length (PyDict.set k v d) = S (length d).
Proof.
  induction d as [|[k' v'] d IH]; cbn; [reflexivity|].
  destruct (String.eqb_spec k' k); [discriminate|].
  intros H. cbn. now rewrite IH.
Qed.

Lemma length_set_present d k v v0 :
  PyDict.get k d = Some v0 -> length (PyDict.set k v d) = length d.
Proof.
  induction d as [|[k' v'] d IH]; cbn; [discriminate|].
  destruct (String.eqb_spec k' k); [reflexivity|].
  intros H. cbn. now rewrite IH.
Qed.

Lemma assign_all_cons entries d k v :
  assign_all ((k, v) :: entries) d = assign_all entries (PyDict.set k v d).
Proof. reflexivity. Qed.

Lemma get_assign_all_other entries d k :
  k ∉ map fst entries -> PyDict.get k (assign_all entries d) = PyDict.get k d.
Proof.
  revert d. induction entries as [|[k0 v0] entries IH]; intros d Hk; [reflexivity|].
  cbn [map fst] in Hk. apply not_elem_of_cons in Hk as [Hne Hk].
  rewrite assign_all_cons, IH by assumption. apply get_set_ne. congruence.
Qed.

Lemma assign_all_distinct entries d :
  NoDup (map fst entries) ->
  (forall k, k ∈ map fst entries -> PyDict.get k d = None) ->
  length (assign_all entries d) = (length d + length entries)%nat
  /\ (forall i k v, entries !! i = Some (k, v) ->
                    PyDict.get k (assign_all entries d) = Some v).
Proof.
  revert d. induction entries as [|[k0 v0] entries IH]; intros d Hnd Hfresh.
  - cbn. split; [lia|]. intros i k v Hi. now rewrite lookup_nil in Hi.
  - cbn [map fst] in Hnd. apply NoDup_cons in Hnd as [Hk0 Hnd].
    assert (Hd0 : PyDict.get k0 d = None) by (apply Hfresh; cbn; left).
    destruct (IH (PyDict.set k0 v0 d) Hnd) as [Hlen Hget].
    { intros k Hk. rewrite get_set_ne.
      - apply Hfresh. cbn. now right.
      - intros ->. contradiction. }
    rewrite assign_all_cons.
    split.
    + rewrite Hlen, length_set_fresh by assumption. cbn. lia.
    + intros [|i] k v Hi; cbn in Hi.
      * injection Hi as -> ->.
        rewrite get_assign_all_other by assumption. apply get_set_eq.
      * eapply Hget; eassumption.
Qed.

Lemma get_assign_all_last entries d (i : nat) k v :
  entries !! i = Some (k, v) ->
  (forall j entry, (i < j)%nat -> entries !! j = Some entry -> fst entry <> k) ->
  PyDict.get k (assign_all entries d) = Some v.
Proof.
  revert d i. induction entries as [|[k0 v0] entries IH]; intros d i Hi Hlater.
  - now rewrite lookup_nil in Hi.
  - rewrite assign_all_cons. destruct i as [|i]; cbn in Hi.
    + injection Hi as -> ->.
      rewrite get_assign_all_other; [apply get_set_eq|].
      intros Hin. apply list_elem_of_In, in_map_iff in Hin as (entry & Hfst & Hin).
      apply list_elem_of_In, list_elem_of_lookup in Hin as [j Hj].
      apply (Hlater (S j) entry); [lia | exact Hj | exact Hfst].
    + apply (IH _ i Hi).
      intros j entry Hij Hj. apply (Hlater (S j) entry); [lia | exact Hj].
Qed.

Lemma values_assign_all (P : V -> Prop) entries d :
  Forall P (map snd entries) -> Forall P (PyDict.values d) ->
  Forall P (PyDict.values (assign_all entries d)).
Proof.
  revert d. induction entries as [|[k v] entries IH]; intros d He Hd; [exact Hd|].
  cbn [map snd] in He. apply Forall_cons in He as [Hv He].
  rewrite assign_all_cons. apply IH; [exact He|].
  clear IH He. induction d as [|[k' v'] d IHd]; cbn.
  - constructor; [exact Hv|constructor].
  - cbn in Hd. apply Forall_cons in Hd as [Hv' Hd].
    destruct (String.eqb k' k); cbn; constructor; auto.
Qed.

End PyDictFacts.

(** ** The fan-in loop *)

Section Gather.

Context {A : Type}.
Variable label : string.
Variable units : Z.
Variable on_error : string -> string -> Result A.

Lemma gather_settled (tasks : list (Task A)) (entries : list (string * A))
    (acc : Gathered A) :
  Forall2 (fun task entry =>
             fst entry = task_key task /\ settle on_error task = Ret (snd entry))
          tasks entries ->
  exists g,
    gather label units on_error tasks acc = Ret g
    /\ gathered g = assign_all entries (gathered acc)
    /\ completed_count g = completed_count acc + Z.of_nat (length tasks)
    /\ map reported_at (reports g)
       = map reported_at (reports acc) ++ await_times (clock acc) (map finishes tasks)
    /\ map completed (reports g)
       = map completed (reports acc) ++ count_up (completed_count acc + 1) (length tasks)
    /\ map total (reports g)
       = map total (reports acc) ++ repeat units (length tasks)
    /\ map task_name (reports g)
       = map task_name (reports acc) ++ repeat label (length tasks).
Proof.
  intros Hall. revert acc.
  induction Hall as [|task [k v] tasks entries [Hk Hv] Hall IH]; intros acc.
  - exists acc. cbn. rewrite !app_nil_r. repeat split; lia.
  - cbn in Hk, Hv. subst k.
    destruct (IH (record_result label units (Z.max (clock acc) (finishes task))
                                (task_key task) v acc))
      as (g & Hg & Hd & Hc & Ht & Hn & Htot & Hlab).
    exists g. unfold settle in Hv. cbn [gather].
    destruct (awaited task) as [result|e].
    + injection Hv as ->. rewrite Hg. split; [reflexivity|].
      cbn in *. rewrite Hd, Hc, Ht, Hn, Htot, Hlab.
      rewrite !map_app, <- !app_assoc. cbn.
      repeat split; try reflexivity; lia.
    + rewrite Hv, Hg. split; [reflexivity|].
      cbn in *. rewrite Hd, Hc, Ht, Hn, Htot, Hlab.
      rewrite !map_app, <- !app_assoc. cbn.
      repeat split; try reflexivity; lia.
Qed.

End Gather.


Lemma Forall2_imap {X Y Z' : Type} (R : Y -> Z' -> Prop)
    (f : nat -> X -> Y) (g : nat -> X -> Z') (l : list X) :
  (forall i x, l !! i = Some x -> R (f i x) (g i x)) ->
  Forall2 R (imap f l) (imap g l).
Proof.
  revert f g. induction l as [|x l IH]; intros f g H; cbn; constructor.
  - apply (H 0%nat x). reflexivity.
  - apply IH. intros i y Hi. apply (H (S i) y). exact Hi.
Qed.

Lemma map_imap_const {X Y Z' : Type} (h : Y -> Z') (p : X -> Z')
    (f : nat -> X -> Y) (l : list X) :
  (forall i x, h (f i x) = p x) -> map h (imap f l) = map p l.
Proof.
  revert f. induction l as [|x l IH]; intros f H; cbn; [reflexivity|].
  rewrite H. f_equal. apply IH. intros i y. apply H.
Qed.

Lemma map_imap_index {X Y Z' : Type} (h : Y -> Z') (q : nat -> Z')
    (f : nat -> X -> Y) (l : list X) :
  (forall i x, h (f i x) = q i) -> map h (imap f l) = map q (seq 0 (length l)).
Proof.
  revert f q. induction l as [|x l IH]; intros f q H; cbn; [reflexivity|].
  rewrite H. f_equal. rewrite <- seq_shift, map_map.
  apply IH. intros i y. apply H.
Qed.

(** ** The interview runner *)

Lemma collect_from (w : World) (messages : list Message) (st : Interview) :
  fold_left (interview_turn w) messages st
  = {| conversation := conversation st ++ map (transcript_entry w) messages;
       summary_found := summary_found st || existsb announces_summary messages;
       turn_count := turn_count st + Z.of_nat (length messages) |}.
Proof.
  revert st. induction messages as [|m messages IH]; intros [conv found turns].
  - cbn. now rewrite app_nil_r, orb_false_r, Z.add_0_r.
  - cbn [fold_left]. rewrite IH.
    unfold interview_turn, transcript_entry, announces_summary.
    cbn [conversation summary_found turn_count map existsb length].
    destruct (PyStr.contains "SEARCH:" (content m)); cbn [negb andb orb].
    + cbn [conversation summary_found turn_count].
      f_equal; [now rewrite <- app_assoc | lia].
    + cbn [conversation summary_found turn_count].
      f_equal; [now rewrite <- app_assoc | | lia].
      destruct (PyStr.contains summary_opening (content m)), found; reflexivity.
Qed.

Lemma conduct_single_interview_messages (w : World) (messages : list Message)
    (editor : Editor) (topic : string) (max_turns : Z) :
  conduct_single_interview w (TeamMessages messages) editor topic max_turns
  = map (transcript_entry w) messages.
Proof.
  unfold conduct_single_interview, collect_interview. now rewrite collect_from.
Qed.

(** C4, as stated, fails: the summary opening in the third message does not
    end the transcript, the two later messages are part of it. *)
Lemma C4_summary_does_not_stop :
  Z.of_nat (length summarised_early) <= max_messages
  /\ length (conduct_single_interview silent_world (TeamMessages summarised_early)
                                      (lone_editor "A") "topic" 20) = 5%nat
  /\ length (transcript_until_summary silent_world summarised_early) = 3%nat
  /\ conduct_single_interview silent_world (TeamMessages summarised_early)
                              (lone_editor "A") "topic" 20
     <> transcript_until_summary silent_world summarised_early.
Proof.
  split; [vm_compute; discriminate|].
  split; [vm_compute; reflexivity|].
  split; [vm_compute; reflexivity|].
  intros H. apply (f_equal (@length string)) in H. vm_compute in H. discriminate.
Qed.

(** C4 (amended): [conduct_single_interview] is total and ignores
    [max_turns]; when the group chat fails it returns the single failure
    entry, otherwise the transcript has exactly one entry per message of the
    chat, a search entry in place of every message that holds a search
    directive and a speaker-tagged entry for every other message, so it has
    at most 19 entries when the chat keeps to its limit of 19 messages.  The
    summary opening is only recorded in a flag and cuts nothing off. *)
Theorem C4_interview_bounded (w : World) (team_run : TeamRun) (editor : Editor)
    (topic : string) (max_turns : Z) :
  (forall messages, team_run = TeamMessages messages ->
                    Z.of_nat (length messages) <= max_messages) ->
  let transcript := conduct_single_interview w team_run editor topic max_turns in
  transcript = conduct_single_interview w team_run editor topic 20
  /\ Z.of_nat (length transcript) <= 19
  /\ match team_run with
     | TeamRaises _ => transcript = interview_failure editor
     | TeamMessages messages =>
         transcript = map (transcript_entry w) messages
         /\ length transcript = length messages
         /\ summary_found (collect_interview w messages)
            = existsb announces_summary messages
         /\ turn_count (collect_interview w messages)
            = Z.of_nat (length messages)
     end.
Proof.
  intros Hlimit. cbv zeta. split; [reflexivity|].
  destruct team_run as [e|messages].
  - split; [cbn; lia | reflexivity].
  - rewrite conduct_single_interview_messages, length_map.
    specialize (Hlimit messages eq_refl). unfold max_messages in Hlimit.
    split; [lia|]. split; [reflexivity|]. split; [reflexivity|].
    unfold collect_interview. rewrite collect_from. cbn. split; [reflexivity|lia].
Qed.

Lemma C4_interview_witness :
  conduct_single_interview silent_world (TeamMessages summarised_early)
                           (lone_editor "A") "topic" 5
  = map (transcript_entry silent_world) summarised_early.
Proof.
  destruct (C4_interview_bounded silent_world (TeamMessages summarised_early)
              (lone_editor "A") "topic" 5) as (_ & _ & H & _).
  - intros messages [= <-]. vm_compute. discriminate.
  - exact H.
Defined.

(** ** Stage 3: the batch of interviews *)

Lemma interview_batch_gathered (w : World) (editors : list Editor) (topic : string) :
  exists g,
    interview_batch w editors topic = Ret g
    /\ gathered g = assign_all (interview_entries w editors topic) []
    /\ map reported_at (reports g)
       = await_times 0 (map (interview_finish w) (seq 0 (length editors)))
    /\ map completed (reports g) = count_up 1 (length editors)
    /\ map total (reports g)
       = repeat (Z.of_nat (length editors)) (length editors).
Proof.
  unfold interview_batch.
  destruct (gather_settled "인터뷰 진행" (Z.of_nat (length editors))
              interview_await_failure (interview_tasks w editors topic)
              (interview_entries w editors topic) (nothing_gathered _ 0))
    as (g & Hg & Hd & _ & Ht & Hn & Htot & _).
  { apply Forall2_imap. intros i editor _. split; [reflexivity|].
    unfold settle. cbn. destruct (interview_fault w i); reflexivity. }
  exists g. split; [exact Hg|]. split; [exact Hd|].
  assert (Hlen : length (interview_tasks w editors topic) = length editors)
    by apply length_imap.
  rewrite Hlen in *. cbn in Ht, Hn, Htot.
  repeat split; try assumption.
  rewrite Ht. f_equal. unfold interview_tasks.
  apply map_imap_index. reflexivity.
Qed.

Lemma transcript_not_a_marker (w : World) (editor : Editor) (e : string)
    (messages : list Message) :
  Forall (fun m => PyStr.all_chars name_char (source m) = true) messages ->
  map (transcript_entry w) messages <> interview_failure editor
  /\ map (transcript_entry w) messages <> interview_await_marker e.
Proof.
  intros Hsrc.
  destruct messages as [|m [|m' rest]]; [split; discriminate| |split; discriminate].
  apply Forall_cons in Hsrc as [Hm _].
  unfold interview_failure, interview_await_marker. cbn [map].
  unfold transcript_entry.
  destruct (PyStr.contains "SEARCH:" (content m)).
  - unfold search_entry. split; intros Heq; injection Heq as Heq;
      cbn in Heq; discriminate.
  - unfold dialogue_entry.
    destruct (source m) as [|c src]; [split; intros Heq; cbn in Heq; discriminate|].
    split; intros Heq; cbn in Heq; inversion Heq; subst c;
      cbn in Hm; discriminate.
Qed.

(** C2, as stated, fails when two editors share a name: the six fallback
    personas carry five names, and the batch of six interviews, the first
    of which fails, returns a mapping of five entries. *)
Lemma C2_six_fallback_editors_five_entries :
  length (editors_of_reply None 6) = 6%nat
  /\ exists results,
       fst (conduct_all_interviews_parallel flaky_world (editors_of_reply None 6)
              "topic" (new_system [])) = Ret results
       /\ length results = 5%nat.
Proof.
  split; [reflexivity|]. eexists. split; vm_compute; reflexivity.
Qed.

(** C2 (amended): for [N] editors with pairwise distinct names, whose
    group chats return at least one message whenever they return, the batch
    raises nothing and returns a mapping of [N] entries; under the name of
    each editor it holds the result of that editor's own task alone: the
    single failure entry of the runner when the interview raised, the
    single failure entry of the coordinator when the task failed at the
    [await], the transcript of the messages otherwise.  A transcript whose
    speakers have ASCII names is never equal to a failure entry. *)
Theorem C2_fan_out_resilient (w : World) (editors : list Editor)
    (topic : string) (s : Sys) :
  NoDup (map name editors) ->
  (forall i, (i < length editors)%nat -> interview_team w i <> TeamMessages []) ->
  exists results,
    fst (conduct_all_interviews_parallel w editors topic s) = Ret results
    /\ length results = length editors
    /\ (forall i editor,
          editors !! i = Some editor ->
          PyDict.get (name editor) results
          = Some match interview_fault w i, interview_team w i with
                 | Some e, _ => interview_await_marker e
                 | None, TeamRaises _ => interview_failure editor
                 | None, TeamMessages messages => map (transcript_entry w) messages
                 end)
    /\ (forall editor e messages,
          Forall (fun m => PyStr.all_chars name_char (source m) = true) messages ->
          map (transcript_entry w) messages <> interview_failure editor
          /\ map (transcript_entry w) messages <> interview_await_marker e).
Proof.
  intros Hnames Hmsgs.
  destruct (interview_batch_gathered w editors topic) as (g & Hg & Hd & _).
  assert (Hkeys : map fst (interview_entries w editors topic) = map name editors).
  { unfold interview_entries. apply map_imap_const. reflexivity. }
  destruct (assign_all_distinct (interview_entries w editors topic) [])
    as [Hlen Hget].
  { now rewrite Hkeys. }
  { reflexivity. }
  assert (Hfull : Forall (fun v : list string => v <> [])
                         (PyDict.values (assign_all (interview_entries w editors topic) []))).
  { apply values_assign_all; [|constructor].
    unfold interview_entries. apply Forall_forall. intros v Hv.
    apply list_elem_of_In, in_map_iff in Hv as ([k v'] & <- & Hin).
    apply list_elem_of_In, list_elem_of_lookup in Hin as [i Hi].
    rewrite list_lookup_imap in Hi.
    destruct (editors !! i) as [editor|] eqn:He; [|discriminate].
    cbn in Hi. injection Hi as _ <-. cbn [snd].
    assert (Hi : (i < length editors)%nat) by (eapply lookup_lt_Some; eassumption).
    specialize (Hmsgs i Hi).
    destruct (interview_fault w i); [discriminate|].
    destruct (interview_team w i) as [e|[|m messages]]; [discriminate|congruence|].
    rewrite conduct_single_interview_messages. discriminate. }
  exists (gathered g).
  split; [|split; [|split]].
  - unfold conduct_all_interviews_parallel, mbind, start_step, complete_step,
      note_interview_batch, mmodify, mret, mraise.
    rewrite Hg, Hd. cbn [fst].
    assert (Hnil : existsb is_nil
                     (PyDict.values (assign_all (interview_entries w editors topic) []))
                   = false).
    { apply not_true_is_false. intros Hex.
      apply existsb_exists in Hex as (v & Hin & Hv).
      rewrite Forall_forall in Hfull.
      apply list_elem_of_In in Hin. specialize (Hfull v Hin).
      destruct v; [congruence|discriminate]. }
    rewrite Hnil. reflexivity.
  - rewrite Hd, Hlen. unfold interview_entries. now rewrite length_imap.
  - intros i editor Hi. rewrite Hd.
    rewrite (Hget i (name editor)
               match interview_fault w i with
               | Some e => interview_await_marker e
               | None =>
                   conduct_single_interview w (interview_team w i) editor topic 20
               end).
    + destruct (interview_fault w i); [reflexivity|].
      destruct (interview_team w i) as [e|messages]; [reflexivity|].
      now rewrite conduct_single_interview_messages.
    + unfold interview_entries. rewrite list_lookup_imap, Hi. reflexivity.
  - intros editor e messages. apply transcript_not_a_marker.
Qed.

Lemma C2_fan_out_witness :
  exists results,
    fst (conduct_all_interviews_parallel flaky_world three_editors "topic"
           (new_system [])) = Ret results
    /\ length results = 3%nat
    /\ PyDict.get "A" results = Some (interview_failure (lone_editor "A"))
    /\ PyDict.get "B" results = Some ["user: task"].
Proof.
  destruct (C2_fan_out_resilient flaky_world three_editors "topic" (new_system []))
    as (results & Hrun & Hlen & Hget & _).
  - apply (bool_decide_unpack _). vm_compute. exact I.
  - intros i Hi. destruct i as [|i]; cbn; discriminate.
  - exists results. split; [exact Hrun|]. split; [exact Hlen|]. split.
    + apply (Hget 0%nat (lone_editor "A")). reflexivity.
    + apply (Hget 1%nat (lone_editor "B")). reflexivity.
Defined.

(** ** Progress reports of the two batches *)

Lemma section_batch_gathered (w : World) (outline : Outline)
    (interview_results : PyDict.t (list string)) (topic : string) :
  exists g,
    section_batch w outline interview_results topic = Ret g
    /\ gathered g
       = assign_all (section_entries w outline interview_results topic) []
    /\ map reported_at (reports g)
       = await_times 0 (map (section_finish w) (seq 0 (length (sections outline))))
    /\ map completed (reports g) = count_up 1 (length (sections outline))
    /\ map total (reports g)
       = repeat (Z.of_nat (length (sections outline))) (length (sections outline)).
Proof.
  unfold section_batch.
  destruct (gather_settled "섹션 작성" (Z.of_nat (length (sections outline)))
              (section_await_failure outline)
              (section_tasks w outline interview_results topic)
              (section_entries w outline interview_results topic)
              (nothing_gathered _ 0))
    as (g & Hg & Hd & _ & Ht & Hn & Htot & _).
  { apply Forall2_imap. intros i section Hi. split; reflexivity. }
  exists g. split; [exact Hg|]. split; [exact Hd|].
  assert (Hlen : length (section_tasks w outline interview_results topic)
                 = length (sections outline))
    by apply length_imap.
  rewrite Hlen in *. cbn in Ht, Hn, Htot.
  repeat split; try assumption.
  rewrite Ht. f_equal. unfold section_tasks.
  apply map_imap_index. reflexivity.
Qed.

(** C6, as stated, fails: the second of two units completes at moment 1 and
    the first at moment 5, and both reports are made at moment 5; in
    completion order the first report would be made at moment 1. *)
Lemma C6_reports_wait_for_first_submitted :
  exists g,
    interview_batch late_first_world [lone_editor "A"; lone_editor "B"] "topic" = Ret g
    /\ map (fun p => (completed p, reported_at p)) (reports g) = [(1, 5); (2, 5)]
    /\ completion_order (map (interview_finish late_first_world) (seq 0 2)) = [1; 5]
    /\ map reported_at (reports g)
       <> completion_order (map (interview_finish late_first_world) (seq 0 2)).
Proof.
  eexists. split; [vm_compute; reflexivity|].
  split; [vm_compute; reflexivity|].
  split; [vm_compute; reflexivity|].
  vm_compute. discriminate.
Qed.

(** C6 (amended): both batches await their tasks in the order of
    submission and report the count of awaited units out of the total after
    each [await]: the [k]-th report carries the count [k] and is made when
    the first [k] submitted units have all finished, that is at the running
    maximum of their finishing times. *)
Theorem C6_progress_in_submission_order (w : World) (editors : list Editor)
    (topic : string) (outline : Outline)
    (interview_results : PyDict.t (list string)) :
  (exists g,
     interview_batch w editors topic = Ret g
     /\ map reported_at (reports g)
        = await_times 0 (map (interview_finish w) (seq 0 (length editors)))
     /\ map completed (reports g) = count_up 1 (length editors)
     /\ map total (reports g) = repeat (Z.of_nat (length editors)) (length editors))
  /\ (exists g,
        section_batch w outline interview_results topic = Ret g
        /\ map reported_at (reports g)
           = await_times 0 (map (section_finish w) (seq 0 (length (sections outline))))
        /\ map completed (reports g) = count_up 1 (length (sections outline))
        /\ map total (reports g)
           = repeat (Z.of_nat (length (sections outline))) (length (sections outline))).
Proof.
  split.
  - destruct (interview_batch_gathered w editors topic) as (g & Hg & _ & H).
    exists g. split; assumption.
  - destruct (section_batch_gathered w outline interview_results topic)
      as (g & Hg & _ & H).
    exists g. split; assumption.
Qed.

Lemma C6_progress_witness :
  exists g,
    interview_batch late_first_world three_editors "topic" = Ret g
    /\ map reported_at (reports g) = [5; 5; 5]
    /\ map completed (reports g) = [1; 2; 3].
Proof.
  destruct (C6_progress_in_submission_order late_first_world three_editors "topic"
              (default_outline "topic") []) as [(g & Hg & Ht & Hn & _) _].
  exists g. split; [exact Hg|]. split; [exact Ht | exact Hn].
Defined.

(** ** Stage 5: a section task that fails *)

Lemma write_sections_parallel_returns (w : World) (outline : Outline)
    (interview_results : PyDict.t (list string)) (topic : string) (s : Sys) :
  fst (write_sections_parallel w outline interview_results topic s)
  = Ret (assign_all (section_entries w outline interview_results topic) []).
Proof.
  destruct (section_batch_gathered w outline interview_results topic)
    as (g & Hg & Hd & _).
  unfold write_sections_parallel, note_section_batch, start_step, complete_step,
    mmodify, mbind, mtry, mret, mraise.
  rewrite Hg. cbn [fst snd]. now rewrite Hd.
Qed.




(** ** The Human Interaction Gate and its timeout *)

Section Timeout.

Variable during_sleep : nat -> Ambient -> Ambient.
Variable session_id : string.
Variable start_time timeout : Z.

(** Every [asyncio.sleep(1)] lets at least one second pass. *)
Hypothesis sleep_takes_a_second :
  forall k a, now a + 1 <= now (during_sleep k a).

Lemma wait_loop_step (fuel k : nat) (a : Ambient) :
  wait_loop during_sleep (S fuel) session_id start_time timeout k a
  = if now a - start_time <? timeout
    then match pending_answer session_id a with
         | Some r => Some {| answer := r; sleeps := k; ambient := a |}
         | None =>
             wait_loop during_sleep fuel session_id start_time timeout (S k)
                       (during_sleep k a)
         end
    else Some {| answer := timeout_approval; sleeps := k; ambient := a |}.
Proof.
  unfold pending_answer. cbn [wait_loop].
  destruct (now a - start_time <? timeout); [|reflexivity].
  destruct (human_interactions a !! session_id) as [[? ? ? ? ? [r|]]|];
    reflexivity.
Qed.

Lemma wait_loop_returns (a0 : Ambient) (fuel k : nat) :
  (Z.to_nat (timeout - (now (ambient_after during_sleep k a0) - start_time))
   < fuel)%nat ->
  exists waited,
    wait_loop during_sleep fuel session_id start_time timeout k
              (ambient_after during_sleep k a0) = Some waited
    /\ (k <= sleeps waited)%nat
    /\ (sleeps waited - k
        <= Z.to_nat (timeout
                     - (now (ambient_after during_sleep k a0) - start_time)))%nat
    /\ ambient waited = ambient_after during_sleep (sleeps waited) a0
    /\ ((forall j, (k <= j)%nat ->
                   (j < k + Z.to_nat (timeout
                          - (now (ambient_after during_sleep k a0) - start_time)))%nat ->
                   pending_answer session_id (ambient_after during_sleep j a0) = None) ->
        answer waited = timeout_approval
        /\ timeout <= now (ambient waited) - start_time).
Proof.
  revert k. induction fuel as [|fuel IH]; intros k Hfuel; [lia|].
  rewrite wait_loop_step.
  set (a := ambient_after during_sleep k a0) in *.
  destruct (Z.ltb_spec (now a - start_time) timeout) as [Hin|Hout].
  - destruct (pending_answer session_id a) as [r|] eqn:Hr.
    + eexists. split; [reflexivity|]. cbn.
      split; [lia|]. split; [lia|]. split; [reflexivity|].
      intros Hnone. assert (Hk : pending_answer session_id a = None)
        by (apply Hnone; lia).
      congruence.
    + pose proof (sleep_takes_a_second k a) as Hsleep.
      change (during_sleep k a) with (ambient_after during_sleep (S k) a0) in *.
      destruct (IH (S k)) as (waited & Hw & Hk & Hn & Ha & Hnone); [lia|].
      exists waited. split; [exact Hw|].
      split; [lia|]. split; [lia|]. split; [exact Ha|].
      intros Hall. apply Hnone. intros j Hj Hj'. apply Hall; lia.
  - eexists. split; [reflexivity|]. cbn.
    split; [lia|]. split; [lia|]. split; [reflexivity|].
    intros _. split; [reflexivity|]. fold a. lia.
Qed.

End Timeout.

(** C5, as stated, fails for a request made without a registered handler:
    with nothing to read from standard input the gate raises [EOFError]
    instead of resolving to an approval (on a terminal it would keep
    waiting), and a typed refusal resolves to [reject]. *)
Lemma C5_no_handler_no_auto_approval :
  fst (request_human_interaction silent_world "editor_review" "content" []
         (new_system []))
  = Raise "EOFError"
  /\ fst (request_human_interaction silent_world "editor_review" "content" []
            (new_system ["n"; "too narrow"]))
     = Ret {| action := "reject"; feedback := Some "too narrow" |}.
Proof. split; vm_compute; reflexivity. Qed.

(** C5 (amended): a request served by the registered handler of the
    application waits in [_wait_for_storm_interaction_response], which
    returns after at most [timeout] one-second sleeps (300 by default)
    whatever happens to the registry, and returns the approval
    [{action: approve}] of the timeout when no response is registered for
    the session at any of its polls; the caller is then released as soon as
    the clock has advanced by [timeout].  A request made without a handler
    reads standard input and has no timeout. *)
Theorem C5_timeout_auto_approval (during_sleep : nat -> Ambient -> Ambient)
    (fuel : nat) (session_id interaction_id : string) (timeout : Z) (a : Ambient) :
  (forall k a', now a' + 1 <= now (during_sleep k a')) ->
  (Z.to_nat timeout < fuel)%nat ->
  exists waited,
    wait_for_storm_interaction_response during_sleep fuel session_id
      interaction_id timeout a = Some waited
    /\ (sleeps waited <= Z.to_nat timeout)%nat
    /\ ambient waited = ambient_after during_sleep (sleeps waited) a
    /\ ((forall j, (j < Z.to_nat timeout)%nat ->
                   pending_answer session_id (ambient_after during_sleep j a) = None) ->
        answer waited = timeout_approval
        /\ action (answer waited) = "approve"
        /\ timeout <= now (ambient waited) - now a).
Proof.
  intros Hsleep Hfuel. unfold wait_for_storm_interaction_response.
  destruct (wait_loop_returns during_sleep session_id (now a) timeout Hsleep a fuel 0)
    as (waited & Hw & _ & Hn & Ha & Hnone).
  { cbn. replace (timeout - (now a - now a)) with timeout by lia. exact Hfuel. }
  cbn in Hw, Hn, Hnone.
  replace (timeout - (now a - now a)) with timeout in * by lia.
  exists waited. split; [exact Hw|]. split; [lia|]. split; [exact Ha|].
  intros Hall. destruct Hnone as [Hans Hlate].
  - intros j _ Hj. apply Hall. exact Hj.
  - split; [exact Hans|]. split; [now rewrite Hans | exact Hlate].
Qed.

Lemma C5_timeout_witness :
  exists waited,
    wait_for_storm_interaction_response ticking 301 "session" "id" default_timeout
      at_noon = Some waited
    /\ (sleeps waited <= 300)%nat.
Proof.
  destruct (C5_timeout_auto_approval ticking 301 "session" "id" default_timeout at_noon)
    as (waited & Hw & Hn & _).
  - intros k a'. cbn. lia.
  - vm_compute. lia.
  - exists waited. split; [exact Hw | exact Hn].
Defined.

Example unanswered_request_is_approved :
  option_map (fun waited => (answer waited, sleeps waited, now (ambient waited)))
    (handle_conversational_storm_interaction ticking 301 "id" (Ret tt) "session"
       "editor_review" "content" [] at_noon)
  = Some (timeout_approval, 300%nat, 43500).
Proof. vm_compute. reflexivity. Qed.

(** ** Reasoning about generator bodies *)

Lemma wp_bind {A B} (g : Gen A) (k : A -> Gen B) (s : Sys)
    (Q : list Event -> Result B -> Sys -> Prop) :
  wp g s (fun events r s' =>
            match r with
            | Ret a => wp (k a) s' (fun events' r' s'' => Q (events ++ events') r' s'')
            | Raise e => Q events (Raise e) s'
            end) ->
  wp (gbind g k) s Q.
Proof.
  unfold wp, gbind. destruct (g s) as [[events [a|e]] s']; cbn [fst snd]; [|auto].
  destruct (k a s') as [[events' r'] s'']. auto.
Qed.

Lemma wp_yield (e : Event) (s : Sys) (Q : list Event -> Result unit -> Sys -> Prop) :
  Q [e] (Ret tt) s -> wp (yield e) s Q.
Proof. auto. Qed.

Lemma wp_ret {A} (a : A) (s : Sys) (Q : list Event -> Result A -> Sys -> Prop) :
  Q [] (Ret a) s -> wp (gret a) s Q.
Proof. auto. Qed.

Lemma wp_await {A} (m : M A) (P : Sys -> Result A -> Sys -> Prop) (s : Sys)
    (Q : list Event -> Result A -> Sys -> Prop) :
  mspec m P -> (forall r s', P s r s' -> Q [] r s') -> wp (await m) s Q.
Proof.
  intros Hm HQ. unfold wp, await. specialize (Hm s).
  destruct (m s) as [r s']. cbn in *. auto.
Qed.

Lemma mspec_any {A} (m : M A) : mspec m (fun _ _ _ => True).
Proof. intros s. exact I. Qed.

Lemma mspec_bind {A B} (m : M A) (k : A -> M B)
    (P : Sys -> Result A -> Sys -> Prop) (P' : A -> Sys -> Result B -> Sys -> Prop)
    (R : Sys -> Result B -> Sys -> Prop) :
  mspec m P -> (forall a, mspec (k a) (P' a)) ->
  (forall s e s', P s (Raise e) s' -> R s (Raise e) s') ->
  (forall s a s' r s'', P s (Ret a) s' -> P' a s' r s'' -> R s r s'') ->
  mspec (mbind m k) R.
Proof.
  intros Hm Hk Hraise Hret s. specialize (Hm s). unfold mbind.
  destruct (m s) as [[a|e] s']; cbn [fst snd] in *.
  - specialize (Hk a s'). destruct (k a s') as [r s'']. cbn in *. eauto.
  - eauto.
Qed.

(** ** The terminal event of a run *)

Ltac run_step :=
  lazymatch goal with
  | |- wp (gbind _ _) _ _ => apply wp_bind
  | |- wp (yield _) _ _ => apply wp_yield
  | |- wp (gret _) _ _ => apply wp_ret
  | |- wp (await _) _ _ =>
      eapply wp_await; [apply mspec_any|]; intros [?|?] ? _
  | |- wp (if ?b then _ else _) _ _ => destruct b
  end;
  cbv beta iota.

Lemma run_generator_outcome (w : World) (topic : string)
    (enable_human_loop : bool) (editor_count : option Z) (s : Sys) :
  wp (run_parallel_storm_research w topic enable_human_loop editor_count) s
     (fun events r _ => generator_outcome events r).
Proof.
  unfold run_parallel_storm_research, stage_1, stage_2, stage_3, stage_4,
    stage_5, stage_6.
  repeat run_step;
    solve [ reflexivity | split; [reflexivity | eexists; reflexivity] ].
Qed.

Lemma count_terminal_app (events events' : list Event) :
  count_terminal (events ++ events')
  = (count_terminal events + count_terminal events')%nat.
Proof. unfold count_terminal. now rewrite List.filter_app, length_app. Qed.

(** C1, as stated, fails for the generator: when the provider call of
    stage 1 raises, the generator has yielded two [log] events and ends
    with the exception, without any terminal event. *)
Lemma C1_provider_failure_no_terminal_event :
  fst (run_parallel_storm_research provider_down_world "topic" false (Some 3)
         (new_system []))
  = ([ Log "info" "storm_start" [("editor_count", Some 3)];
       Log "info" "outline_generation" [("step", Some 1)] ],
     Raise "connection refused")
  /\ count_terminal
       (fst (fst (run_parallel_storm_research provider_down_world "topic" false
                    (Some 3) (new_system [])))) = 0%nat.
Proof. split; vm_compute; reflexivity. Qed.

(** C1 (amended): a run of the generator that returns has yielded exactly
    one terminal event, [storm_complete], as its last event; a run that an
    exception aborts has yielded no terminal event, the generator itself
    never yields [storm_error].  The stream of [process_storm_interactive]
    (with the STORM system available) always ends normally, contains exactly
    one terminal event, and that event is its last: [storm_complete] of the
    run, or the [storm_error] made from its exception. *)
Theorem C1_single_terminal_event (w : World) (stdin : list string)
    (topic user_id session_id : string) (config : option StormConfig)
    (enable_human_loop : bool) (editor_count : option Z) (s : Sys) :
  generator_outcome
    (fst (fst (run_parallel_storm_research w topic enable_human_loop editor_count s)))
    (snd (fst (run_parallel_storm_research w topic enable_human_loop editor_count s)))
  /\ snd (process_storm_interactive true w stdin topic user_id session_id config)
     = Ret tt
  /\ count_terminal
       (fst (process_storm_interactive true w stdin topic user_id session_id config))
     = 1%nat
  /\ exists e,
       last (fst (process_storm_interactive true w stdin topic user_id session_id
                    config)) = Some e
       /\ is_terminal e = true.
Proof.
  split; [apply run_generator_outcome|].
  unfold process_storm_interactive. cbn [negb].
  pose proof (run_generator_outcome w topic true
                (Some (service_editor_count config)) (new_system stdin)) as Hrun.
  unfold wp in Hrun.
  destruct (run_parallel_storm_research w topic true
              (Some (service_editor_count config)) (new_system stdin))
    as [[events [u|e]] s']; cbn [fst snd] in *.
  - destruct Hrun as [Hcount [article Hlast]].
    split; [reflexivity|]. split; [exact Hcount|].
    exists (StormComplete article). split; [exact Hlast | reflexivity].
  - split; [reflexivity|]. split.
    + rewrite count_terminal_app, Hrun. reflexivity.
    + exists (StormError session_id e). split; [apply last_snoc | reflexivity].
Qed.

Example unavailable_service_raises :
  process_storm_interactive false silent_world [] "topic" "user" "session" None
  = ([], Raise "STORM system not available").
Proof. reflexivity. Qed.

Example interactive_run_without_input :
  last (fst (process_storm_interactive true silent_world [] "topic" "user"
               "session" None))
  = Some (StormError "session" "EOFError").
Proof. vm_compute. reflexivity. Qed.

Example plain_run_completes :
  option_map is_terminal
    (last (fst (fst (run_parallel_storm_research silent_world "topic" false
                       (Some 2) (new_system [])))))
  = Some true
  /\ snd (fst (run_parallel_storm_research silent_world "topic" false (Some 2)
                 (new_system []))) = Ret tt.
Proof. split; vm_compute; reflexivity. Qed.

(** ** The checkpoints *)

Ltac has_case t :=
  match t with context [match _ with _ => _ end] => idtac end.

(** Case analysis on a scrutinee that holds no further case analysis. *)
Ltac innermost_case :=
  match goal with
  | |- context [match ?x with _ => _ end] =>
      tryif has_case x then fail else destruct x
  end.

Ltac crush_method :=
  intros s; unfold moved, reviewed; repeat innermost_case;
  cbn; repeat split; try reflexivity; try lia.

Lemma start_step_moved n : mspec (start_step n) (fun s _ s' => moved 0 0 0 s s').
Proof. unfold start_step, mmodify. crush_method. Qed.

Lemma complete_step_moved n :
  mspec (complete_step n) (fun s _ s' => moved 0 0 0 s s').
Proof. unfold complete_step, mmodify. crush_method. Qed.

Lemma with_state_moved st :
  mspec (mmodify (with_state st)) (fun s _ s' => moved 0 0 0 s s').
Proof. unfold mmodify, with_state. crush_method. Qed.

Lemma update_state_moved f : mspec (update_state f) (fun s _ s' => moved 0 0 0 s s').
Proof. unfold update_state, with_state. crush_method. Qed.

Lemma state_outline_moved : mspec state_outline (fun s _ s' => moved 0 0 0 s s').
Proof.
  unfold state_outline, get_state, the, mbind, mret, mraise. crush_method.
Qed.

Lemma state_interview_results_moved :
  mspec state_interview_results (fun s _ s' => moved 0 0 0 s s').
Proof.
  unfold state_interview_results, get_state, the, mbind, mret, mraise.
  crush_method.
Qed.

Lemma state_state_sections_moved :
  mspec state_state_sections (fun s _ s' => moved 0 0 0 s s').
Proof.
  unfold state_state_sections, get_state, the, mbind, mret, mraise. crush_method.
Qed.

Lemma moved_refl (s : Sys) : moved 0 0 0 s s.
Proof. unfold moved. repeat split; lia. Qed.

Lemma state_editors_same (s : Sys) : snd (state_editors s) = s.
Proof.
  unfold state_editors, get_state, the, mbind, mret, mraise.
  destruct (state s) as [st|]; [destruct (editors st)|]; reflexivity.
Qed.

Lemma state_outline_same (s : Sys) : snd (state_outline s) = s.
Proof.
  unfold state_outline, get_state, the, mbind, mret, mraise.
  destruct (state s) as [st|]; [destruct (outline st)|]; reflexivity.
Qed.

Lemma state_state_sections_same (s : Sys) : snd (state_state_sections s) = s.
Proof.
  unfold state_state_sections, get_state, the, mbind, mret, mraise.
  destruct (state s) as [st|]; [destruct (state_sections st)|]; reflexivity.
Qed.

Lemma generate_initial_outline_moved w topic :
  mspec (generate_initial_outline w topic) (fun s _ s' => moved 1 0 0 s s').
Proof.
  unfold generate_initial_outline, run_outline_agent, start_step, complete_step,
    mmodify, mbind, mret, mraise.
  crush_method.
Qed.

Lemma refine_outline_moved w initial_outline interview_results topic :
  mspec (refine_outline w initial_outline interview_results topic)
        (fun s _ s' => moved 1 0 0 s s').
Proof.
  unfold refine_outline, run_outline_agent, start_step, complete_step,
    mmodify, mbind, mret, mraise.
  crush_method.
Qed.

Lemma generate_perspectives_moved w topic editor_count :
  mspec (generate_perspectives w topic editor_count)
        (fun s _ s' => moved 0 1 0 s s').
Proof.
  unfold generate_perspectives, run_perspective_agent, start_step, complete_step,
    mmodify, mbind, mret, mraise.
  crush_method.
Qed.

Lemma conduct_all_interviews_parallel_moved w editors topic :
  mspec (conduct_all_interviews_parallel w editors topic)
        (fun s _ s' => moved 0 0 0 s s').
Proof.
  unfold conduct_all_interviews_parallel, note_interview_batch, start_step,
    complete_step, mmodify, mbind, mret, mraise.
  intros s. destruct (interview_batch w editors topic) as [batch|e].
  - destruct (existsb is_nil (PyDict.values (gathered batch)));
      cbn; unfold moved; cbn; repeat split; lia.
  - cbn; unfold moved; cbn; repeat split; lia.
Qed.

Lemma write_sections_parallel_moved w outline interview_results topic :
  mspec (write_sections_parallel w outline interview_results topic)
        (fun s _ s' => moved 0 0 1 s s').
Proof.
  unfold write_sections_parallel, note_section_batch, start_step, complete_step,
    mmodify, mbind, mtry, mret, mraise.
  intros s. destruct (section_batch w outline interview_results topic) as [batch|e];
    cbn; unfold moved; cbn; repeat split; lia.
Qed.

Lemma write_final_article_moved w outline sections topic :
  mspec (write_final_article w outline sections topic)
        (fun s _ s' => moved 0 0 0 s s').
Proof.
  unfold write_final_article, note_final_run, start_step, complete_step,
    mmodify, mbind, mret, mraise.
  intros s. destruct (final_writer w);
    cbn; unfold moved; cbn; repeat split; lia.
Qed.

Lemma request_human_interaction_reviewed w interaction_type content options :
  mspec (request_human_interaction w interaction_type content options)
        (fun s r s' =>
           r = answer_of w interaction_type s
           /\ reviewed w interaction_type 0 0 s s').
Proof.
  intros s.
  unfold request_human_interaction, note_request, input, lift_result, mget,
    mbind, mret, answer_of, gate_answer, cli_answer, reviewed.
  cbn [fst snd asked stdin callback_registered].
  destruct (callback_registered s) eqn:Hcb; cbn [fst snd].
  - destruct (callback_answer w (length (asked s)) interaction_type);
      cbn; rewrite ?Hcb; repeat split; lia.
  - destruct (stdin s) as [|user_input rest] eqn:Hin; cbn; rewrite ?Hin; cbn.
    + rewrite ?Hcb. repeat split; lia.
    + destruct (is_yes user_input) eqn:Hyes; cbn; rewrite ?Hyes; cbn.
      * rewrite ?Hcb. repeat split; lia.
      * destruct rest as [|line rest']; cbn; rewrite ?Hyes, ?Hcb;
          repeat split; lia.
Qed.

Lemma reviewed_then_moved (w : World) (t : string) (o p o' p' : nat)
    (s s1 s2 : Sys) :
  reviewed w t o p s s1 -> moved o' p' 0 s1 s2 ->
  reviewed w t (o + o') (p + p') s s2.
Proof.
  unfold reviewed, moved.
  intros (H1 & H2 & H3 & H4 & H5 & H6) (K1 & K2 & K3 & K4 & K5 & K6).
  repeat split; try congruence; lia.
Qed.

(** A checkpoint either fails before it makes its request, or makes one
    request and regenerates as its answer says. *)
Lemma editor_review_reviewed w topic :
  mspec (editor_review w topic)
        (fun s r s' =>
           (r <> Ret tt /\ moved 0 0 0 s s')
           \/ exists p,
               reviewed w "editor_review" 0 p s s'
               /\ (p <= regenerates (answer_of w "editor_review" s))%nat
               /\ (r = Ret tt -> p = regenerates (answer_of w "editor_review" s))).
Proof.
  intros s. unfold editor_review, mbind.
  pose proof (state_editors_same s) as Hread.
  destruct (state_editors s) as [[held|e] s0]; cbn [fst snd] in *; subst s0;
    [|left; split; [discriminate | apply moved_refl]].
  right.
  match goal with
  | |- context [request_human_interaction w ?t ?c ?o s] =>
      destruct (request_human_interaction_reviewed w t c o s) as [Hr Hrev];
      destruct (request_human_interaction w t c o s) as [[response|e] s1]
  end; cbn [fst snd] in *; rewrite <- Hr; cbn [regenerates].
  - destruct (String.eqb (action response) "reject"); cbn [andb];
      [destruct (has_feedback response)|].
    + pose proof (generate_perspectives_moved w topic None s1) as Hgen.
      destruct (generate_perspectives w topic None s1) as [[regenerated|e] s2];
        cbn [fst snd] in *.
      * pose proof (update_state_moved (set_editors regenerated) s2) as Hup.
        destruct (update_state (set_editors regenerated) s2) as [r3 s3];
          cbn [fst snd] in *.
        exists 1%nat. split; [|split; [lia|reflexivity]].
        apply (reviewed_then_moved w _ 0 0 0 1 s s1 s2 Hrev) in Hgen.
        apply (reviewed_then_moved w _ _ _ 0 0 s s2 s3 Hgen) in Hup.
        exact Hup.
      * exists 1%nat. split; [|split; [lia|reflexivity]].
        apply (reviewed_then_moved w _ 0 0 0 1 s s1 s2 Hrev) in Hgen.
        exact Hgen.
    + exists 0%nat. split; [exact Hrev|]. split; [lia|reflexivity].
    + exists 0%nat. split; [exact Hrev|]. split; [lia|reflexivity].
  - exists 0%nat. split; [exact Hrev|]. split; [lia|reflexivity].
Qed.

Lemma outline_review_reviewed w topic :
  mspec (outline_review w topic)
        (fun s r s' =>
           (r <> Ret tt /\ moved 0 0 0 s s')
           \/ exists o,
               reviewed w "outline_review" o 0 s s'
               /\ (o <= regenerates (answer_of w "outline_review" s))%nat
               /\ (r = Ret tt -> o = regenerates (answer_of w "outline_review" s))).
Proof.
  intros s. unfold outline_review, mbind.
  pose proof (state_outline_same s) as Hread.
  destruct (state_outline s) as [[shown|e] s0]; cbn [fst snd] in *; subst s0;
    [|left; split; [discriminate | apply moved_refl]].
  right.
  match goal with
  | |- context [request_human_interaction w ?t ?c ?o s] =>
      destruct (request_human_interaction_reviewed w t c o s) as [Hr Hrev];
      destruct (request_human_interaction w t c o s) as [[response|e] s1]
  end; cbn [fst snd] in *; rewrite <- Hr; cbn [regenerates].
  - destruct (String.eqb (action response) "reject"); cbn [andb];
      [destruct (has_feedback response)|].
    + pose proof (state_outline_moved s1) as Hout.
      destruct (state_outline s1) as [[current|e] s2]; cbn [fst snd] in *.
      2:{ exists 0%nat. split; [|split; [lia|discriminate]].
          apply (reviewed_then_moved w _ 0 0 0 0 s s1 s2 Hrev) in Hout.
          exact Hout. }
      apply (reviewed_then_moved w _ 0 0 0 0 s s1 s2 Hrev) in Hout.
      pose proof (state_interview_results_moved s2) as Hint.
      destruct (state_interview_results s2) as [[interviews|e] s3];
        cbn [fst snd] in *.
      2:{ exists 0%nat. split; [|split; [lia|discriminate]].
          apply (reviewed_then_moved w _ _ _ 0 0 s s2 s3 Hout) in Hint.
          exact Hint. }
      apply (reviewed_then_moved w _ _ _ 0 0 s s2 s3 Hout) in Hint.
      pose proof (refine_outline_moved w current interviews topic s3) as Href.
      destruct (refine_outline w current interviews topic s3)
        as [[regenerated|e] s4]; cbn [fst snd] in *.
      * apply (reviewed_then_moved w _ _ _ 1 0 s s3 s4 Hint) in Href.
        pose proof (update_state_moved (set_outline regenerated) s4) as Hup.
        destruct (update_state (set_outline regenerated) s4) as [r5 s5];
          cbn [fst snd] in *.
        apply (reviewed_then_moved w _ _ _ 0 0 s s4 s5 Href) in Hup.
        exists 1%nat. split; [exact Hup|]. split; [lia|reflexivity].
      * apply (reviewed_then_moved w _ _ _ 1 0 s s3 s4 Hint) in Href.
        exists 1%nat. split; [exact Href|]. split; [lia|reflexivity].
    + exists 0%nat. split; [exact Hrev|]. split; [lia|reflexivity].
    + exists 0%nat. split; [exact Hrev|]. split; [lia|reflexivity].
  - exists 0%nat. split; [exact Hrev|]. split; [lia|reflexivity].
Qed.

Lemma section_review_reviewed w :
  mspec (section_review w)
        (fun s r s' =>
           (r <> Ret tt /\ moved 0 0 0 s s')
           \/ reviewed w "section_review" 0 0 s s').
Proof.
  intros s. unfold section_review, mbind.
  pose proof (state_state_sections_same s) as Hread.
  destruct (state_state_sections s) as [[shown|e] s0]; cbn [fst snd] in *; subst s0;
    [|left; split; [discriminate | apply moved_refl]].
  right.
  match goal with
  | |- context [request_human_interaction w ?t ?c ?o s] =>
      destruct (request_human_interaction_reviewed w t c o s) as [Hr Hrev];
      destruct (request_human_interaction w t c o s) as [[response|e] s1]
  end; cbn [fst snd] in *; [|exact Hrev].
  destruct (String.eqb (action response) "reject"); exact Hrev.
Qed.

(** ** A run with the human loop enabled *)

Lemma trail_start (w : World) (s : Sys) : trail w 0 0 0 0 s s.
Proof. unfold trail, pending_input. cbn. rewrite app_nil_r. repeat split; lia. Qed.

Lemma trail_moved (w : World) (k o p b o' p' b' : nat) (s s1 s2 : Sys) :
  trail w k o p b s s1 -> moved o' p' b' s1 s2 ->
  trail w k (o + o') (p + p') (b + b') s s2.
Proof.
  unfold trail, moved.
  intros (H1 & H2 & H3 & H4 & H5 & H6) (K1 & K2 & K3 & K4 & K5 & K6).
  repeat split; try congruence; lia.
Qed.

Lemma trail_reviewed (w : World) (k o p b o' p' : nat) (s s1 s2 : Sys) :
  trail w k o p b s s1 ->
  reviewed w (nth k checkpoints "") o' p' s1 s2 ->
  (k < 3)%nat ->
  trail w (S k) (o + o') (p + p') b s s2
  /\ answer_of w (nth k checkpoints "") s1 = answer_at w s k.
Proof.
  unfold trail, reviewed, answer_of, answer_at, pending_input.
  intros (H1 & H2 & H3 & H4 & H5 & H6) (K1 & K2 & K3 & K4 & K5 & K6) Hk.
  rewrite H1, H2, H3 in *. rewrite K1, K2, K3.
  destruct k as [|[|[|k]]]; [| | |lia]; cbn [firstn nth checkpoints input_after];
    rewrite ?app_nil_r, ?length_app, ?Nat.add_0_r; cbn [length];
    rewrite <- ?app_assoc; cbn [app];
    replace (length (asked s) + 1)%nat with (S (length (asked s))) by lia;
    replace (length (asked s) + 2)%nat with (S (S (length (asked s)))) by lia;
    (split; [repeat split; try reflexivity; lia | reflexivity]).
Qed.

Lemma regenerates_le_1 (a : Result Response) : (regenerates a <= 1)%nat.
Proof.
  destruct a as [response|e]; cbn; [|lia].
  destruct (String.eqb (action response) "reject" && has_feedback response); lia.
Qed.

Create HintDb storm discriminated.
#[local] Hint Resolve start_step_moved complete_step_moved with_state_moved
  update_state_moved state_outline_moved state_interview_results_moved
  state_state_sections_moved generate_initial_outline_moved
  refine_outline_moved generate_perspectives_moved
  conduct_all_interviews_parallel_moved write_sections_parallel_moved
  write_final_article_moved : storm.

Ltac finish_trail :=
  lazymatch goal with
  | Ht : trail ?w _ _ _ _ ?s _ |- review_outcome _ _ _ _ =>
      pose proof (regenerates_le_1 (answer_at w s 0));
      pose proof (regenerates_le_1 (answer_at w s 1));
      do 4 eexists; split; [exact Ht|];
      split; [lia|]; first [discriminate | intros _; lia]
  end.

Ltac await_step :=
  lazymatch goal with
  | Ht : trail ?w ?k _ _ _ ?s0 ?s |- wp (await (editor_review _ _)) ?s _ =>
      eapply wp_await; [apply editor_review_reviewed|];
      let Hno := fresh "Hno" in
      let Hm := fresh "Hm" in
      let Hrev := fresh "Hrev" in
      let Hle := fresh "Hle" in
      let Hex := fresh "Hex" in
      let Hans := fresh "Hans" in
      intros [[]|?] ? [[Hno Hm]|(? & Hrev & Hle & Hex)];
      [ congruence
      | destruct (trail_reviewed _ _ _ _ _ _ _ _ _ _ Ht Hrev ltac:(lia)) as [? Hans];
        cbn [nth checkpoints] in Hans;
        rewrite Hans in Hle, Hex; clear Ht Hrev Hans;
        specialize (Hex eq_refl)
      | apply (trail_moved _ _ _ _ _ _ _ _ _ _ _ Ht) in Hm; clear Ht
      | destruct (trail_reviewed _ _ _ _ _ _ _ _ _ _ Ht Hrev ltac:(lia)) as [? Hans];
        cbn [nth checkpoints] in Hans;
        rewrite Hans in Hle, Hex; clear Ht Hrev Hans ]
  | Ht : trail ?w ?k _ _ _ ?s0 ?s |- wp (await (outline_review _ _)) ?s _ =>
      eapply wp_await; [apply outline_review_reviewed|];
      let Hno := fresh "Hno" in
      let Hm := fresh "Hm" in
      let Hrev := fresh "Hrev" in
      let Hle := fresh "Hle" in
      let Hex := fresh "Hex" in
      let Hans := fresh "Hans" in
      intros [[]|?] ? [[Hno Hm]|(? & Hrev & Hle & Hex)];
      [ congruence
      | destruct (trail_reviewed _ _ _ _ _ _ _ _ _ _ Ht Hrev ltac:(lia)) as [? Hans];
        cbn [nth checkpoints] in Hans;
        rewrite Hans in Hle, Hex; clear Ht Hrev Hans;
        specialize (Hex eq_refl)
      | apply (trail_moved _ _ _ _ _ _ _ _ _ _ _ Ht) in Hm; clear Ht
      | destruct (trail_reviewed _ _ _ _ _ _ _ _ _ _ Ht Hrev ltac:(lia)) as [? Hans];
        cbn [nth checkpoints] in Hans;
        rewrite Hans in Hle, Hex; clear Ht Hrev Hans ]
  | Ht : trail ?w ?k _ _ _ ?s0 ?s |- wp (await (section_review _)) ?s _ =>
      eapply wp_await; [apply section_review_reviewed|];
      let Hno := fresh "Hno" in
      let Hm := fresh "Hm" in
      let Hrev := fresh "Hrev" in
      intros [[]|?] ? [[Hno Hm]|Hrev];
      [ congruence
      | destruct (trail_reviewed _ _ _ _ _ _ _ _ _ _ Ht Hrev ltac:(lia)) as [? _];
        clear Ht Hrev
      | apply (trail_moved _ _ _ _ _ _ _ _ _ _ _ Ht) in Hm; clear Ht
      | destruct (trail_reviewed _ _ _ _ _ _ _ _ _ _ Ht Hrev ltac:(lia)) as [? _];
        clear Ht Hrev ]
  | Ht : trail ?w ?k _ _ _ ?s0 ?s |- wp (await _) ?s _ =>
      eapply wp_await; [solve [eauto with storm]|];
      let Hm := fresh "Hm" in
      intros [?|?] ? Hm; cbv beta in Hm;
      apply (trail_moved _ _ _ _ _ _ _ _ _ _ _ Ht) in Hm; clear Ht
  end.

Ltac trail_step :=
  lazymatch goal with
  | |- wp (gbind _ _) _ _ => apply wp_bind
  | |- wp (yield _) _ _ => apply wp_yield
  | |- wp (gret _) _ _ => apply wp_ret
  | |- wp (await _) _ _ => await_step
  end;
  cbv beta iota.

Lemma run_review_outcome (w : World) (topic : string) (editor_count : option Z)
    (s : Sys) :
  wp (run_parallel_storm_research w topic true editor_count) s
     (fun _ r s' => review_outcome w s r s').
Proof.
  pose proof (trail_start w s) as Hstart.
  unfold run_parallel_storm_research, stage_1, stage_2, stage_3, stage_4,
    stage_5, stage_6.
  repeat trail_step; finish_trail.
Qed.

(** C8, as stated, fails at the section review: the third answer of this
    completed run is a [reject] with feedback, and the sections have been
    written once, not twice. *)
Lemma C8_section_reject_regenerates_nothing :
  snd (fst (run_parallel_storm_research silent_world "topic" true (Some 2)
              (new_system rejecting_sections))) = Ret tt
  /\ answer_at silent_world (new_system rejecting_sections) 2
     = Ret {| action := "reject"; feedback := Some "rewrite the introduction" |}
  /\ regenerates (answer_at silent_world (new_system rejecting_sections) 2) = 1%nat
  /\ section_batches
       (snd (run_parallel_storm_research silent_world "topic" true (Some 2)
               (new_system rejecting_sections))) = 1%nat.
Proof. repeat split; vm_compute; reflexivity. Qed.

(** C8 (amended): a run with the checkpoints enabled makes at most three
    requests, runs the perspective generator at most twice, the outline
    generator at most three times and the section batch at most once.  A
    run that completes has made exactly the three requests [editor_review],
    [outline_review] and [section_review] in this order, one each; the
    perspective generator has run once more than without checkpoints
    exactly when the first answer is a [reject] with feedback, the outline
    generator once more exactly when the second answer is, and the sections
    have been written once whatever the third answer is. *)
Theorem C8_single_regeneration (w : World) (topic : string)
    (editor_count : option Z) (s : Sys) :
  let r := snd (fst (run_parallel_storm_research w topic true editor_count s)) in
  let s' := snd (run_parallel_storm_research w topic true editor_count s) in
  ((perspective_runs s' <= perspective_runs s + 2)%nat
   /\ (outline_runs s' <= outline_runs s + 3)%nat
   /\ (section_batches s' <= section_batches s + 1)%nat
   /\ (length (asked s') <= length (asked s) + 3)%nat)
  /\ (r = Ret tt ->
      asked s' = asked s ++ checkpoints
      /\ perspective_runs s'
         = (perspective_runs s + 1 + regenerates (answer_at w s 0))%nat
      /\ outline_runs s'
         = (outline_runs s + 2 + regenerates (answer_at w s 1))%nat
      /\ section_batches s' = (section_batches s + 1)%nat).
Proof.
  cbv zeta. pose proof (run_review_outcome w topic editor_count s) as Hrun.
  unfold wp, review_outcome in Hrun.
  destruct Hrun as (k & o & p & b & Htrail & Hbound & Hexact).
  destruct Htrail as (_ & _ & Hasked & Ho & Hp & Hb).
  split.
  - rewrite Hasked, Ho, Hp, Hb, length_app.
    pose proof (firstn_le_length k checkpoints). cbn [length checkpoints] in *.
    repeat split; lia.
  - intros Hret. destruct (Hexact Hret) as (-> & -> & -> & ->).
    rewrite Hasked, Ho, Hp, Hb. repeat split; lia.
Qed.

Lemma C8_single_regeneration_witness :
  perspective_runs
    (snd (run_parallel_storm_research silent_world "topic" true (Some 2)
            (new_system rejecting_editors))) = 2%nat
  /\ asked
       (snd (run_parallel_storm_research silent_world "topic" true (Some 2)
               (new_system rejecting_editors))) = checkpoints.
Proof.
  destruct (C8_single_regeneration silent_world "topic" (Some 2)
              (new_system rejecting_editors)) as [_ Hexact].
  destruct Hexact as (Hasked & Hp & _); [vm_compute; reflexivity|].
  split; [rewrite Hp | rewrite Hasked]; vm_compute; reflexivity.
Defined.

(** After a rejected editor review of a run for two editors, the state
    holds the three editors of the regeneration, and the interviews have
    been held with the two editors of the first generation. *)
Example regenerated_editors_are_not_interviewed :
  option_map
    (fun st => (option_map (@length Editor) (editors st),
                option_map (@length (string * list string)) (interview_results st)))
    (state (snd (run_parallel_storm_research silent_world "topic" true (Some 2)
                   (new_system rejecting_editors))))
  = Some (Some 3%nat, Some 2%nat).
Proof. vm_compute. reflexivity. Qed.

Lemma C7_editor_count_witness :
  service_editor_count (Some (config_with 12)) = 8
  /\ exists rest,
       fst (process_storm_interactive true silent_world [] "topic" "user" "session"
              (Some (config_with 12)))
       = Log "info" "storm_start" [("editor_count", Some 8)] :: rest.
Proof.
  destruct (C7_editor_count_capped silent_world [] "topic" "user" "session"
              (Some (config_with 12))) as (_ & _ & Hcap & _ & Hfirst & _).
  split; [apply Hcap; vm_compute; reflexivity | exact Hfirst].
Defined.

(* ===================================================================== *)
(** * Part III.  Further properties of the code                            *)
(* ===================================================================== *)


(** ** The JSON text of a reply *)

Section CharacterPositions.

Implicit Types (s t u sub : string).

Lemma append_assoc s t u : (s +:+ t) +:+ u = s +:+ t +:+ u.
Proof.
  induction s as [|c s IH]; [reflexivity|].
  change (String c ((s +:+ t) +:+ u) = String c (s +:+ t +:+ u)). now rewrite IH.
Qed.

Lemma append_empty_r s : s +:+ "" = s.
Proof.
  induction s as [|c s IH]; [reflexivity|].
  change (String c (s +:+ "") = String c s). now rewrite IH.
Qed.

Lemma len_app s t : PyIndex.len (s +:+ t) = (PyIndex.len s + PyIndex.len t)%nat.
Proof.
  induction s as [|c s IH]; [reflexivity|].
  change (String c s +:+ t) with (String c (s +:+ t)).
  cbn [PyIndex.len]. destruct (PyStr.is_continuation c); rewrite IH; reflexivity.
Qed.

Lemma drop_chars_app s t :
  PyIndex.starts_char t = true ->
  PyIndex.drop_chars (PyIndex.len s) (s +:+ t) = t.
Proof.
  intros Ht. induction s as [|c s IH].
  - change ("" +:+ t) with t. destruct t as [|c t]; [reflexivity|].
    cbn in *. destruct (PyStr.is_continuation c); [discriminate|reflexivity].
  - change (String c s +:+ t) with (String c (s +:+ t)).
    cbn [PyIndex.len PyIndex.drop_chars].
    destruct (PyStr.is_continuation c); exact IH.
Qed.

Lemma drop_chars_app_more s t (n : nat) :
  PyIndex.starts_char t = true ->
  PyIndex.drop_chars (PyIndex.len s + n) (s +:+ t) = PyIndex.drop_chars n t.
Proof.
  intros Ht. induction s as [|c s IH].
  - reflexivity.
  - change (String c s +:+ t) with (String c (s +:+ t)).
    cbn [PyIndex.len PyIndex.drop_chars].
    destruct (PyStr.is_continuation c); exact IH.
Qed.

Lemma take_chars_app s t :
  PyIndex.starts_char t = true ->
  t <> "" ->
  PyStr.take_chars (PyIndex.len s) (s +:+ t) = s.
Proof.
  intros Ht Hne. induction s as [|c s IH].
  - change ("" +:+ t) with t. destruct t as [|c t]; [congruence|].
    cbn in *. destruct (PyStr.is_continuation c); [discriminate|reflexivity].
  - change (String c s +:+ t) with (String c (s +:+ t)).
    cbn [PyIndex.len PyStr.take_chars].
    destruct (PyStr.is_continuation c); now rewrite IH.
Qed.

Lemma take_chars_all s (n : nat) :
  (PyIndex.len s <= n)%nat -> PyStr.take_chars n s = s.
Proof.
  revert n. induction s as [|c s IH]; intros n Hn; [reflexivity|].
  cbn [PyIndex.len PyStr.take_chars] in *.
  destruct (PyStr.is_continuation c).
  - now rewrite IH.
  - destruct n as [|n]; [lia|]. rewrite IH by lia. reflexivity.
Qed.

Lemma startswith_app sub t : PyStr.startswith sub (sub +:+ t) = true.
Proof.
  induction sub as [|c sub IH]; [reflexivity|].
  change (String c sub +:+ t) with (String c (sub +:+ t)).
  cbn. now rewrite Ascii.eqb_refl.
Qed.

Lemma contains_app_r sub s t : PyStr.contains sub (s +:+ sub +:+ t) = true.
Proof.
  induction s as [|c s IH].
  - change ("" +:+ sub +:+ t) with (sub +:+ t).
    destruct (sub +:+ t) eqn:E; cbn [PyStr.contains];
      rewrite <- E, startswith_app; reflexivity.
  - change (String c s +:+ sub +:+ t) with (String c (s +:+ sub +:+ t)).
    cbn [PyStr.contains]. rewrite IH. apply orb_true_r.
Qed.

(** In a text without the first byte of [sub], the first occurrence of
    [sub] in the text followed by [sub] is right behind the text. *)
Lemma first_occurrence_behind (c0 : ascii) sub s t :
  PyStr.all_chars (fun c => negb (Ascii.eqb c c0)) s = true ->
  PyIndex.first_occurrence (String c0 sub) (s +:+ String c0 sub +:+ t)
  = Some (PyIndex.len s).
Proof.
  intros Hs. induction s as [|c s IH].
  - change ("" +:+ String c0 sub +:+ t) with (String c0 sub +:+ t).
    change (String c0 sub +:+ t) with (String c0 (sub +:+ t)).
    cbn [PyIndex.first_occurrence PyStr.startswith].
    now rewrite Ascii.eqb_refl, startswith_app.
  - change (String c s +:+ String c0 sub +:+ t)
      with (String c (s +:+ String c0 sub +:+ t)).
    cbn [PyStr.all_chars] in Hs. apply andb_true_iff in Hs as [Hc Hs].
    cbn [PyIndex.first_occurrence PyStr.startswith PyIndex.len].
    rewrite Ascii.eqb_sym. apply negb_true_iff in Hc. rewrite Hc.
    rewrite (IH Hs). cbn. destruct (PyStr.is_continuation c); reflexivity.
Qed.

(** A text without the first byte of [sub] holds no occurrence of it. *)
Lemma first_occurrence_none (c0 : ascii) sub s :
  PyStr.all_chars (fun c => negb (Ascii.eqb c c0)) s = true ->
  PyIndex.first_occurrence (String c0 sub) s = None.
Proof.
  intros Hs. induction s as [|c s IH]; [reflexivity|].
  cbn [PyStr.all_chars] in Hs. apply andb_true_iff in Hs as [Hc Hs].
  cbn [PyIndex.first_occurrence PyStr.startswith].
  rewrite Ascii.eqb_sym. apply negb_true_iff in Hc. rewrite Hc.
  now rewrite (IH Hs).
Qed.

End CharacterPositions.

Section JsonText.

Implicit Types (pre body post s t : string).

Lemma drop_chars_0 s : PyIndex.starts_char s = true -> PyIndex.drop_chars 0 s = s.
Proof.
  destruct s as [|c s]; [reflexivity|]. cbn.
  destruct (PyStr.is_continuation c); [discriminate|reflexivity].
Qed.

Lemma starts_char_app s t :
  PyIndex.starts_char s = true -> PyIndex.starts_char t = true ->
  PyIndex.starts_char (s +:+ t) = true.
Proof. destruct s as [|c s]; auto. Qed.

Lemma find_behind (c0 : ascii) sub s t :
  PyIndex.starts_char s = true ->
  PyStr.is_continuation c0 = false ->
  PyStr.all_chars (fun c => negb (Ascii.eqb c c0)) s = true ->
  PyIndex.find (String c0 sub) (s +:+ String c0 sub +:+ t) 0
  = Z.of_nat (PyIndex.len s).
Proof.
  intros Hs Hc0 Hfree. unfold PyIndex.find.
  match goal with
  | |- context [if ?a <? ?b then _ else _] => destruct (Z.ltb_spec a b); [lia|]
  end.
  replace (PyIndex.bound 0 _) with 0%nat by (unfold PyIndex.bound; cbn; lia).
  rewrite drop_chars_0.
  - now rewrite first_occurrence_behind.
  - apply starts_char_app; [exact Hs|].
    change (negb (PyStr.is_continuation c0) = true). now rewrite Hc0.
Qed.

Lemma find_from_behind (c0 : ascii) sub s t u :
  PyIndex.starts_char t = true ->
  PyStr.is_continuation c0 = false ->
  PyStr.all_chars (fun c => negb (Ascii.eqb c c0)) t = true ->
  PyIndex.find (String c0 sub) (s +:+ t +:+ String c0 sub +:+ u)
               (Z.of_nat (PyIndex.len s))
  = Z.of_nat (PyIndex.len s + PyIndex.len t).
Proof.
  intros Ht Hc0 Hfree. unfold PyIndex.find.
  rewrite !len_app.
  match goal with
  | |- context [if ?a <? ?b then _ else _] => destruct (Z.ltb_spec a b); [lia|]
  end.
  replace (PyIndex.bound _ _) with (PyIndex.len s)
    by (unfold PyIndex.bound;
        destruct (Z.ltb_spec (Z.of_nat (PyIndex.len s)) 0); lia).
  rewrite drop_chars_app.
  - now rewrite first_occurrence_behind.
  - apply starts_char_app; [exact Ht|].
    change (negb (PyStr.is_continuation c0) = true). now rewrite Hc0.
Qed.

Lemma find_from_none (c0 : ascii) sub s t :
  PyIndex.starts_char t = true ->
  PyStr.all_chars (fun c => negb (Ascii.eqb c c0)) t = true ->
  PyIndex.find (String c0 sub) (s +:+ t) (Z.of_nat (PyIndex.len s)) = -1.
Proof.
  intros Ht Hfree. unfold PyIndex.find.
  rewrite !len_app.
  match goal with
  | |- context [if ?a <? ?b then _ else _] => destruct (Z.ltb_spec a b); [lia|]
  end.
  replace (PyIndex.bound _ _) with (PyIndex.len s)
    by (unfold PyIndex.bound;
        destruct (Z.ltb_spec (Z.of_nat (PyIndex.len s)) 0); lia).
  rewrite drop_chars_app by exact Ht.
  now rewrite first_occurrence_none.
Qed.

Lemma slice_between s t u (a b : Z) :
  PyIndex.starts_char t = true ->
  PyIndex.starts_char u = true -> u <> "" ->
  a = Z.of_nat (PyIndex.len s) ->
  b = Z.of_nat (PyIndex.len s + PyIndex.len t) ->
  PyIndex.slice a b (s +:+ t +:+ u) = t.
Proof.
  intros Ht Hu Hne -> ->. unfold PyIndex.slice. rewrite !len_app.
  replace (PyIndex.bound (Z.of_nat (PyIndex.len s)) _) with (PyIndex.len s)
    by (unfold PyIndex.bound;
        destruct (Z.ltb_spec (Z.of_nat (PyIndex.len s)) 0); lia).
  replace (PyIndex.bound (Z.of_nat (PyIndex.len s + PyIndex.len t)) _)
    with (PyIndex.len s + PyIndex.len t)%nat
    by (unfold PyIndex.bound;
        destruct (Z.ltb_spec (Z.of_nat (PyIndex.len s + PyIndex.len t)) 0); lia).
  rewrite drop_chars_app by (apply starts_char_app; assumption).
  replace (PyIndex.len s + PyIndex.len t - PyIndex.len s)%nat
    with (PyIndex.len t) by lia.
  now apply take_chars_app.
Qed.

Lemma slice_to_last s t (a : Z) :
  PyIndex.starts_char t = true ->
  a = Z.of_nat (PyIndex.len s) ->
  PyIndex.slice a (-1) (s +:+ t) = PyStr.take_chars (PyIndex.len t - 1) t.
Proof.
  intros Ht ->. unfold PyIndex.slice. rewrite !len_app.
  replace (PyIndex.bound (Z.of_nat (PyIndex.len s)) _) with (PyIndex.len s)
    by (unfold PyIndex.bound;
        destruct (Z.ltb_spec (Z.of_nat (PyIndex.len s)) 0); lia).
  replace (PyIndex.bound (-1) _) with (PyIndex.len s + PyIndex.len t - 1)%nat
    by (unfold PyIndex.bound; cbn [Z.ltb Z.compare]; lia).
  rewrite drop_chars_app by exact Ht.
  f_equal. lia.
Qed.

End JsonText.

(** X1: a reply that wraps its JSON in a fence is parsed from the text
    between the fence [```json] and the next [```], without the
    surrounding white space, whatever precedes and follows the block,
    provided neither the text before the block nor the block holds a
    backtick. *)
Theorem json_text_fenced (pre body post : string) :
  PyIndex.starts_char pre = true -> PyIndex.starts_char body = true ->
  no_backtick pre = true -> no_backtick body = true ->
  json_text (pre +:+ json_fence +:+ body +:+ fence +:+ post) = PyStr.strip body.
Proof.
  intros Hpre Hbody Hfree_pre Hfree_body. unfold json_text.
  rewrite contains_app_r. unfold json_fence, fence.
  rewrite (find_behind "`" "``json" pre) by (assumption || reflexivity).
  rewrite <- (append_assoc pre "```json").
  replace (Z.of_nat (PyIndex.len pre) + 7)
    with (Z.of_nat (PyIndex.len (pre +:+ "```json")))
    by (rewrite len_app; change (PyIndex.len "```json") with 7%nat; lia).
  rewrite (find_from_behind "`" "``" (pre +:+ "```json") body post)
    by (assumption || reflexivity).
  f_equal. apply slice_between; try reflexivity; [exact Hbody | discriminate].
Qed.

Lemma json_text_fenced_witness :
  json_text ("Here it is:" +:+ json_fence +:+ " [1, 2] " +:+ fence +:+ " Done.")
  = "[1, 2]".
Proof.
  rewrite (json_text_fenced "Here it is:" " [1, 2] " " Done.");
    vm_compute; reflexivity.
Defined.

(** X2: when the fence [```json] is not closed, the slice runs up to the
    position -1 that [find] answers: the text behind the fence is parsed
    without its last character. *)
Theorem json_text_unterminated (pre body : string) :
  PyIndex.starts_char pre = true -> PyIndex.starts_char body = true ->
  no_backtick pre = true -> no_backtick body = true ->
  json_text (pre +:+ json_fence +:+ body)
  = PyStr.strip (PyStr.take_chars (PyIndex.len body - 1) body).
Proof.
  intros Hpre Hbody Hfree_pre Hfree_body. unfold json_text.
  rewrite contains_app_r. unfold json_fence, fence.
  rewrite (find_behind "`" "``json" pre) by (assumption || reflexivity).
  rewrite <- (append_assoc pre "```json").
  replace (Z.of_nat (PyIndex.len pre) + 7)
    with (Z.of_nat (PyIndex.len (pre +:+ "```json")))
    by (rewrite len_app; change (PyIndex.len "```json") with 7%nat; lia).
  rewrite (find_from_none "`" "``" (pre +:+ "```json") body) by assumption.
  f_equal. now apply slice_to_last.
Qed.

Lemma json_text_unterminated_witness :
  json_text (json_fence +:+ "[1, 2]") = "[1, 2".
Proof.
  exact (json_text_unterminated "" "[1, 2]" eq_refl eq_refl eq_refl eq_refl).
Defined.

(** ** The progress and the state of a run *)

Lemma progress_reports_app (events events' : list Event) :
  progress_reports (events ++ events')
  = progress_reports events ++ progress_reports events'.
Proof. apply omap_app. Qed.

Ltac known_prefix :=
  first [ exists 0%nat; reflexivity | exists 1%nat; reflexivity
        | exists 2%nat; reflexivity | exists 3%nat; reflexivity
        | exists 4%nat; reflexivity | exists 5%nat; reflexivity
        | exists 6%nat; reflexivity ].

Lemma run_progress (w : World) (topic : string) (enable_human_loop : bool)
    (editor_count : option Z) (s : Sys) :
  wp (run_parallel_storm_research w topic enable_human_loop editor_count) s
     (fun events r _ =>
        (exists k, progress_reports events = firstn k all_steps)
        /\ (r = Ret tt -> progress_reports events = all_steps)).
Proof.
  unfold run_parallel_storm_research, stage_1, stage_2, stage_3, stage_4,
    stage_5, stage_6.
  repeat run_step; (split; [known_prefix | first [discriminate | reflexivity]]).
Qed.

(** ** What the methods do to [self.state] *)

Ltac crush_state :=
  intros s; repeat innermost_case; cbn; try reflexivity.

Lemma start_step_state n : mspec (start_step n) (fun s _ s' => state s' = state s).
Proof. unfold start_step, mmodify. crush_state. Qed.

Lemma complete_step_state n :
  mspec (complete_step n) (fun s _ s' => state s' = state s).
Proof. unfold complete_step, mmodify. crush_state. Qed.

Lemma state_outline_state : mspec state_outline (fun s _ s' => state s' = state s).
Proof. intros s. now rewrite state_outline_same. Qed.

Lemma state_interview_results_state :
  mspec state_interview_results (fun s _ s' => state s' = state s).
Proof.
  intros s. unfold state_interview_results, get_state, the, mbind, mret, mraise.
  destruct (state s) as [st|] eqn:Hst; [destruct (interview_results st)|];
    cbn; now rewrite Hst.
Qed.

Lemma state_state_sections_state :
  mspec state_state_sections (fun s _ s' => state s' = state s).
Proof. intros s. now rewrite state_state_sections_same. Qed.

Lemma generate_initial_outline_state w topic :
  mspec (generate_initial_outline w topic) (fun s _ s' => state s' = state s).
Proof.
  unfold generate_initial_outline, run_outline_agent, start_step, complete_step,
    mmodify, mbind, mret, mraise.
  crush_state.
Qed.

Lemma refine_outline_state w initial_outline interview_results topic :
  mspec (refine_outline w initial_outline interview_results topic)
        (fun s _ s' => state s' = state s).
Proof.
  unfold refine_outline, run_outline_agent, start_step, complete_step,
    mmodify, mbind, mret, mraise.
  crush_state.
Qed.

Lemma generate_perspectives_state w topic editor_count :
  mspec (generate_perspectives w topic editor_count)
        (fun s r s' =>
           state s' = state s
           /\ forall held, r = Ret held -> 0 <= target_count_of editor_count ->
                Z.of_nat (length held) = target_count_of editor_count).
Proof.
  unfold generate_perspectives, run_perspective_agent, start_step, complete_step,
    mmodify, mbind, mret, mraise.
  intros s. cbn [perspective_runs].
  destruct (perspective_agent w (perspective_runs s)) as [e| |parsed];
    cbn [fst snd state]; (split; [reflexivity|]); intros held Hheld Hn.
  - discriminate.
  - injection Hheld as <-. exact (editors_of_reply_length None _ Hn).
  - injection Hheld as <-. exact (editors_of_reply_length (Some parsed) _ Hn).
Qed.

Lemma conduct_all_interviews_parallel_state w editors topic :
  mspec (conduct_all_interviews_parallel w editors topic)
        (fun s _ s' => state s' = state s).
Proof.
  unfold conduct_all_interviews_parallel, note_interview_batch, start_step,
    complete_step, mmodify, mbind, mret, mraise.
  intros s. destruct (interview_batch w editors topic) as [batch|e];
    [destruct (existsb is_nil (PyDict.values (gathered batch)))|]; reflexivity.
Qed.

Lemma write_sections_parallel_state w outline interview_results topic :
  mspec (write_sections_parallel w outline interview_results topic)
        (fun s _ s' => state s' = state s).
Proof.
  unfold write_sections_parallel, note_section_batch, start_step, complete_step,
    mmodify, mbind, mtry, mret, mraise.
  intros s. destruct (section_batch w outline interview_results topic);
    reflexivity.
Qed.

Lemma write_final_article_state w outline sections topic :
  mspec (write_final_article w outline sections topic)
        (fun s _ s' => state s' = state s).
Proof.
  unfold write_final_article, note_final_run, start_step, complete_step,
    mmodify, mbind, mret, mraise.
  intros s. destruct (final_writer w); reflexivity.
Qed.

(** An assignment to an attribute of [self.state]: it fails when there is no
    state, and replaces the state by the updated one otherwise. *)
Lemma update_state_state f :
  mspec (update_state f)
        (fun s r s' =>
           match state s with
           | Some st => r = Ret tt /\ state s' = Some (f st)
           | None => r <> Ret tt /\ state s' = None
           end).
Proof.
  intros s. unfold update_state. destruct (state s) as [st|] eqn:Hst; cbn.
  - split; reflexivity.
  - split; [discriminate | exact Hst].
Qed.

Lemma with_state_state v :
  mspec (mmodify (with_state v)) (fun s r s' => r = Ret tt /\ state s' = v).
Proof. intros s. split; reflexivity. Qed.

Lemma request_human_interaction_state w interaction_type content options :
  mspec (request_human_interaction w interaction_type content options)
        (fun s _ s' => state s' = state s).
Proof.
  intros s.
  unfold request_human_interaction, note_request, input, lift_result, mget,
    mbind, mret.
  cbn [fst snd asked stdin callback_registered].
  destruct (callback_registered s) eqn:Hcb; cbn [fst snd].
  - destruct (callback_answer w (length (asked s)) interaction_type); reflexivity.
  - destruct (stdin s) as [|user_input rest] eqn:Hin; cbn; rewrite ?Hin; cbn;
      [reflexivity|].
    destruct (is_yes user_input) eqn:Hyes; cbn; rewrite ?Hyes; cbn;
      [reflexivity|].
    destruct rest as [|line rest']; cbn; rewrite ?Hyes; reflexivity.
Qed.

(** The editor review leaves the state as it is or replaces its editors, by
    three of them: the regeneration asks for the default count. *)
Lemma editor_review_state w topic :
  mspec (editor_review w topic)
        (fun s _ s' =>
           state s' = state s
           \/ exists st regenerated,
                state s = Some st
                /\ state s' = Some (set_editors regenerated st)
                /\ length regenerated = 3%nat).
Proof.
  intros s. unfold editor_review, mbind.
  pose proof (state_editors_same s) as Hread.
  destruct (state_editors s) as [[held|e] s0]; cbn [fst snd] in *; subst s0;
    [|left; reflexivity].
  match goal with
  | |- context [request_human_interaction w ?t ?c ?o s] =>
      pose proof (request_human_interaction_state w t c o s) as Hask;
      destruct (request_human_interaction w t c o s) as [[response|e] s1]
  end; cbn [fst snd] in *; [|left; exact Hask].
  destruct (String.eqb (action response) "reject");
    [destruct (has_feedback response)|]; cbn [fst snd]; try (left; exact Hask).
  pose proof (generate_perspectives_state w topic None s1) as [Hgen Hlen].
  destruct (generate_perspectives w topic None s1) as [[regenerated|e] s2];
    cbn [fst snd] in *; [|left; congruence].
  pose proof (update_state_state (set_editors regenerated) s2) as Hup.
  destruct (update_state (set_editors regenerated) s2) as [r3 s3];
    cbn [fst snd] in *.
  destruct (state s2) as [st|] eqn:Hs2.
  - right. exists st, regenerated. destruct Hup as [_ Hup].
    split; [congruence|]. split; [exact Hup|].
    specialize (Hlen regenerated eq_refl). cbn in Hlen. lia.
  - left. destruct Hup as [_ Hup]. congruence.
Qed.

Lemma outline_review_state w topic :
  mspec (outline_review w topic)
        (fun s _ s' =>
           state s' = state s
           \/ exists st regenerated,
                state s = Some st /\ state s' = Some (set_outline regenerated st)).
Proof.
  intros s. unfold outline_review, mbind.
  pose proof (state_outline_same s) as Hread.
  destruct (state_outline s) as [[shown|e] s0]; cbn [fst snd] in *; subst s0;
    [|left; reflexivity].
  match goal with
  | |- context [request_human_interaction w ?t ?c ?o s] =>
      pose proof (request_human_interaction_state w t c o s) as Hask;
      destruct (request_human_interaction w t c o s) as [[response|e] s1]
  end; cbn [fst snd] in *; [|left; exact Hask].
  destruct (String.eqb (action response) "reject");
    [destruct (has_feedback response)|]; cbn [fst snd]; try (left; exact Hask).
  pose proof (state_outline_same s1) as Hread1.
  destruct (state_outline s1) as [[current|e] s2]; cbn [fst snd] in *; subst s2;
    [|left; exact Hask].
  pose proof (state_interview_results_state s1) as Hread2.
  destruct (state_interview_results s1) as [[interviews|e] s2];
    cbn [fst snd] in *; [|left; congruence].
  pose proof (refine_outline_state w current interviews topic s2) as Href.
  destruct (refine_outline w current interviews topic s2)
    as [[regenerated|e] s3]; cbn [fst snd] in *; [|left; congruence].
  pose proof (update_state_state (set_outline regenerated) s3) as Hup.
  destruct (update_state (set_outline regenerated) s3) as [r4 s4];
    cbn [fst snd] in *.
  destruct (state s3) as [st|] eqn:Hs3.
  - right. exists st, regenerated. destruct Hup as [_ Hup].
    split; [congruence | exact Hup].
  - left. destruct Hup as [_ Hup]. congruence.
Qed.

Lemma section_review_state w :
  mspec (section_review w) (fun s _ s' => state s' = state s).
Proof.
  intros s. unfold section_review, mbind.
  pose proof (state_state_sections_same s) as Hread.
  destruct (state_state_sections s) as [[shown|e] s0]; cbn [fst snd] in *; subst s0;
    [|reflexivity].
  match goal with
  | |- context [request_human_interaction w ?t ?c ?o s] =>
      pose proof (request_human_interaction_state w t c o s) as Hask;
      destruct (request_human_interaction w t c o s) as [[response|e] s1]
  end; cbn [fst snd] in *; [|exact Hask].
  destruct (String.eqb (action response) "reject"); exact Hask.
Qed.

Create HintDb storm_state discriminated.
#[local] Hint Resolve start_step_state complete_step_state state_outline_state
  state_interview_results_state state_state_sections_state
  generate_initial_outline_state refine_outline_state
  conduct_all_interviews_parallel_state write_sections_parallel_state
  write_final_article_state section_review_state : storm_state.

(** One step through a generator body; [Hcur] tells what [self.state] is at
    the point reached. *)
Ltac state_step :=
  lazymatch goal with
  | |- wp (gbind _ _) _ _ => apply wp_bind
  | |- wp (yield _) _ _ => apply wp_yield
  | |- wp (gret _) _ _ => apply wp_ret
  | |- wp (await (mmodify (with_state _))) _ _ =>
      eapply wp_await; [apply with_state_state|];
      intros [[]|?] ? [? Hcur]; [|discriminate]
  | Hcur : state ?s = _ |- wp (await (update_state _)) ?s _ =>
      eapply wp_await; [apply update_state_state|];
      let Hup := fresh "Hup" in
      intros [[]|?] ? Hup; cbv beta in Hup; rewrite Hcur in Hup;
      destruct Hup as [? Hup]; clear Hcur; rename Hup into Hcur
  | Hcur : state ?s = _ |- wp (await (generate_perspectives _ _ _)) ?s _ =>
      eapply wp_await; [apply generate_perspectives_state|];
      let Hst := fresh "Hst" in
      let Hlen := fresh "Hlen" in
      intros [?|?] ? [Hst Hlen]; rewrite Hcur in Hst; clear Hcur;
      rename Hst into Hcur; try specialize (Hlen _ eq_refl)
  | Hcur : state ?s = _ |- wp (await (editor_review _ _)) ?s _ =>
      eapply wp_await; [apply editor_review_state|];
      let Hst := fresh "Hst" in
      let Hs := fresh "Hs" in
      let Hregen := fresh "Hregen" in
      intros [[]|?] ? [Hst | (? & ? & Hs & Hst & Hregen)];
      [ | rewrite Hcur in Hs; injection Hs as <- | | ];
      try (rewrite Hcur in Hst); clear Hcur; rename Hst into Hcur
  | Hcur : state ?s = _ |- wp (await (outline_review _ _)) ?s _ =>
      eapply wp_await; [apply outline_review_state|];
      let Hst := fresh "Hst" in
      let Hs := fresh "Hs" in
      intros [[]|?] ? [Hst | (? & ? & Hs & Hst)];
      [ | rewrite Hcur in Hs; injection Hs as <- | | ];
      try (rewrite Hcur in Hst); clear Hcur; rename Hst into Hcur
  | Hcur : state ?s = _ |- wp (await _) ?s _ =>
      eapply wp_await; [solve [eauto with storm_state]|];
      let Hst := fresh "Hst" in
      intros [?|?] ? Hst; cbv beta in Hst; rewrite Hcur in Hst; clear Hcur;
      rename Hst into Hcur
  | |- wp (if ?b then _ else _) _ _ => destruct b
  end;
  cbv beta iota.

(** ** What the stages hand to [self.state] *)

Lemma conduct_all_interviews_parallel_result w editors topic :
  mspec (conduct_all_interviews_parallel w editors topic)
        (fun s r s' =>
           state s' = state s
           /\ forall held, r = Ret held ->
                exists interviews,
                  interview_batch w editors topic = Ret interviews
                  /\ held = gathered interviews
                  /\ existsb is_nil (PyDict.values (gathered interviews)) = false).
Proof.
  unfold conduct_all_interviews_parallel, note_interview_batch, start_step,
    complete_step, mmodify, mbind, mret, mraise.
  intros s. destruct (interview_batch w editors topic) as [batch|e];
    [destruct (existsb is_nil (PyDict.values (gathered batch))) eqn:Hnil|];
    cbn [fst snd state]; (split; [reflexivity|]); intros held Hheld;
    try discriminate.
  injection Hheld as <-. eauto.
Qed.

Lemma write_sections_parallel_result w outline interview_results topic :
  mspec (write_sections_parallel w outline interview_results topic)
        (fun s r s' =>
           state s' = state s
           /\ exists written,
                section_batch w outline interview_results topic = Ret written
                /\ r = Ret (gathered written)).
Proof.
  intros s. split; [apply write_sections_parallel_state|].
  destruct (section_batch_gathered w outline interview_results topic)
    as (g & Hg & Hd & _).
  exists g. split; [exact Hg|].
  now rewrite write_sections_parallel_returns, Hd.
Qed.

Lemma write_final_article_result w outline sections topic :
  mspec (write_final_article w outline sections topic)
        (fun s r s' =>
           state s' = state s
           /\ r = Ret match final_writer w with
                      | Ret text => text
                      | Raise _ => assembled_article outline sections topic
                      end).
Proof.
  unfold write_final_article, note_final_run, start_step, complete_step,
    mmodify, mbind, mret, mraise.
  intros s. destruct (final_writer w); split; reflexivity.
Qed.

Lemma state_outline_result :
  mspec state_outline
        (fun s r s' =>
           state s' = state s
           /\ forall read, r = Ret read ->
                exists st, state s = Some st /\ outline st = Some read).
Proof.
  intros s. unfold state_outline, get_state, the, mbind, mret, mraise.
  destruct (state s) as [st|] eqn:Hst; [destruct (outline st) eqn:Ho|];
    cbn [fst snd]; (split; [congruence|]); intros read Hread; try discriminate.
  injection Hread as <-. eauto.
Qed.

Lemma state_interview_results_result :
  mspec state_interview_results
        (fun s r s' =>
           state s' = state s
           /\ forall read, r = Ret read ->
                exists st, state s = Some st /\ interview_results st = Some read).
Proof.
  intros s. unfold state_interview_results, get_state, the, mbind, mret, mraise.
  destruct (state s) as [st|] eqn:Hst; [destruct (interview_results st) eqn:Ho|];
    cbn [fst snd]; (split; [congruence|]); intros read Hread; try discriminate.
  injection Hread as <-. eauto.
Qed.

Lemma state_state_sections_result :
  mspec state_state_sections
        (fun s r s' =>
           state s' = state s
           /\ forall read, r = Ret read ->
                exists st, state s = Some st /\ state_sections st = Some read).
Proof.
  intros s. unfold state_state_sections, get_state, the, mbind, mret, mraise.
  destruct (state s) as [st|] eqn:Hst; [destruct (state_sections st) eqn:Ho|];
    cbn [fst snd]; (split; [congruence|]); intros read Hread; try discriminate.
  injection Hread as <-. eauto.
Qed.

(** A read of an attribute of [self.state], the state being known. *)
Ltac read_step spec :=
  lazymatch goal with
  | Hcur : state ?s = _ |- wp (await _) ?s _ =>
      eapply wp_await; [apply spec|];
      let Hst := fresh "Hst" in
      let Hread := fresh "Hread" in
      let Hs := fresh "Hs" in
      let Hattr := fresh "Hattr" in
      intros [?|?] ? [Hst Hread]; rewrite Hcur in Hst;
      [ destruct (Hread _ eq_refl) as (? & Hs & Hattr);
        rewrite Hcur in Hs; injection Hs as <-;
        cbn in Hattr; injection Hattr as <-
      | ];
      clear Hread Hcur; rename Hst into Hcur
  end.

(** One step through a generator body that also keeps what the stages
    returned. *)
Ltac settled_step :=
  lazymatch goal with
  | Hcur : state ?s = _
    |- wp (await (conduct_all_interviews_parallel _ _ _)) ?s _ =>
      eapply wp_await; [apply conduct_all_interviews_parallel_result|];
      let Hst := fresh "Hst" in
      let Hheld := fresh "Hheld" in
      let Hbatch := fresh "Hbatch" in
      let Hfull := fresh "Hfull" in
      intros [?|?] ? [Hst Hheld]; rewrite Hcur in Hst;
      [ destruct (Hheld _ eq_refl) as (? & Hbatch & -> & Hfull) | ];
      clear Hheld Hcur; rename Hst into Hcur
  | Hcur : state ?s = _
    |- wp (await (write_sections_parallel _ _ _ _)) ?s _ =>
      eapply wp_await; [apply write_sections_parallel_result|];
      let Hst := fresh "Hst" in
      let Hwritten := fresh "Hwritten" in
      intros ? ? [Hst (? & Hwritten & ->)]; rewrite Hcur in Hst;
      clear Hcur; rename Hst into Hcur
  | Hcur : state ?s = _
    |- wp (await (write_final_article _ _ _ _)) ?s _ =>
      eapply wp_await; [apply write_final_article_result|];
      let Hst := fresh "Hst" in
      intros ? ? [Hst ->]; rewrite Hcur in Hst;
      clear Hcur; rename Hst into Hcur
  | |- wp (await state_outline) _ _ => read_step state_outline_result
  | |- wp (await state_interview_results) _ _ =>
      read_step state_interview_results_result
  | |- wp (await state_state_sections) _ _ =>
      read_step state_state_sections_result
  | |- _ => state_step
  end;
  cbv beta iota.

Lemma run_completed_state (w : World) (topic : string)
    (enable_human_loop : bool) (editor_count : option Z) (s : Sys) :
  wp (run_parallel_storm_research w topic enable_human_loop editor_count) s
     (fun events r s' =>
        r = Ret tt ->
        exists st,
          state s' = Some st
          /\ completed_state w topic enable_human_loop editor_count events st).
Proof.
  unfold run_parallel_storm_research, stage_1, stage_2, stage_3, stage_4,
    stage_5, stage_6.
  repeat settled_step; try discriminate.
  all: intros _; eexists; (split; [exact Hcur|]);
    unfold completed_state; cbn;
    (split; [reflexivity|]); (split; [reflexivity|]);
    do 5 eexists;
    (split; [reflexivity|]); (split; [eassumption|]);
    (split; [first [reflexivity | left; reflexivity | right; eassumption]|]);
    (split; [destruct (Z.lt_ge_cases (target_count_of editor_count) 0);
             [left; assumption | right; apply Hlen; lia]|]);
    (split; [eassumption|]);
    (split; [reflexivity|]); (split; [reflexivity|]);
    (split; [eassumption|]); split; reflexivity.
Qed.



(** ** The result of [process_storm_research] *)

Lemma terminal_last_counts (events : list Event) (e : Event) :
  last events = Some e -> is_terminal e = true ->
  (1 <= count_terminal events)%nat.
Proof.
  intros Hlast He. apply last_Some in Hlast as [front ->].
  rewrite count_terminal_app. unfold count_terminal at 2. cbn.
  rewrite He. cbn. lia.
Qed.

Lemma completed_article_of_run (events : list Event) (article : string) :
  count_terminal events = 1%nat ->
  last events = Some (StormComplete article) ->
  completed_article events = Some article.
Proof.
  induction events as [|e events IH]; intros Hcount Hlast; [discriminate|].
  destruct events as [|e' events'].
  - cbn in Hlast. injection Hlast as ->. reflexivity.
  - change (last (e :: e' :: events')) with (last (e' :: events')) in Hlast.
    pose proof (terminal_last_counts _ _ Hlast eq_refl) as Hrest.
    assert (Hsplit : count_terminal (e :: e' :: events')
                     = ((if is_terminal e then 1 else 0)
                        + count_terminal (e' :: events'))%nat).
    { unfold count_terminal. cbn [List.filter].
      destruct (is_terminal e); reflexivity. }
    rewrite Hsplit in Hcount.
    destruct e; cbn [is_terminal] in Hcount; try lia; cbn [completed_article];
      apply IH; solve [lia | exact Hlast].
Qed.

Lemma plain_run_editors (w : World) (topic : string) (n : Z) (s : Sys) :
  wp (run_parallel_storm_research w topic false (Some n)) s
     (fun _ r s' =>
        r = Ret tt ->
        exists st held,
          state s' = Some st /\ editors st = Some held
          /\ (0 <= n -> Z.of_nat (length held) = n)).
Proof.
  unfold run_parallel_storm_research, stage_1, stage_2, stage_3, stage_4,
    stage_5, stage_6.
  repeat state_step; try discriminate.
  intros _. do 2 eexists. split; [exact Hcur|]. split; [reflexivity | exact Hlen].
Qed.

(** X4: when [process_storm_research] returns, for a requested count that
    is not negative, the result reports as many editors as
    ([min(requested, 8)]) were asked for, and its response is the article
    of the [storm_complete] event of the run. *)
Theorem process_storm_research_result (w : World) (stdin : list string)
    (topic user_id session_id : string) (config : option StormConfig)
    (result : ResearchResult) :
  0 <= requested_editor_count config ->
  process_storm_research true w stdin topic user_id session_id config = Ret result ->
  editors_count result = Z.min (requested_editor_count config) 8
  /\ parallel_workers result = Z.min (requested_editor_count config) 8
  /\ last (fst (fst (run_parallel_storm_research w topic false
                       (Some (service_editor_count config)) (new_system stdin))))
     = Some (StormComplete (response_text result)).
Proof.
  intros Hn. unfold process_storm_research. cbn [negb].
  pose proof (run_generator_outcome w topic false
                (Some (service_editor_count config)) (new_system stdin)) as Hend.
  pose proof (plain_run_editors w topic (service_editor_count config)
                (new_system stdin)) as Hheld.
  unfold wp in Hend, Hheld.
  destruct (run_parallel_storm_research w topic false
              (Some (service_editor_count config)) (new_system stdin))
    as [[events [[]|e]] s']; cbn [fst snd] in *; [|discriminate].
  destruct Hend as [Hcount [article Hlast]].
  destruct (Hheld eq_refl) as (st & held & Hst & Hed & Hlen).
  rewrite (completed_article_of_run events article Hcount Hlast), Hst, Hed.
  intros Hresult. injection Hresult as <-. cbn.
  split; [|split; [reflexivity | exact Hlast]].
  rewrite Hlen; unfold service_editor_count; fold (requested_editor_count config);
    [reflexivity | lia].
Qed.

Lemma process_storm_research_result_witness :
  exists result,
    process_storm_research true silent_world [] "topic" "user" "session"
      (Some (config_with 12)) = Ret result
    /\ editors_count result = 8.
Proof.
  destruct (process_storm_research true silent_world [] "topic" "user" "session"
              (Some (config_with 12))) as [result|e] eqn:Hrun;
    [|vm_compute in Hrun; discriminate].
  exists result. split; [reflexivity|].
  destruct (process_storm_research_result silent_world [] "topic" "user" "session"
              (Some (config_with 12)) result) as (Hcount & _);
    [vm_compute; discriminate | exact Hrun | exact Hcount].
Defined.

(** X5: an editor review answered by a [reject] with feedback replaces the
    editors of the state by exactly three regenerated ones, whatever the
    count the run was started with: the regeneration calls
    [generate_perspectives] without a count. *)
Theorem editor_review_regenerates_three (w : World) (topic : string) (s : Sys)
    (st : StormResearchState) :
  state s = Some st ->
  is_Some (editors st) ->
  regenerates (answer_of w "editor_review" s) = 1%nat ->
  fst (editor_review w topic s) = Ret tt ->
  exists regenerated,
    state (snd (editor_review w topic s)) = Some (set_editors regenerated st)
    /\ length regenerated = 3%nat.
Proof.
  intros Hst [held Hheld] Hanswer. unfold editor_review, mbind.
  unfold state_editors, get_state, the, mbind, mret. rewrite Hst, Hheld.
  match goal with
  | |- context [request_human_interaction w ?t ?c ?o s] =>
      pose proof (request_human_interaction_state w t c o s) as Hask;
      destruct (request_human_interaction_reviewed w t c o s) as [Hr _];
      destruct (request_human_interaction w t c o s) as [[response|e] s1]
  end; cbn [fst snd] in *; rewrite <- Hr in Hanswer; cbn [regenerates] in Hanswer;
    [|discriminate].
  destruct (String.eqb (action response) "reject");
    [destruct (has_feedback response)|]; cbn [andb] in Hanswer; try discriminate.
  pose proof (generate_perspectives_state w topic None s1) as [Hgen Hlen].
  destruct (generate_perspectives w topic None s1) as [[regenerated|e] s2];
    cbn [fst snd] in *; [|discriminate].
  pose proof (update_state_state (set_editors regenerated) s2) as Hup.
  destruct (update_state (set_editors regenerated) s2) as [r3 s3];
    cbn [fst snd] in *.
  rewrite Hgen, Hask, Hst in Hup. destruct Hup as [_ Hup].
  intros _. exists regenerated. split; [exact Hup|].
  specialize (Hlen regenerated eq_refl). cbn in Hlen. lia.
Qed.

Lemma editor_review_regenerates_three_witness :
  exists regenerated,
    option_map editors
      (state (snd (editor_review silent_world "topic"
                     (with_state (Some (set_editors [lone_editor "A"]
                                                    (new_state "topic")))
                                 (new_system ["n"; "more voices"])))))
    = Some (Some regenerated)
    /\ length regenerated = 3%nat.
Proof.
  destruct (editor_review_regenerates_three silent_world "topic"
              (with_state (Some (set_editors [lone_editor "A"] (new_state "topic")))
                          (new_system ["n"; "more voices"]))
              (set_editors [lone_editor "A"] (new_state "topic")))
    as (regenerated & Hst & Hlen);
    [reflexivity | eexists; reflexivity | vm_compute; reflexivity
    | vm_compute; reflexivity |].
  exists regenerated. split; [now rewrite Hst | exact Hlen].
Defined.

(** X6: the [storm_progress] events of a run report the steps in order,
    each one once and each with a total of 6: a run that completes has
    reported the steps 1 to 6, and a run that an exception ends has reported
    the first [k] of them, for some [k]. *)
Theorem progress_follows_the_steps (w : World) (topic : string)
    (enable_human_loop : bool) (editor_count : option Z) (s : Sys) :
  let '(events, r, _) :=
    run_parallel_storm_research w topic enable_human_loop editor_count s in
  match r with
  | Ret _ =>
      progress_reports events = [(1, 6); (2, 6); (3, 6); (4, 6); (5, 6); (6, 6)]
  | Raise _ =>
      exists k,
        progress_reports events
        = firstn k [(1, 6); (2, 6); (3, 6); (4, 6); (5, 6); (6, 6)]
  end.
Proof.
  pose proof (run_progress w topic enable_human_loop editor_count s) as Hrun.
  unfold wp in Hrun.
  destruct (run_parallel_storm_research w topic enable_human_loop editor_count s)
    as [[events r] s'].
  cbn [fst snd] in Hrun. destruct Hrun as [Hprefix Hall].
  destruct r as [[]|e]; [exact (Hall eq_refl) | exact Hprefix].
Qed.

(** ** The buffer of a conversation *)

Section Buffer.

Import BufferedConversationContext.

Implicit Types (l : list ChatMessage.t) (m : ChatMessage.t).

Lemma last_n_length {A} (n : nat) (x : list A) :
  length (PyList.last_n n x) = Nat.min n (length x).
Proof. unfold PyList.last_n. rewrite length_skipn. lia. Qed.

Lemma last_n_all {A} (n : nat) (x : list A) :
  (length x <= n)%nat -> PyList.last_n n x = x.
Proof.
  intros H. unfold PyList.last_n.
  now replace (length x - n)%nat with 0%nat by lia.
Qed.

Lemma last_n_app_r {A} (n : nat) (x y : list A) :
  PyList.last_n n (PyList.last_n n x ++ y) = PyList.last_n n (x ++ y).
Proof.
  unfold PyList.last_n. rewrite !length_app, length_skipn.
  rewrite !skipn_app, length_skipn. rewrite skipn_skipn. f_equal.
  - f_equal. lia.
  - f_equal. lia.
Qed.

Lemma slice_from_last {A} (n : Z) (x : list A) :
  1 <= n -> PyList.slice_from (- n) x = PyList.last_n (Z.to_nat n) x.
Proof.
  intros Hn. unfold PyList.slice_from, PyList.last_n, PyIndex.bound.
  destruct (Z.ltb_spec (- n) 0); [|lia]. f_equal. lia.
Qed.

Lemma slice_from_front {A} (n : Z) (x : list A) :
  n <= 0 -> PyList.slice_from (- n) x = skipn (Z.to_nat (- n)) x.
Proof.
  intros Hn. unfold PyList.slice_from, PyIndex.bound.
  destruct (Z.ltb_spec (- n) 0); [lia|].
  destruct (Z.le_gt_cases (- n) (Z.of_nat (length x))).
  - f_equal. lia.
  - rewrite !skipn_all2 by lia. reflexivity.
Qed.

Lemma other_of_system l : other_messages (system_messages l) = [].
Proof.
  unfold other_messages, system_messages.
  induction l as [|m l IH]; [reflexivity|]. cbn.
  destruct (ChatMessage.is_system m) eqn:Hm; cbn; rewrite ?Hm; exact IH.
Qed.

Lemma system_of_other l : system_messages (other_messages l) = [].
Proof.
  unfold other_messages, system_messages.
  induction l as [|m l IH]; [reflexivity|]. cbn.
  destruct (ChatMessage.is_system m) eqn:Hm; cbn; rewrite ?Hm; exact IH.
Qed.

Lemma system_of_system l : system_messages (system_messages l) = system_messages l.
Proof.
  unfold system_messages.
  induction l as [|m l IH]; [reflexivity|]. cbn.
  destruct (ChatMessage.is_system m) eqn:Hm; cbn; rewrite ?Hm, IH; reflexivity.
Qed.

Lemma other_fixed l :
  Forall (fun m => ChatMessage.is_system m = false) l -> other_messages l = l.
Proof.
  unfold other_messages. induction 1 as [|m l Hm _ IH]; [reflexivity|].
  cbn. now rewrite Hm, IH.
Qed.

Lemma system_none l :
  Forall (fun m => ChatMessage.is_system m = false) l -> system_messages l = [].
Proof.
  unfold system_messages. induction 1 as [|m l Hm _ IH]; [reflexivity|].
  cbn. now rewrite Hm.
Qed.

Lemma other_are_other l :
  Forall (fun m => ChatMessage.is_system m = false) (other_messages l).
Proof.
  unfold other_messages. induction l as [|m l IH]; [constructor|]. cbn.
  destruct (ChatMessage.is_system m) eqn:Hm; cbn; [exact IH|].
  constructor; assumption.
Qed.

Lemma Forall_skipn {A} (P : A -> Prop) (k : nat) (x : list A) :
  Forall P x -> Forall P (skipn k x).
Proof.
  revert x. induction k as [|k IH]; intros x Hx; [exact Hx|].
  destruct Hx; [constructor|]. cbn. auto.
Qed.

Lemma system_app l l' :
  system_messages (l ++ l') = system_messages l ++ system_messages l'.
Proof. apply List.filter_app. Qed.

Lemma other_app l l' :
  other_messages (l ++ l') = other_messages l ++ other_messages l'.
Proof. apply List.filter_app. Qed.

(** What [_add_message] leaves in the context, for a message that is no
    system message. *)
Lemma add_message_messages m (self : t) sm :
  ChatMessage.is_system m = false ->
  messages (fst (add_message m self sm))
  = system_messages (messages self)
    ++ (if buffer_size self <? Z.of_nat (length (other_messages (messages self) ++ [m]))
        then PyList.slice_from (- buffer_size self)
                               (other_messages (messages self) ++ [m])
        else other_messages (messages self) ++ [m]).
Proof.
  intros Hm. unfold add_message. cbn [fst messages with_messages].
  rewrite system_app, other_app.
  assert (Hs : system_messages [m] = [])
    by (unfold system_messages; cbn; now rewrite Hm).
  assert (Ho : other_messages [m] = [m])
    by (unfold other_messages; cbn; now rewrite Hm).
  now rewrite Hs, Ho, app_nil_r.
Qed.

Lemma add_message_latest m (self : t) sm (n : nat) :
  ChatMessage.is_system m = false ->
  buffer_size self = Z.of_nat n -> (1 <= n)%nat ->
  messages (fst (add_message m self sm))
  = system_messages (messages self)
    ++ PyList.last_n n (other_messages (messages self) ++ [m]).
Proof.
  intros Hm Hsize Hn. rewrite add_message_messages by exact Hm. f_equal.
  rewrite Hsize.
  destruct (Z.ltb_spec (Z.of_nat n)
              (Z.of_nat (length (other_messages (messages self) ++ [m])))).
  - rewrite slice_from_last by lia. now rewrite Nat2Z.id.
  - now rewrite last_n_all by lia.
Qed.

Lemma parts_of_layout l l' :
  Forall (fun m => ChatMessage.is_system m = false) l' ->
  system_messages (system_messages l ++ l') = system_messages l
  /\ other_messages (system_messages l ++ l') = l'.
Proof.
  intros Hl'. rewrite system_app, other_app, system_of_system, other_of_system.
  rewrite (system_none l' Hl'), (other_fixed l' Hl'), app_nil_r. auto.
Qed.

End Buffer.

Section BufferTheorems.

Import BufferedConversationContext.

Lemma last_n_snoc {A} (n : nat) (x : list A) (a : A) :
  PyList.last_n (S n) (x ++ [a]) = PyList.last_n n x ++ [a].
Proof.
  unfold PyList.last_n. rewrite length_app. cbn [length].
  replace (length x + 1 - S n)%nat with (length x - n)%nat by lia.
  rewrite skipn_app.
  replace (length x - n - length x)%nat with 0%nat by lia. reflexivity.
Qed.

End BufferTheorems.

(** X7: with a buffer size of at least 1, adding a message that is no
    system message leaves at most [buffer_size] other messages in the
    context, behind the system messages, which stay as they are; the
    message added is the last one.  This holds of any context, also of one
    that held more messages than its buffer size. *)
Theorem add_message_within_buffer (m : ChatMessage.t)
    (self : BufferedConversationContext.t) (sm : option SessionManager.t) :
  1 <= BufferedConversationContext.buffer_size self ->
  ChatMessage.is_system m = false ->
  let self' := fst (BufferedConversationContext.add_message m self sm) in
  let held := BufferedConversationContext.messages self' in
  Z.of_nat (length (BufferedConversationContext.other_messages held))
  <= BufferedConversationContext.buffer_size self'
  /\ held = BufferedConversationContext.system_messages held
            ++ BufferedConversationContext.other_messages held
  /\ BufferedConversationContext.system_messages held
     = BufferedConversationContext.system_messages
         (BufferedConversationContext.messages self)
  /\ last held = Some m.
Proof.
  intros Hsize Hm. cbv zeta.
  rewrite (add_message_latest m self sm
             (Z.to_nat (BufferedConversationContext.buffer_size self)))
    by (assumption || lia).
  set (n := Z.to_nat (BufferedConversationContext.buffer_size self)).
  set (others := BufferedConversationContext.other_messages
                   (BufferedConversationContext.messages self)).
  assert (Hothers : Forall (fun m => ChatMessage.is_system m = false)
                           (PyList.last_n n (others ++ [m]))).
  { unfold PyList.last_n. apply Forall_skipn, Forall_app. split.
    - apply other_are_other.
    - constructor; [exact Hm | constructor]. }
  destruct (parts_of_layout (BufferedConversationContext.messages self) _ Hothers)
    as [Hsys Hoth].
  rewrite Hsys, Hoth.
  split; [|split; [reflexivity|split; [reflexivity|]]].
  - rewrite last_n_length. cbn. lia.
  - destruct n as [|n'] eqn:Hn; [lia|].
    rewrite last_n_snoc, app_assoc. apply last_snoc.
Qed.

Lemma add_message_within_buffer_witness :
  map ChatMessage.content
      (BufferedConversationContext.messages
         (fst (BufferedConversationContext.add_message
                 (sample_message MessageRole.USER "c")
                 (sample_context 2 [sample_message MessageRole.SYSTEM "s";
                                    sample_message MessageRole.USER "a";
                                    sample_message MessageRole.ASSISTANT "b"])
                 None)))
  = ["s"; "b"; "c"].
Proof.
  pose proof (add_message_within_buffer (sample_message MessageRole.USER "c")
                (sample_context 2 [sample_message MessageRole.SYSTEM "s";
                                   sample_message MessageRole.USER "a";
                                   sample_message MessageRole.ASSISTANT "b"])
                None) as H.
  cbv zeta in H. destruct H as (_ & _ & _ & _); [vm_compute; discriminate | reflexivity|].
  vm_compute. reflexivity.
Defined.

Lemma add_messages_cons (m : ChatMessage.t) (rest : list ChatMessage.t)
    (self : BufferedConversationContext.t) (sm : option SessionManager.t) :
  add_messages (m :: rest) self sm
  = add_messages rest (fst (BufferedConversationContext.add_message m self sm))
                 (snd (BufferedConversationContext.add_message m self sm)).
Proof.
  unfold add_messages. cbn [fold_left fst snd]. now rewrite <- surjective_pairing.
Qed.

Lemma add_messages_laid_out (added : list ChatMessage.t) (n : nat) :
  (1 <= n)%nat ->
  Forall (fun m => ChatMessage.is_system m = false) added ->
  forall (self : BufferedConversationContext.t) (sm : option SessionManager.t),
    BufferedConversationContext.buffer_size self = Z.of_nat n ->
    BufferedConversationContext.messages self
    = BufferedConversationContext.system_messages
        (BufferedConversationContext.messages self)
      ++ BufferedConversationContext.other_messages
           (BufferedConversationContext.messages self) ->
    (length (BufferedConversationContext.other_messages
               (BufferedConversationContext.messages self)) <= n)%nat ->
    BufferedConversationContext.messages (fst (add_messages added self sm))
    = BufferedConversationContext.system_messages
        (BufferedConversationContext.messages self)
      ++ PyList.last_n n
           (BufferedConversationContext.other_messages
              (BufferedConversationContext.messages self) ++ added).
Proof.
  intros Hn Hadded.
  induction Hadded as [|m added Hm Hadded IH]; intros self sm Hsize Hlayout Hfit.
  - cbn [add_messages fold_left fst]. rewrite app_nil_r, last_n_all by exact Hfit.
    exact Hlayout.
  - rewrite add_messages_cons.
    pose proof (add_message_latest m self sm n Hm Hsize Hn) as Hstep.
    set (next := fst (BufferedConversationContext.add_message m self sm)) in *.
    set (others := BufferedConversationContext.other_messages
                     (BufferedConversationContext.messages self)) in *.
    assert (Hothers : Forall (fun m => ChatMessage.is_system m = false)
                             (PyList.last_n n (others ++ [m]))).
    { unfold PyList.last_n. apply Forall_skipn, Forall_app. split.
      - apply other_are_other.
      - constructor; [exact Hm | constructor]. }
    destruct (parts_of_layout (BufferedConversationContext.messages self) _ Hothers)
      as [Hsys Hoth].
    rewrite <- Hstep in Hsys, Hoth.
    rewrite IH.
    + rewrite Hsys, Hoth, last_n_app_r, <- app_assoc. reflexivity.
    + exact Hsize.
    + rewrite Hsys, Hoth. exact Hstep.
    + rewrite Hoth, last_n_length. lia.
Qed.

(** X8: a context with a buffer size [n >= 1] that is fed one or more
    messages, none of them a system message, holds its system messages
    followed by the last [n] of its former other messages and the messages
    fed, in their order. *)
Theorem context_keeps_the_latest (added : list ChatMessage.t)
    (self : BufferedConversationContext.t) (sm : option SessionManager.t)
    (n : nat) :
  BufferedConversationContext.buffer_size self = Z.of_nat n -> (1 <= n)%nat ->
  Forall (fun m => ChatMessage.is_system m = false) added ->
  added <> [] ->
  BufferedConversationContext.messages (fst (add_messages added self sm))
  = BufferedConversationContext.system_messages
      (BufferedConversationContext.messages self)
    ++ PyList.last_n n
         (BufferedConversationContext.other_messages
            (BufferedConversationContext.messages self) ++ added).
Proof.
  intros Hsize Hn Hadded Hsome.
  destruct Hadded as [|m added Hm Hadded]; [congruence|].
  rewrite add_messages_cons.
  pose proof (add_message_latest m self sm n Hm Hsize Hn) as Hstep.
  set (next := fst (BufferedConversationContext.add_message m self sm)) in *.
  set (others := BufferedConversationContext.other_messages
                   (BufferedConversationContext.messages self)) in *.
  assert (Hothers : Forall (fun m => ChatMessage.is_system m = false)
                           (PyList.last_n n (others ++ [m]))).
  { unfold PyList.last_n. apply Forall_skipn, Forall_app. split.
    - apply other_are_other.
    - constructor; [exact Hm | constructor]. }
  destruct (parts_of_layout (BufferedConversationContext.messages self) _ Hothers)
    as [Hsys Hoth].
  rewrite <- Hstep in Hsys, Hoth.
  rewrite (add_messages_laid_out added n Hn Hadded).
  - rewrite Hsys, Hoth, last_n_app_r, <- app_assoc. reflexivity.
  - exact Hsize.
  - rewrite Hsys, Hoth. exact Hstep.
  - rewrite Hoth, last_n_length. lia.
Qed.

Lemma context_keeps_the_latest_witness :
  map ChatMessage.content
      (BufferedConversationContext.messages
         (fst (add_messages [sample_message MessageRole.USER "c";
                             sample_message MessageRole.ASSISTANT "d"]
                 (sample_context 2 [sample_message MessageRole.USER "a";
                                    sample_message MessageRole.SYSTEM "s";
                                    sample_message MessageRole.ASSISTANT "b"])
                 None)))
  = ["s"; "c"; "d"].
Proof.
  rewrite (context_keeps_the_latest
             [sample_message MessageRole.USER "c";
              sample_message MessageRole.ASSISTANT "d"]
             (sample_context 2 [sample_message MessageRole.USER "a";
                                sample_message MessageRole.SYSTEM "s";
                                sample_message MessageRole.ASSISTANT "b"])
             None 2);
    [reflexivity | reflexivity | lia | repeat constructor | discriminate].
Defined.

(** X9: a buffer size of 0 does not empty the buffer, it switches the
    trimming off: with a buffer size [n <= 0] the slice [[-n:]] keeps all
    other messages but the first [-n], so with 0 every message is kept. *)
Theorem add_message_without_bound (m : ChatMessage.t)
    (self : BufferedConversationContext.t) (sm : option SessionManager.t) :
  BufferedConversationContext.buffer_size self <= 0 ->
  ChatMessage.is_system m = false ->
  BufferedConversationContext.messages
    (fst (BufferedConversationContext.add_message m self sm))
  = BufferedConversationContext.system_messages
      (BufferedConversationContext.messages self)
    ++ skipn (Z.to_nat (- BufferedConversationContext.buffer_size self))
             (BufferedConversationContext.other_messages
                (BufferedConversationContext.messages self) ++ [m]).
Proof.
  intros Hsize Hm. rewrite add_message_messages by exact Hm. f_equal.
  rewrite length_app. cbn [length].
  destruct (Z.ltb_spec (BufferedConversationContext.buffer_size self)
              (Z.of_nat (length (BufferedConversationContext.other_messages
                                   (BufferedConversationContext.messages self))
                         + 1))); [|lia].
  now apply slice_from_front.
Qed.

Lemma add_message_without_bound_witness :
  map ChatMessage.content
      (BufferedConversationContext.messages
         (fst (BufferedConversationContext.add_message
                 (sample_message MessageRole.USER "c")
                 (sample_context 0 [sample_message MessageRole.USER "a";
                                    sample_message MessageRole.ASSISTANT "b"])
                 None)))
  = ["a"; "b"; "c"].
Proof.
  rewrite (add_message_without_bound (sample_message MessageRole.USER "c")
             (sample_context 0 [sample_message MessageRole.USER "a";
                                sample_message MessageRole.ASSISTANT "b"]) None);
    [reflexivity | cbn; lia | reflexivity].
Defined.

(** X10: [add_system_message] puts the new system message in front, removes
    every system message the context held and keeps the other messages in
    their order: afterwards the context holds exactly one system message,
    its first message. *)
Theorem add_system_message_replaces (now content : string)
    (self : BufferedConversationContext.t) (sm : option SessionManager.t) :
  let added :=
    {| ChatMessage.content := content; ChatMessage.role := MessageRole.SYSTEM;
       ChatMessage.timestamp := now; ChatMessage.source := Some "system";
       ChatMessage.metadata := None |} in
  let held :=
    BufferedConversationContext.messages
      (fst (BufferedConversationContext.add_system_message now content self sm)) in
  held = added :: BufferedConversationContext.other_messages
                    (BufferedConversationContext.messages self)
  /\ BufferedConversationContext.system_messages held = [added].
Proof.
  cbv zeta. unfold BufferedConversationContext.add_system_message.
  cbn [fst BufferedConversationContext.messages
       BufferedConversationContext.with_messages].
  assert (Hkept :
    match BufferedConversationContext.system_messages
            (BufferedConversationContext.messages self) with
    | [] => BufferedConversationContext.messages self
    | _ :: _ => BufferedConversationContext.other_messages
                  (BufferedConversationContext.messages self)
    end
    = BufferedConversationContext.other_messages
        (BufferedConversationContext.messages self)).
  { destruct (BufferedConversationContext.system_messages
                (BufferedConversationContext.messages self)) eqn:Hsys;
      [|reflexivity].
    symmetry. apply other_fixed.
    unfold BufferedConversationContext.system_messages in Hsys.
    induction (BufferedConversationContext.messages self) as [|m l IH];
      [constructor|].
    cbn in Hsys. destruct (ChatMessage.is_system m) eqn:Hm; [discriminate|].
    constructor; auto. }
  rewrite Hkept. split; [reflexivity|].
  change (BufferedConversationContext.system_messages (?a :: ?l))
    with (BufferedConversationContext.system_messages ([a] ++ l)).
  rewrite system_app, system_of_other. reflexivity.
Qed.

(** X11: for a positive [count], [get_recent_messages(count)] returns all
    system messages followed by the last [count] other messages (all of them
    when there are fewer): the count bounds the other messages only. *)
Theorem get_recent_messages_window (count : Z)
    (self : BufferedConversationContext.t) :
  0 < count ->
  let systems := BufferedConversationContext.system_messages
                   (BufferedConversationContext.messages self) in
  let others := BufferedConversationContext.other_messages
                  (BufferedConversationContext.messages self) in
  BufferedConversationContext.get_recent_messages count self
  = systems ++ PyList.last_n (Z.to_nat count) others
  /\ Z.of_nat (length (BufferedConversationContext.get_recent_messages count self))
     = Z.of_nat (length systems) + Z.min count (Z.of_nat (length others)).
Proof.
  intros Hcount. cbv zeta.
  unfold BufferedConversationContext.get_recent_messages.
  destruct (Z.ltb_spec 0 count); [|lia].
  rewrite slice_from_last by lia. split; [reflexivity|].
  rewrite length_app. unfold PyList.last_n. rewrite length_skipn. lia.
Qed.

Lemma get_recent_messages_window_witness :
  map ChatMessage.content
      (BufferedConversationContext.get_recent_messages 1
         (sample_context 10 [sample_message MessageRole.SYSTEM "s";
                             sample_message MessageRole.USER "a";
                             sample_message MessageRole.ASSISTANT "b"]))
  = ["s"; "b"].
Proof.
  rewrite (proj1 (get_recent_messages_window 1
                    (sample_context 10 [sample_message MessageRole.SYSTEM "s";
                                        sample_message MessageRole.USER "a";
                                        sample_message MessageRole.ASSISTANT "b"])
                    ltac:(lia))).
  reflexivity.
Defined.

(** ** Messages and contexts as dicts *)

Section RoundTrips.

Lemma role_round_trip (r : MessageRole.t) :
  MessageRole.of_value (MessageRole.value r) = Ret r.
Proof. now destruct r. Qed.

Lemma role_of_value (v : string) (r : MessageRole.t) :
  MessageRole.of_value v = Ret r -> v = MessageRole.value r.
Proof.
  unfold MessageRole.of_value.
  repeat match goal with
         | |- context [String.eqb v ?name] =>
             destruct (String.eqb_spec v name) as [->|_]
         end;
    intros [= <-] || discriminate; reflexivity.
Qed.

Lemma message_from_its_dict (m : ChatMessage.t) :
  ChatMessage.from_dict (ChatMessage.to_dict m) = Ret (reloaded m).
Proof.
  unfold ChatMessage.from_dict, ChatMessage.to_dict, reloaded.
  cbn. now rewrite role_round_trip.
Qed.

Lemma to_dict_reloaded (m : ChatMessage.t) :
  ChatMessage.to_dict (reloaded m) = ChatMessage.to_dict m.
Proof. reflexivity. Qed.

Lemma is_system_reloaded (m : ChatMessage.t) :
  ChatMessage.is_system (reloaded m) = ChatMessage.is_system m.
Proof. reflexivity. Qed.

Lemma messages_from_their_dicts (l : list ChatMessage.t) :
  PyList.comprehension ChatMessage.from_dict (map ChatMessage.to_dict l)
  = Ret (map reloaded l).
Proof.
  induction l as [|m l IH]; [reflexivity|].
  cbn [map PyList.comprehension]. now rewrite message_from_its_dict, IH.
Qed.

Lemma load_saved_state (c c' : BufferedConversationContext.t) :
  BufferedConversationContext.load_state
    (BufferedConversationContext.save_state c) c'
  = (Ret tt,
     BufferedConversationContext.with_messages
       (map reloaded (BufferedConversationContext.messages c)) c).
Proof.
  unfold BufferedConversationContext.load_state,
    BufferedConversationContext.save_state.
  cbn. now rewrite messages_from_their_dicts.
Qed.

Lemma map_to_dict_reloaded (l : list ChatMessage.t) :
  map ChatMessage.to_dict (map reloaded l) = map ChatMessage.to_dict l.
Proof. rewrite map_map. reflexivity. Qed.

End RoundTrips.

(** X12: a message written with [to_dict] and read with [from_dict] comes
    back with its content, role, timestamp and source; its metadata comes
    back too, except that [None] has become the empty dict.  Writing the
    message read gives the same dict again. *)
Theorem message_round_trip (m : ChatMessage.t) :
  let back :=
    {| ChatMessage.content := ChatMessage.content m;
       ChatMessage.role := ChatMessage.role m;
       ChatMessage.timestamp := ChatMessage.timestamp m;
       ChatMessage.source := ChatMessage.source m;
       ChatMessage.metadata :=
         Some (match ChatMessage.metadata m with
               | Some entries => entries
               | None => []
               end) |} in
  ChatMessage.from_dict (ChatMessage.to_dict m) = Ret back
  /\ ChatMessage.to_dict back = ChatMessage.to_dict m.
Proof.
  cbv zeta. split.
  - rewrite message_from_its_dict. reflexivity.
  - reflexivity.
Qed.

(** X13: [from_dict] returns a message only for a dict that holds a content,
    a timestamp and, as role, the value of a member of [MessageRole]; a
    source that is absent is read as [None] and absent metadata as the empty
    dict. *)
Theorem from_dict_reads (data : ChatMessage.dict) (m : ChatMessage.t) :
  ChatMessage.from_dict data = Ret m ->
  ChatMessage.d_content data = Some (ChatMessage.content m)
  /\ ChatMessage.d_role data = Some (MessageRole.value (ChatMessage.role m))
  /\ ChatMessage.d_timestamp data = Some (ChatMessage.timestamp m)
  /\ ChatMessage.source m
     = match ChatMessage.d_source data with Some source => source | None => None end
  /\ ChatMessage.metadata m
     = match ChatMessage.d_metadata data with
       | Some metadata => metadata
       | None => Some []
       end.
Proof.
  unfold ChatMessage.from_dict, ChatMessage.item.
  destruct (ChatMessage.d_content data) as [content|]; [|discriminate].
  destruct (ChatMessage.d_role data) as [role_value|]; [|discriminate].
  destruct (MessageRole.of_value role_value) as [role|] eqn:Hrole; [|discriminate].
  destruct (ChatMessage.d_timestamp data) as [timestamp|]; [|discriminate].
  intros [= <-]. cbn. apply role_of_value in Hrole. subst role_value.
  repeat split; reflexivity.
Qed.

Lemma from_dict_reads_witness :
  ChatMessage.d_role (ChatMessage.to_dict (sample_message MessageRole.AGENT "a"))
  = Some "agent".
Proof.
  destruct (from_dict_reads
              (ChatMessage.to_dict (sample_message MessageRole.AGENT "a"))
              (reloaded (sample_message MessageRole.AGENT "a")) eq_refl)
    as (_ & Hrole & _).
  exact Hrole.
Defined.

(** X14: [load_state] stops at the first saved message that [from_dict]
    cannot read, one without a content, a role or a timestamp or with a role
    that is no value of [MessageRole]: it raises [KeyError] or [ValueError],
    with the buffer size, the system message and the session id of the state
    already assigned and the messages of the context as they were. *)
Theorem load_state_stops_at_a_bad_message
    (state : SavedState) (self : BufferedConversationContext.t)
    (good : list ChatMessage.t) (bad : ChatMessage.dict)
    (rest : list ChatMessage.dict) :
  saved_messages state = Some (map ChatMessage.to_dict good ++ bad :: rest) ->
  ChatMessage.d_content bad = None \/ ChatMessage.d_role bad = None
  \/ ChatMessage.d_timestamp bad = None
  \/ (exists v, ChatMessage.d_role bad = Some v
                /\ MessageRole.of_value v = Raise "ValueError") ->
  let '(result, self') := BufferedConversationContext.load_state state self in
  (result = Raise "KeyError" \/ result = Raise "ValueError")
  /\ BufferedConversationContext.messages self'
     = BufferedConversationContext.messages self
  /\ BufferedConversationContext.buffer_size self'
     = match saved_buffer_size state with Some size => size | None => 10 end
  /\ BufferedConversationContext.system_message self'
     = match saved_system_message state with Some text => text | None => None end
  /\ BufferedConversationContext.session_id self'
     = match saved_session_id state with
       | Some id => id
       | None => BufferedConversationContext.session_id self
       end.
Proof.
  intros Hsaved Hbad.
  assert (Hraise : exists e, ChatMessage.from_dict bad = Raise e
                             /\ (e = "KeyError" \/ e = "ValueError")).
  { unfold ChatMessage.from_dict, ChatMessage.item.
    destruct Hbad as [-> | [Hrole | [Htime | (v & -> & Hv)]]].
    - eauto.
    - destruct (ChatMessage.d_content bad); [rewrite Hrole|]; eauto.
    - destruct (ChatMessage.d_content bad); [|eauto].
      destruct (ChatMessage.d_role bad) as [v|]; [|eauto].
      destruct (MessageRole.of_value v) as [r|e] eqn:Hv.
      + rewrite Htime. eauto.
      + exists e. split; [reflexivity|].
        unfold MessageRole.of_value in Hv.
        repeat match type of Hv with
               | context [String.eqb v ?name] => destruct (String.eqb v name)
               end; try discriminate.
        injection Hv as <-. now right.
    - destruct (ChatMessage.d_content bad); [|eauto]. rewrite Hv. eauto. }
  destruct Hraise as (e & Hraise & He).
  assert (Hall : PyList.comprehension ChatMessage.from_dict
                   (map ChatMessage.to_dict good ++ bad :: rest) = Raise e).
  { clear Hsaved.
    induction good as [|m good IH]; cbn [map app PyList.comprehension].
    - now rewrite Hraise.
    - now rewrite message_from_its_dict, IH. }
  unfold BufferedConversationContext.load_state.
  rewrite Hsaved. cbn [from_option id]. rewrite Hall.
  split; [destruct He as [-> | ->]; auto|]. repeat split; reflexivity.
Qed.

Lemma load_state_stops_at_a_bad_message_witness :
  BufferedConversationContext.messages
    (snd (BufferedConversationContext.load_state
            {| saved_buffer_size := Some 3; saved_system_message := None;
               saved_session_id := None;
               saved_messages :=
                 Some [ChatMessage.to_dict (sample_message MessageRole.USER "a");
                       {| ChatMessage.d_content := Some "b";
                          ChatMessage.d_role := Some "tool";
                          ChatMessage.d_timestamp := Some "t";
                          ChatMessage.d_source := None;
                          ChatMessage.d_metadata := None |}] |}
            (sample_context 10 [sample_message MessageRole.USER "kept"])))
  = [sample_message MessageRole.USER "kept"].
Proof.
  pose proof (load_state_stops_at_a_bad_message
                {| saved_buffer_size := Some 3; saved_system_message := None;
                   saved_session_id := None;
                   saved_messages :=
                     Some [ChatMessage.to_dict (sample_message MessageRole.USER "a");
                           {| ChatMessage.d_content := Some "b";
                              ChatMessage.d_role := Some "tool";
                              ChatMessage.d_timestamp := Some "t";
                              ChatMessage.d_source := None;
                              ChatMessage.d_metadata := None |}] |}
                (sample_context 10 [sample_message MessageRole.USER "kept"])
                [sample_message MessageRole.USER "a"]
                {| ChatMessage.d_content := Some "b";
                   ChatMessage.d_role := Some "tool";
                   ChatMessage.d_timestamp := Some "t";
                   ChatMessage.d_source := None;
                   ChatMessage.d_metadata := None |}
                [] eq_refl
                (or_intror (or_intror (or_intror
                   (ex_intro _ "tool" (conj eq_refl eq_refl)))))) as Hload.
  destruct (BufferedConversationContext.load_state _ _) as [result self'].
  exact (proj1 (proj2 Hload)).
Defined.

(** X15: [load_state] of what [save_state] wrote succeeds and sets the
    buffer size, the system message, the session id and the messages of the
    context saved, whatever the loading context held; the messages are not
    trimmed to the buffer size, and saving again gives the same state. *)
Theorem state_round_trip (saved self : BufferedConversationContext.t) :
  let '(result, loaded) :=
    BufferedConversationContext.load_state
      (BufferedConversationContext.save_state saved) self in
  result = Ret tt
  /\ BufferedConversationContext.buffer_size loaded
     = BufferedConversationContext.buffer_size saved
  /\ BufferedConversationContext.system_message loaded
     = BufferedConversationContext.system_message saved
  /\ BufferedConversationContext.session_id loaded
     = BufferedConversationContext.session_id saved
  /\ map ChatMessage.to_dict (BufferedConversationContext.messages loaded)
     = map ChatMessage.to_dict (BufferedConversationContext.messages saved)
  /\ BufferedConversationContext.save_state loaded
     = BufferedConversationContext.save_state saved.
Proof.
  rewrite load_saved_state.
  unfold BufferedConversationContext.save_state. cbn.
  rewrite map_to_dict_reloaded. repeat split; reflexivity.
Qed.

(** ** Contexts and the session manager *)

Section Persistence.

Implicit Types (c : BufferedConversationContext.t) (sm : SessionManager.t)
  (m : InMemorySessionManager.t) (sid : string).

Lemma truthy_id sid : PyStr.is_empty sid = false -> truthy (Some sid) = true.
Proof. intros H. cbn. now rewrite H. Qed.

(** What [_save_to_azure_sql] leaves in the in-memory manager. *)
Lemma save_to_azure_sql_stores c sm m sid :
  BufferedConversationContext.session_id c = Some sid ->
  PyStr.is_empty sid = false ->
  SessionManager.manager sm = Some m ->
  BufferedConversationContext.save_to_azure_sql c (Some sm)
  = Some (SessionManager.with_manager
            {| InMemorySessionManager.sessions := InMemorySessionManager.sessions m;
               InMemorySessionManager.conversations :=
                 InMemorySessionManager.conversations m;
               InMemorySessionManager.agent_states :=
                 <[sid := {| conversation_context :=
                               Some (BufferedConversationContext.save_state c);
                             context_type := Some "buffered_conversation" |}]>
                   (InMemorySessionManager.agent_states m) |} sm).
Proof.
  intros Hsid Hne Hm. unfold BufferedConversationContext.save_to_azure_sql.
  rewrite Hsid, (truthy_id _ Hne).
  unfold SessionManager.save_agent_state. rewrite Hm. reflexivity.
Qed.

(** What [_load_from_azure_sql] reads back from a state that holds a saved
    context. *)
Lemma load_from_azure_sql_restores c c0 sm m sid other :
  BufferedConversationContext.session_id c = Some sid ->
  PyStr.is_empty sid = false ->
  SessionManager.manager sm = Some m ->
  InMemorySessionManager.agent_states m !! sid
  = Some {| conversation_context :=
              Some (BufferedConversationContext.save_state c0);
            context_type := other |} ->
  BufferedConversationContext.load_from_azure_sql c (Some sm)
  = (true,
     BufferedConversationContext.with_messages
       (map reloaded (BufferedConversationContext.messages c0)) c0).
Proof.
  intros Hsid Hne Hm Hstate.
  unfold BufferedConversationContext.load_from_azure_sql.
  rewrite Hsid, (truthy_id _ Hne).
  unfold SessionManager.load_agent_state. rewrite Hm.
  unfold InMemorySessionManager.load_agent_state.
  cbn [from_option id]. rewrite Hstate.
  cbn [from_option id agent_state_truthy conversation_context context_type].
  rewrite load_saved_state. now destruct other.
Qed.

Lemma load_from_azure_sql_nothing c sm m sid :
  BufferedConversationContext.session_id c = Some sid ->
  SessionManager.manager sm = Some m ->
  InMemorySessionManager.agent_states m !! sid = None ->
  BufferedConversationContext.load_from_azure_sql c (Some sm) = (false, c).
Proof.
  intros Hsid Hm Hstate.
  unfold BufferedConversationContext.load_from_azure_sql.
  rewrite Hsid. destruct (truthy (Some sid)); [|reflexivity].
  unfold SessionManager.load_agent_state. rewrite Hm.
  unfold InMemorySessionManager.load_agent_state.
  cbn [from_option id]. rewrite Hstate. reflexivity.
Qed.

Lemma get_remove {V} (k : string) (d : PyDict.t V) :
  PyDict.get k (ConversationManager.remove k d) = None.
Proof.
  induction d as [|[k' v] d IH]; [reflexivity|].
  cbn. destruct (String.eqb_spec k' k) as [->|Hne]; cbn.
  - exact IH.
  - destruct (String.eqb_spec k' k); [contradiction|exact IH].
Qed.

Lemma in_keys_set {V} (k : string) (v : V) (d : PyDict.t V) :
  In k (PyDict.keys (PyDict.set k v d)).
Proof.
  unfold PyDict.keys. induction d as [|[k' v'] d IH]; cbn; [now left|].
  destruct (String.eqb_spec k' k) as [->|Hne]; cbn; [now left|now right].
Qed.

End Persistence.

(** X16: with a system message configured, a context created for a session
    never restores what the session manager holds for it: the constructor
    adds the system message and saves the context, which overwrites the
    state stored, before [_load_from_azure_sql] reads it.  The context
    holds the system message only, and so does the state stored. *)
Theorem configured_system_message_discards_history
    (now sid text : string) (cm : ConversationManager.t)
    (sm : SessionManager.t) (m : InMemorySessionManager.t) :
  ConversationManager.session_manager cm = Some sm ->
  SessionManager.manager sm = Some m ->
  ConversationManager.default_system_message cm = Some text ->
  PyStr.is_empty text = false ->
  PyStr.is_empty sid = false ->
  PyDict.get sid (ConversationManager.contexts cm) = None ->
  let system :=
    {| ChatMessage.content := text; ChatMessage.role := MessageRole.SYSTEM;
       ChatMessage.timestamp := now; ChatMessage.source := Some "system";
       ChatMessage.metadata := None |} in
  let '(context, cm') :=
    ConversationManager.get_or_create_context now sid None None cm in
  map ChatMessage.to_dict (BufferedConversationContext.messages context)
  = [ChatMessage.to_dict system]
  /\ ConversationManager.get_context_for_session sid cm' = Some context
  /\ exists sm' stored,
       ConversationManager.session_manager cm' = Some sm'
       /\ SessionManager.load_agent_state sid sm' = Some stored
       /\ option_map saved_messages (conversation_context stored)
          = Some (Some [ChatMessage.to_dict system]).
Proof.
  intros Hsm Hm Htext Hne Hsid Hfresh. cbv zeta.
  unfold ConversationManager.get_or_create_context. rewrite Hfresh, Hsm, Htext.
  unfold ConversationManager.or_int, ConversationManager.or_str.
  cbn [truthy]. unfold BufferedConversationContext.new.
  cbn [truthy]. rewrite Hne. cbn [negb from_option id].
  unfold BufferedConversationContext.add_system_message.
  cbn [BufferedConversationContext.messages].
  change (BufferedConversationContext.system_messages []) with (@nil ChatMessage.t).
  cbv iota.
  set (system := {| ChatMessage.content := text |}).
  set (made := BufferedConversationContext.with_messages [system] _).
  rewrite (save_to_azure_sql_stores made sm m sid eq_refl Hsid Hm).
  set (sm' := SessionManager.with_manager _ sm).
  rewrite (load_from_azure_sql_restores made made sm' _ sid
             (Some "buffered_conversation") eq_refl Hsid eq_refl)
    by (cbn; apply lookup_insert_eq).
  split; [reflexivity|]. split.
  - unfold ConversationManager.get_context_for_session. cbn. apply get_set_eq.
  - exists sm'. eexists. split; [reflexivity|]. split.
    + unfold SessionManager.load_agent_state, sm'. cbn.
      unfold InMemorySessionManager.load_agent_state. cbn.
      rewrite lookup_insert_eq. reflexivity.
    + reflexivity.
Qed.

Lemma configured_system_message_discards_history_witness :
  map ChatMessage.d_content
      (fst (ConversationManager.get_conversation_history "now" "session" None
              (ConversationManager.new 20 (Some "Be brief.") (Some sample_store))))
  = [Some "Be brief."].
Proof.
  pose proof (configured_system_message_discards_history "now" "session"
                "Be brief."
                (ConversationManager.new 20 (Some "Be brief.") (Some sample_store))
                sample_store _ eq_refl eq_refl eq_refl eq_refl eq_refl eq_refl)
    as Hmade.
  unfold ConversationManager.get_conversation_history.
  change (PyDict.get "session"
            (ConversationManager.contexts
               (ConversationManager.new 20 (Some "Be brief.") (Some sample_store))))
    with (@None BufferedConversationContext.t).
  cbv zeta in Hmade.
  destruct (ConversationManager.get_or_create_context _ _ _ _ _)
    as [context cm'].
  destruct Hmade as (Hmessages & _).
  unfold BufferedConversationContext.get_messages.
  destruct (BufferedConversationContext.messages context) as [|first rest];
    [discriminate|].
  cbn [is_nil]. cbv iota. cbn [fst]. rewrite Hmessages. reflexivity.
Defined.

Section Turns.

Implicit Types (c : BufferedConversationContext.t) (sm : SessionManager.t)
  (m : InMemorySessionManager.t) (sid : string).

Lemma add_message_stores msg c sm m sid :
  BufferedConversationContext.session_id c = Some sid ->
  PyStr.is_empty sid = false ->
  SessionManager.manager sm = Some m ->
  exists m',
    BufferedConversationContext.add_message msg c (Some sm)
    = (fst (BufferedConversationContext.add_message msg c (Some sm)),
       Some (SessionManager.with_manager m' sm))
    /\ InMemorySessionManager.agent_states m' !! sid
       = Some {| conversation_context :=
                   Some (BufferedConversationContext.save_state
                           (fst (BufferedConversationContext.add_message
                                   msg c (Some sm))));
                 context_type := Some "buffered_conversation" |}.
Proof.
  intros Hsid Hne Hm. unfold BufferedConversationContext.add_message.
  cbn [fst].
  set (c' := BufferedConversationContext.with_messages _ c).
  rewrite (save_to_azure_sql_stores c' sm m sid Hsid Hne Hm).
  eexists. split; [reflexivity|]. cbn. apply lookup_insert_eq.
Qed.

Lemma add_message_session_id msg c (osm : option SessionManager.t) :
  BufferedConversationContext.session_id
    (fst (BufferedConversationContext.add_message msg c osm))
  = BufferedConversationContext.session_id c.
Proof. reflexivity. Qed.

Lemma end_session_keeps_states sid sm m :
  SessionManager.manager sm = Some m ->
  exists m',
    SessionManager.manager (snd (SessionManager.end_session sid sm)) = Some m'
    /\ InMemorySessionManager.agent_states m'
       = InMemorySessionManager.agent_states m.
Proof.
  intros Hm. unfold SessionManager.end_session. rewrite Hm.
  unfold InMemorySessionManager.deactivate_session.
  destruct (PyDict.get sid (InMemorySessionManager.sessions m));
    cbn; eexists; split; reflexivity.
Qed.

End Turns.

(** X17: [clear_session] removes the context of a session from the manager
    but leaves the state the session manager stores for it, so the
    conversation is not gone: with no system message configured, the next
    read of the history of the session restores the turn that was cleared. *)
Theorem cleared_session_is_restored
    (now1 now_user now_assistant now2 sid user_message assistant_response
       agent_name : string)
    (metadata : option (PyDict.t PyVal)) (cm : ConversationManager.t)
    (sm : SessionManager.t) (m : InMemorySessionManager.t) :
  ConversationManager.session_manager cm = Some sm ->
  SessionManager.manager sm = Some m ->
  InMemorySessionManager.agent_states m !! sid = None ->
  PyDict.get sid (ConversationManager.contexts cm) = None ->
  PyStr.is_empty sid = false ->
  truthy (ConversationManager.default_system_message cm) = false ->
  2 <= ConversationManager.default_buffer_size cm ->
  let turn :=
    [ {| ChatMessage.content := user_message; ChatMessage.role := MessageRole.USER;
         ChatMessage.timestamp := now_user; ChatMessage.source := Some "user";
         ChatMessage.metadata := metadata |};
      {| ChatMessage.content := assistant_response;
         ChatMessage.role := MessageRole.ASSISTANT;
         ChatMessage.timestamp := now_assistant;
         ChatMessage.source := Some agent_name;
         ChatMessage.metadata := metadata |} ] in
  let cm1 :=
    ConversationManager.add_conversation_turn now1 now_user now_assistant sid
      user_message assistant_response agent_name metadata cm in
  let '(cleared, cm2) := ConversationManager.clear_session sid cm1 in
  cleared = true
  /\ ConversationManager.get_context_for_session sid cm2 = None
  /\ fst (ConversationManager.get_conversation_history now2 sid None cm2)
     = map ChatMessage.to_dict turn.
Proof.
  intros Hsm Hm Hnone Hfresh Hsid Hsys Hsize. cbv zeta.
  unfold ConversationManager.add_conversation_turn,
    ConversationManager.get_or_create_context.
  rewrite Hfresh, Hsm.
  unfold ConversationManager.or_int, ConversationManager.or_str.
  cbn [truthy]. unfold BufferedConversationContext.new. rewrite Hsys.
  set (c0 := {| BufferedConversationContext.buffer_size :=
                  ConversationManager.default_buffer_size cm |}).
  rewrite (load_from_azure_sql_nothing c0 sm m sid eq_refl Hm Hnone).
  unfold ConversationManager.on_context at 2.
  cbn [ConversationManager.contexts ConversationManager.with_contexts
       ConversationManager.session_manager].
  rewrite get_set_eq.
  unfold BufferedConversationContext.add_user_message.
  set (user := {| ChatMessage.content := user_message |}).
  destruct (add_message_stores user c0 sm m sid eq_refl Hsid Hm)
    as (m1 & -> & Hm1).
  pose proof (add_message_messages user c0 (Some sm) eq_refl) as Hc1.
  set (c1 := fst (BufferedConversationContext.add_message user c0 (Some sm))) in *.
  unfold ConversationManager.on_context.
  cbn [ConversationManager.contexts ConversationManager.with_contexts
       ConversationManager.session_manager].
  rewrite get_set_eq.
  unfold BufferedConversationContext.add_assistant_message.
  set (assistant := {| ChatMessage.content := assistant_response |}).
  destruct (add_message_stores assistant c1 (SessionManager.with_manager m1 sm)
              m1 sid eq_refl Hsid eq_refl) as (m2 & -> & Hm2).
  pose proof (add_message_messages assistant c1
                (Some (SessionManager.with_manager m1 sm)) eq_refl) as Hc2.
  set (c2 := fst (BufferedConversationContext.add_message assistant c1 _)) in *.
  assert (Hturn : BufferedConversationContext.messages c2 = [user; assistant]).
  { rewrite Hc2, Hc1. cbn.
    repeat match goal with
           | |- context [if ?a <? ?b then _ else _] =>
               destruct (Z.ltb_spec a b); [cbn in *; lia|]; cbn
           end.
    reflexivity. }
  unfold ConversationManager.clear_session.
  cbn [ConversationManager.contexts ConversationManager.with_contexts
       ConversationManager.session_manager].
  rewrite get_set_eq.
  set (sm2 := SessionManager.with_manager m2 _).
  destruct (end_session_keeps_states sid sm2 m2 eq_refl) as (m3 & Hm3 & Hstates).
  set (sm3 := snd (SessionManager.end_session sid sm2)) in *.
  split; [reflexivity|]. split.
  - unfold ConversationManager.get_context_for_session. cbn. apply get_remove.
  - unfold ConversationManager.get_conversation_history,
      ConversationManager.get_or_create_context.
    cbn [ConversationManager.contexts ConversationManager.with_contexts
         ConversationManager.session_manager
         ConversationManager.default_buffer_size
         ConversationManager.default_system_message].
    rewrite get_remove.
    unfold ConversationManager.or_int, ConversationManager.or_str.
    cbn [truthy]. unfold BufferedConversationContext.new. rewrite Hsys.
    fold c0.
    rewrite (load_from_azure_sql_restores c0 c2 sm3 m3 sid
               (Some "buffered_conversation") eq_refl Hsid Hm3)
      by (rewrite Hstates; exact Hm2).
    unfold BufferedConversationContext.get_messages.
    cbn [BufferedConversationContext.messages
         BufferedConversationContext.with_messages fst].
    rewrite Hturn. reflexivity.
Qed.

Lemma cleared_session_is_restored_witness :
  let cm1 :=
    ConversationManager.add_conversation_turn "t0" "t1" "t2" "session" "Hello"
      "Hi" "assistant" None
      (ConversationManager.new 20 None (Some SessionManager.in_memory)) in
  map ChatMessage.d_content
      (fst (ConversationManager.get_conversation_history "t3" "session" None
              (snd (ConversationManager.clear_session "session" cm1))))
  = [Some "Hello"; Some "Hi"].
Proof.
  cbv zeta.
  pose proof (cleared_session_is_restored "t0" "t1" "t2" "t3" "session" "Hello"
                "Hi" "assistant" None
                (ConversationManager.new 20 None (Some SessionManager.in_memory))
                SessionManager.in_memory InMemorySessionManager.new
                eq_refl eq_refl eq_refl eq_refl eq_refl eq_refl) as Hrestored.
  cbv zeta in Hrestored.
  destruct (ConversationManager.clear_session _ _) as [cleared cm2].
  destruct Hrestored as (_ & _ & Hhistory); [cbn; lia|].
  cbn [snd]. rewrite Hhistory. reflexivity.
Defined.

(** X18: reading the history of a session the manager does not know is not
    a pure read: [get_conversation_history] creates a context for the
    session and keeps it, so the session is among the active sessions
    afterwards, also when the history returned is empty. *)
Theorem history_read_registers_session
    (now sid : string) (limit : option Z) (cm : ConversationManager.t) :
  PyDict.get sid (ConversationManager.contexts cm) = None ->
  let cm' := snd (ConversationManager.get_conversation_history now sid limit cm) in
  In sid (ConversationManager.get_active_sessions cm')
  /\ length (ConversationManager.get_active_sessions cm')
     = S (length (ConversationManager.get_active_sessions cm)).
Proof.
  intros Hfresh. cbv zeta.
  unfold ConversationManager.get_conversation_history. rewrite Hfresh.
  unfold ConversationManager.get_or_create_context. rewrite Hfresh.
  destruct (BufferedConversationContext.new _ _ _ _ _) as [made sm].
  destruct (BufferedConversationContext.load_from_azure_sql made sm)
    as [loaded context].
  assert (Hkeys :
    In sid (PyDict.keys (PyDict.set sid context (ConversationManager.contexts cm)))
    /\ length (PyDict.keys (PyDict.set sid context (ConversationManager.contexts cm)))
       = S (length (PyDict.keys (ConversationManager.contexts cm)))).
  { split; [apply in_keys_set|].
    unfold PyDict.keys. rewrite !length_map. now apply length_set_fresh. }
  unfold ConversationManager.get_active_sessions.
  destruct (is_nil (BufferedConversationContext.get_messages context));
    [exact Hkeys|].
  destruct limit as [n|]; [destruct (n =? 0)|]; exact Hkeys.
Qed.

Lemma history_read_registers_session_witness :
  fst (ConversationManager.get_conversation_history "now" "unknown" None
         (ConversationManager.new 20 None None)) = []
  /\ In "unknown"
        (ConversationManager.get_active_sessions
           (snd (ConversationManager.get_conversation_history "now" "unknown" None
                   (ConversationManager.new 20 None None)))).
Proof.
  split; [reflexivity|].
  exact (proj1 (history_read_registers_session "now" "unknown" None
                  (ConversationManager.new 20 None None) eq_refl)).
Defined.

(** ** The in-memory session manager *)

(** X19: a turn saved with [save_conversation_turn] is what
    [get_conversation_history] returns last: with a limit of at least 2 the
    history ends with the user message and the assistant response, in this
    order, and it holds at most [limit] entries. *)
Theorem saved_turn_is_read_back
    (now_user now_assistant sid user_message assistant_response : string)
    (limit : Z) (sm : SessionManager.t) (m : InMemorySessionManager.t) :
  SessionManager.manager sm = Some m ->
  2 <= limit ->
  let '(saved, sm') :=
    SessionManager.save_conversation_turn now_user now_assistant sid
      user_message assistant_response sm in
  let history := SessionManager.get_conversation_history sid limit sm' in
  saved = true
  /\ Z.of_nat (length history) <= limit
  /\ exists earlier,
       history
       = earlier
         ++ [ {| InMemorySessionManager.stored_session_id := sid;
                 InMemorySessionManager.message_data :=
                   [("content", VStr user_message); ("role", VStr "user")];
                 InMemorySessionManager.stored_at := now_user;
                 InMemorySessionManager.agent_type := None;
                 InMemorySessionManager.message_type := "user" |};
              {| InMemorySessionManager.stored_session_id := sid;
                 InMemorySessionManager.message_data :=
                   [("content", VStr assistant_response);
                    ("role", VStr "assistant")];
                 InMemorySessionManager.stored_at := now_assistant;
                 InMemorySessionManager.agent_type := None;
                 InMemorySessionManager.message_type := "assistant" |} ].
Proof.
  intros Hm Hlimit.
  unfold SessionManager.save_conversation_turn. rewrite Hm.
  unfold InMemorySessionManager.save_message.
  cbn [InMemorySessionManager.conversations andb].
  cbv zeta. split; [reflexivity|].
  unfold SessionManager.get_conversation_history.
  cbn [SessionManager.manager SessionManager.with_manager].
  unfold InMemorySessionManager.load_conversation_history.
  cbn [InMemorySessionManager.conversations].
  rewrite !lookup_insert_eq. cbn [from_option id].
  set (stored := default [] (InMemorySessionManager.conversations m !! sid)).
  rewrite <- app_assoc. cbn [app].
  rewrite slice_from_last by lia. split.
  - rewrite last_n_length. lia.
  - exists (PyList.last_n (Z.to_nat limit - 2) stored).
    replace (Z.to_nat limit) with (S (S (Z.to_nat limit - 2))) at 1 by lia.
    match goal with
    | |- context [stored ++ [?a; ?b]] =>
        change (stored ++ [a; b]) with (stored ++ [a] ++ [b])
    end.
    rewrite app_assoc, last_n_snoc, last_n_snoc, <- app_assoc. reflexivity.
Qed.

Lemma saved_turn_is_read_back_witness :
  map InMemorySessionManager.message_type
      (SessionManager.get_conversation_history "session" 2
         (snd (SessionManager.save_conversation_turn "t1" "t2" "session"
                 "Hello" "Hi"
                 (snd (SessionManager.save_conversation_turn "t1" "t2" "session"
                         "One" "Two" SessionManager.in_memory)))))
  = ["user"; "assistant"].
Proof.
  pose proof (saved_turn_is_read_back "t1" "t2" "session" "Hello" "Hi" 2
                (snd (SessionManager.save_conversation_turn "t1" "t2" "session"
                        "One" "Two" SessionManager.in_memory))
                _ eq_refl ltac:(lia)) as Hback.
  destruct (SessionManager.save_conversation_turn "t1" "t2" "session" "Hello"
              "Hi" _) as [saved sm'].
  cbv zeta in Hback. destruct Hback as (_ & Hlength & earlier & Hhistory).
  cbn [snd]. rewrite Hhistory in Hlength |- *.
  destruct earlier as [|e earlier]; [reflexivity|].
  rewrite length_app in Hlength. cbn in Hlength. lia.
Defined.

(** ** The answer to a pending interaction *)

Section Answers.

Variable during_sleep : nat -> Ambient -> Ambient.
Variable session_id : string.
Variable start_time timeout : Z.
Variable a0 : Ambient.

Lemma wait_loop_answer (r : Response) (j : nat) :
  (forall i, (i <= j)%nat ->
             now (ambient_after during_sleep i a0) - start_time < timeout) ->
  (forall i, (i < j)%nat ->
             pending_answer session_id (ambient_after during_sleep i a0) = None) ->
  pending_answer session_id (ambient_after during_sleep j a0) = Some r ->
  forall fuel k,
    (k <= j)%nat -> (j - k < fuel)%nat ->
    wait_loop during_sleep fuel session_id start_time timeout k
              (ambient_after during_sleep k a0)
    = Some {| answer := r; sleeps := j;
              ambient := ambient_after during_sleep j a0 |}.
Proof.
  intros Hclock Hnone Hsome fuel.
  induction fuel as [|fuel IH]; intros k Hk Hfuel; [lia|].
  rewrite wait_loop_step.
  destruct (Z.ltb_spec (now (ambient_after during_sleep k a0) - start_time) timeout)
    as [_|Hlate]; [|specialize (Hclock k Hk); lia].
  destruct (Nat.eq_dec k j) as [->|Hne].
  - now rewrite Hsome.
  - rewrite Hnone by lia.
    change (during_sleep k (ambient_after during_sleep k a0))
      with (ambient_after during_sleep (S k) a0).
    apply IH; lia.
Qed.

End Answers.

Lemma pending_answer_registered (session_id : string) (r : Response)
    (i : Interaction) (registry : gmap string Interaction) (a : Ambient) :
  pending_answer session_id
    (with_interactions (<[session_id := with_response r i]> registry) a)
  = Some r.
Proof.
  unfold pending_answer. cbn. now rewrite lookup_insert_eq.
Qed.

(** X20: the waiting loop of the gate returns the first response it finds
    for the session: when a response is registered at the [j]-th poll, none
    at an earlier poll, and the clock is within the timeout at these polls,
    the loop returns this response after [j] sleeps.  It does not look at
    the id of the interaction. *)
Theorem registered_response_is_returned
    (during_sleep : nat -> Ambient -> Ambient) (fuel : nat)
    (session_id interaction_id : string) (timeout : Z) (a : Ambient)
    (j : nat) (r : Response) :
  (j < fuel)%nat ->
  (forall i, (i <= j)%nat ->
             now (ambient_after during_sleep i a) - now a < timeout) ->
  (forall i, (i < j)%nat ->
             pending_answer session_id (ambient_after during_sleep i a) = None) ->
  pending_answer session_id (ambient_after during_sleep j a) = Some r ->
  wait_for_storm_interaction_response during_sleep fuel session_id
    interaction_id timeout a
  = Some {| answer := r; sleeps := j;
            ambient := ambient_after during_sleep j a |}.
Proof.
  intros Hfuel Hclock Hnone Hsome.
  unfold wait_for_storm_interaction_response.
  exact (wait_loop_answer during_sleep session_id (now a) timeout a r j
           Hclock Hnone Hsome fuel 0%nat ltac:(lia) ltac:(lia)).
Qed.

Lemma registered_response_is_returned_witness :
  option_map answer
    (wait_for_storm_interaction_response
       (answering 1 "session" "id"
                  {| response_action := "reject";
                     response_feedback := Some "too narrow" |})
       10 "session" "another id" default_timeout
       waiting_registry)
  = Some {| action := "reject"; feedback := Some "too narrow" |}.
Proof.
  rewrite (registered_response_is_returned _ 10 "session" "another id"
             default_timeout _ 2
             {| action := "reject"; feedback := Some "too narrow" |}).
  - reflexivity.
  - lia.
  - intros i Hi.
    destruct i as [|[|[|i]]]; [vm_compute; reflexivity ..|lia].
  - intros i Hi. destruct i as [|[|i]]; [vm_compute; reflexivity ..|lia].
  - vm_compute. reflexivity.
Defined.

Lemma before_the_answer (session_id fresh_id : string)
    (response : StormHumanResponse) (j : nat) (registered : Ambient) (i : nat) :
  (i <= j)%nat ->
  ambient_after (answering j session_id fresh_id response) i registered
  = {| now := now registered + Z.of_nat i;
       human_interactions := human_interactions registered |}.
Proof.
  induction i as [|i IH]; intros Hi.
  - cbn. destruct registered. cbn. f_equal. lia.
  - cbn [ambient_after]. rewrite IH by lia. unfold answering.
    destruct (Nat.eqb_spec i j); [lia|].
    unfold ticking. cbn. f_equal. lia.
Qed.

Lemma at_the_answer (session_id fresh_id : string)
    (response : StormHumanResponse) (j : nat) (registered : Ambient)
    (pending : Interaction) :
  human_interactions registered !! session_id = Some pending ->
  interaction_id pending = fresh_id ->
  ambient_after (answering j session_id fresh_id response) (S j) registered
  = with_interactions
      (<[session_id :=
           with_response {| action := response_action response;
                            feedback := response_feedback response |} pending]>
         (human_interactions registered))
      {| now := now registered + Z.of_nat (S j);
         human_interactions := human_interactions registered |}.
Proof.
  intros Hpending Hid.
  cbn [ambient_after]. rewrite before_the_answer by lia.
  unfold answering. rewrite Nat.eqb_refl.
  unfold handle_human_response, ticking. cbn.
  rewrite Hpending. destruct pending as [id ? ? ? ? ?]. cbn in Hid. subst id.
  rewrite String.eqb_refl. cbn.
  unfold with_interactions. cbn. f_equal. lia.
Qed.

(** X21: an answer given through [handle_human_response] with the id of the
    interaction reaches the request that waits for it: when the user
    answers during the [j]-th sleep of the waiting loop, and this is before
    the timeout of 300 seconds, the handler of the application returns the
    action and the feedback of the answer at its next poll. *)
Theorem answer_through_the_service (fuel j : nat)
    (fresh_id session_id interaction_type content : string)
    (options : list string) (response : StormHumanResponse) (a : Ambient) :
  (S j < fuel)%nat ->
  Z.of_nat (S j) < default_timeout ->
  exists waited,
    handle_conversational_storm_interaction
      (answering j session_id fresh_id response) fuel fresh_id (Ret tt)
      session_id interaction_type content options a
    = Some waited
    /\ answer waited = {| action := response_action response;
                          feedback := response_feedback response |}
    /\ sleeps waited = S j
    /\ now (ambient waited) = now a + Z.of_nat (S j).
Proof.
  intros Hfuel Hsoon. unfold handle_conversational_storm_interaction.
  set (pending := {| interaction_id := fresh_id |}).
  set (registered := {| now := now a |}).
  assert (Hpending : human_interactions registered !! session_id = Some pending)
    by (cbn; apply lookup_insert_eq).
  unfold wait_for_storm_interaction_response.
  rewrite (wait_loop_answer (answering j session_id fresh_id response) session_id
             (now registered) default_timeout registered
             {| action := response_action response;
                feedback := response_feedback response |} (S j)).
  - eexists. split; [reflexivity|]. cbn [answer sleeps ambient].
    split; [reflexivity|]. split; [reflexivity|].
    rewrite (at_the_answer session_id fresh_id response j registered pending
               Hpending eq_refl).
    reflexivity.
  - intros i Hi. destruct (Nat.eq_dec i (S j)) as [->|Hne].
    + rewrite (at_the_answer session_id fresh_id response j registered pending
                 Hpending eq_refl).
      cbn. lia.
    + rewrite (before_the_answer session_id fresh_id response j registered i)
        by lia.
      cbn. lia.
  - intros i Hi.
    rewrite (before_the_answer session_id fresh_id response j registered i) by lia.
    unfold pending_answer. cbn [human_interactions]. now rewrite Hpending.
  - rewrite (at_the_answer session_id fresh_id response j registered pending
               Hpending eq_refl).
    apply pending_answer_registered.
  - lia.
  - lia.
Qed.

Lemma answer_through_the_service_witness :
  exists waited,
    handle_conversational_storm_interaction
      (answering 4 "session" "id" {| response_action := "reject";
                                     response_feedback := Some "too narrow" |})
      301 "id" (Ret tt) "session" "editor_review" "content" [] at_noon
    = Some waited
    /\ action (answer waited) = "reject" /\ sleeps waited = 5%nat.
Proof.
  destruct (answer_through_the_service 301 4 "id" "session" "editor_review"
              "content" []
              {| response_action := "reject";
                 response_feedback := Some "too narrow" |} at_noon)
    as (waited & Hwaited & Hanswer & Hsleeps & _).
  - lia.
  - vm_compute. reflexivity.
  - exists waited. split; [exact Hwaited|]. rewrite Hanswer. now split.
Defined.

(** X22: [handle_human_response] refuses an answer for a session without a
    registered interaction and an answer that names another interaction
    than the one registered: it returns an error and leaves the registry as
    it is, so the request keeps waiting. *)
Theorem handle_human_response_refuses (session_id answered_id : string)
    (response : StormHumanResponse) (a : Ambient) :
  (forall registered,
     human_interactions a !! session_id = Some registered ->
     interaction_id registered <> answered_id) ->
  exists message,
    handle_human_response session_id answered_id response a
    = (HandledError message, a).
Proof.
  intros Hother. unfold handle_human_response.
  destruct (human_interactions a !! session_id) as [registered|];
    [|eexists; reflexivity].
  specialize (Hother registered eq_refl). destruct registered as [id ? ? ? ? ?].
  cbn in Hother.
  destruct (String.eqb_spec id answered_id) as [Hsame|_];
    [contradiction | eexists; reflexivity].
Qed.

Lemma handle_human_response_refuses_witness :
  exists message,
    handle_human_response "session" "stale id"
      {| response_action := "approve"; response_feedback := None |}
      waiting_registry
    = (HandledError message, waiting_registry).
Proof.
  apply handle_human_response_refuses.
  intros registered Hregistered.
  unfold waiting_registry, with_interactions in Hregistered.
  cbn [human_interactions] in Hregistered.
  rewrite lookup_singleton_eq in Hregistered.
  injection Hregistered as <-. discriminate.
Defined.

(** ** Answers typed into the chat *)

(** X23: of the answers read out of a chat message, only a refusal makes the
    pipeline regenerate: the response stored is a [reject] with feedback
    exactly when the message, lowered and stripped, holds a word of refusal
    and no word of approval.  A word of approval wins over a word of
    refusal in the same message, and a request for a modification is stored
    as [modify], on which the pipeline regenerates nothing. *)
Theorem chat_answer_regenerates (lower : string -> string) (message : string) :
  let message_lower := PyStr.strip (lower message) in
  regenerates (Ret (interaction_response lower message))
  = (if negb (any_word_in approve_words message_lower)
        && any_word_in reject_words message_lower
     then 1 else 0)%nat
  /\ (action (interaction_response lower message) = "modify"
      <-> any_word_in approve_words message_lower = false
          /\ any_word_in reject_words message_lower = false
          /\ any_word_in modify_words message_lower = true).
Proof.
  cbv zeta. unfold interaction_response.
  destruct (any_word_in approve_words (PyStr.strip (lower message)));
    [split; [reflexivity|]; split; [discriminate|intros [? _]; discriminate]|].
  destruct (any_word_in reject_words (PyStr.strip (lower message)));
    [split; [reflexivity|]; split; [discriminate|intros (_ & ? & _); discriminate]|].
  destruct (any_word_in modify_words (PyStr.strip (lower message)));
    (split; [reflexivity|]); split; auto; try discriminate.
  intros (_ & _ & ?). discriminate.
Qed.

(** X24: a chat message of a session with a registered interaction is taken
    as the answer to it, in normal mode and with both services running: the
    message is answered by the interaction agent and does not reach the
    rest of [process_message], and the response read out of it is registered
    for the session.  The interaction stays registered, so the next message
    of the session is taken the same way. *)
Theorem pending_interaction_takes_the_message (lower : string -> string)
    (now_context now_user now_reply message user_id session_id : string)
    (context : option (PyDict.t PyVal)) (self : Services)
    (cm : ConversationManager.t) (a : Ambient) (pending : Interaction) :
  conversation_manager self = Some cm ->
  storm_service self = Some a ->
  human_interactions a !! session_id = Some pending ->
  let '(reply, self') :=
    storm_interaction_block lower now_context now_user now_reply message user_id
      session_id context "normal" self in
  exists r a',
    reply = Some r
    /\ reply_agent_name r = "STORM_Interaction_Agent"
    /\ reply_response r
       = response_message (action (interaction_response lower message))
           (interaction_type pending)
           (default "" (feedback (interaction_response lower message)))
    /\ is_Some (conversation_manager self')
    /\ storm_service self' = Some a'
    /\ human_interactions a' !! session_id
       = Some (with_response (interaction_response lower message) pending)
    /\ pending_answer session_id a' = Some (interaction_response lower message).
Proof.
  intros Hcm Ha Hpending. unfold storm_interaction_block.
  rewrite Hcm, Ha.
  destruct (ConversationManager.get_or_create_context _ _ _ _ cm) as [made cm1].
  cbn [String.eqb Ascii.eqb Bool.eqb]. rewrite Hpending.
  unfold process_storm_interaction_response.
  eexists _, _. split; [reflexivity|].
  cbn [reply_agent_name reply_response conversation_manager storm_service].
  split; [reflexivity|]. split; [reflexivity|]. split; [eauto|].
  split; [reflexivity|]. split.
  - cbn. apply lookup_insert_eq.
  - apply pending_answer_registered.
Qed.

Lemma pending_interaction_takes_the_message_witness :
  option_map reply_response
    (fst (storm_interaction_block ascii_lower "t0" "t1" "t2" "No, 취소" "user"
            "session" None "normal" sample_services))
  = Some ("❌ **editor_review 거부됨**" +:+ nl +:+ nl +:+ "다시 검토하겠습니다...").
Proof.
  pose proof (pending_interaction_takes_the_message ascii_lower "t0" "t1" "t2"
                "No, 취소" "user" "session" None sample_services
                (ConversationManager.new 20 None None) waiting_registry
                sample_interaction eq_refl eq_refl eq_refl) as Htaken.
  destruct (storm_interaction_block _ _ _ _ _ _ _ _ _ _) as [reply self'].
  destruct Htaken as (r & a' & -> & _ & Hresponse & _).
  cbn [fst option_map]. rewrite Hresponse. reflexivity.
Defined.
